(** * ts-transform-import-to-lazy-async-import: the import rewrite, verified

    A shallow embedding of [src/index.ts]: the candidate pre-filter of
    [visitSourceFile], the classifier [isComponentType] with [getFunction],
    and the rewrite of one import declaration in [visitNode] with
    [removeImportNames].

    The TypeScript compiler API is the environment of the transform.  Its
    syntax nodes are records and inductive types with the fields the source
    reads; the type checker is a record of functions; the calls the source
    makes to [shouldRewrite] and to the classifier are recorded in a trace,
    and a JavaScript [TypeError] is an explicit outcome. *)

From Stdlib Require Import String Ascii List ZArith Bool Arith Lia Permutation.
Import ListNotations.
Local Open Scope string_scope.

Set Implicit Arguments.
Set Warnings "-register-all".


(* ===================================================================== *)
(** ** JavaScript values and built-ins used by the source *)
(* ===================================================================== *)

Module Js.

(** The only exception the modelled code can raise by itself: reading a
    property of [undefined]. *)
Inductive Exn : Type :=
| TypeError (reading : string).

(** [String.prototype.toUpperCase] on one character.  Names are modelled
    as strings of 8-bit characters and are meant to be ASCII; on the ASCII
    range the upper-case mapping sends [a..z] to [A..Z] and fixes every
    other character.  Outside ASCII the definition is not the one of
    JavaScript, which also changes lower-case letters such as [e] with an
    accent: what is proved of the pre-filter's verdict is proved for names
    led by an ASCII character. *)
Definition toUpperCaseChar (c : ascii) : ascii :=
  let n := nat_of_ascii c in
  if (97 <=? n)%nat && (n <=? 122)%nat then ascii_of_nat (n - 32) else c.

Fixpoint toUpperCase (s : string) : string :=
  match s with
  | EmptyString => EmptyString
  | String c r => String (toUpperCaseChar c) (toUpperCase r)
  end.

(** [s[0]]: a one-character string, or [undefined] on the empty string. *)
Definition charAt0 (s : string) : option string :=
  match s with
  | EmptyString => None
  | String c _ => Some (String c EmptyString)
  end.

(** Truthiness of a string value. *)
Definition truthy (s : string) : bool := negb (s =? "").

(** [Array.prototype.indexOf] with a given notion of [===]. *)
Section ArrayIndexOf.
Variable A : Type.
Variable same : A -> A -> bool.

Fixpoint indexOfFrom (i : Z) (x : A) (l : list A) : Z :=
  match l with
  | [] => (-1)%Z
  | y :: l' => if same y x then i else indexOfFrom (i + 1)%Z x l'
  end.

Definition indexOf (l : list A) (x : A) : Z := indexOfFrom 0%Z x l.
End ArrayIndexOf.

(** [String.prototype.indexOf(needle)]. *)
Definition stringIndexOf (s needle : string) : Z :=
  match String.index 0 needle s with
  | Some n => Z.of_nat n
  | None => (-1)%Z
  end.

End Js.

(* ===================================================================== *)
(** ** Outcomes with a call trace *)
(* ===================================================================== *)

(** What the transform asks of its collaborators, in call order. *)
Inductive Event : Type :=
| ShouldRewriteCalled (importSpecifier currentFile : string)
| IsComponentTypeCalled (identifier moduleSpecifier : string).

Inductive Outcome (A : Type) : Type :=
| Returned (a : A)
| Thrown (e : Js.Exn).
Arguments Thrown {A} e.

(** A computation yields the calls it made and how it ended. *)
Definition M (A : Type) : Type := (list Event * Outcome A)%type.

Definition ret {A} (a : A) : M A := ([], Returned a).
Definition throw {A} (e : Js.Exn) : M A := ([], Thrown e).
Definition tell (ev : Event) : M unit := ([ev], Returned tt).

Definition bind {A B} (m : M A) (f : A -> M B) : M B :=
  match m with
  | (t, Returned a) => let (t', r) := f a in ((t ++ t')%list, r)
  | (t, Thrown e) => (t, Thrown e)
  end.

Definition trace {A} (m : M A) : list Event := fst m.
Definition outcome {A} (m : M A) : Outcome A := snd m.

Declare Scope js_scope.
Delimit Scope js_scope with js.
Notation "x <- m ;; k" := (bind m (fun x => k))
  (at level 61, m at next level, right associativity) : js_scope.
Notation "m ;;; k" := (bind m (fun _ => k))
  (at level 61, right associativity) : js_scope.
Local Open Scope js_scope.

(** [Array.prototype.map] with a callback that may throw. *)
Fixpoint mapM {A B} (f : A -> M B) (l : list A) : M (list B) :=
  match l with
  | [] => ret []
  | x :: l' => y <- f x ;; ys <- mapM f l' ;; ret (y :: ys)
  end.

(** [Array.prototype.filter] with a callback that may throw. *)
Fixpoint filterM {A} (f : A -> M bool) (l : list A) : M (list A) :=
  match l with
  | [] => ret []
  | x :: l' =>
      b <- f x ;; ys <- filterM f l' ;; ret (if b then x :: ys else ys)
  end.

(** [Array.prototype.some]: stops at the first element the callback
    accepts. *)
Fixpoint someM {A} (f : A -> M bool) (l : list A) : M bool :=
  match l with
  | [] => ret false
  | x :: l' => b <- f x ;; if b then ret true else someM f l'
  end.

(* ===================================================================== *)
(** ** The syntax tree *)
(* ===================================================================== *)

Module Ts.

(** TypeScript keeps identifiers in escaped form: a name that begins with
    two underscores is stored with one more. [text] undoes it. *)
Definition escapeLeadingUnderscores (identifier : string) : string :=
  match identifier with
  | String "_" (String "_" _) => String "_" identifier
  | _ => identifier
  end.

Definition unescapeLeadingUnderscores (id : string) : string :=
  match id with
  | String "_" (String "_" (String "_" rest)) => String "_" (String "_" rest)
  | _ => id
  end.

Record Identifier : Type := { escapedText : string }.

Definition text (id : Identifier) : string :=
  unescapeLeadingUnderscores (escapedText id).

(** [ts.createIdentifier(text)], also what the parser does with the
    spelling it reads. *)
Definition createIdentifier (text : string) : Identifier :=
  {| escapedText := escapeLeadingUnderscores text |}.

(** *** Import declarations *)

Record ImportSpecifier : Type :=
  { propertyName : option Identifier;   (* [Foo] in [{ Foo as Bar }] *)
    name : Identifier }.                (* the local binding *)

Inductive NamedImportBindings : Type :=
| NamedImports (elements : list ImportSpecifier)
| NamespaceImport (nsName : Identifier).

Record ImportClause : Type :=
  { clauseName : option Identifier;     (* [importClause.name] *)
    namedBindings : option NamedImportBindings }.

(** [pos] stands for the identity of the node: two nodes of one file
    never share it, and synthesized nodes carry [-1]. *)
Record ImportDeclaration : Type :=
  { pos : Z;
    decorators : option (list string);
    modifiers : option (list string);
    importClause : option ImportClause;
    moduleSpecifier : string }.         (* the literal's [text] *)

(** *** Expressions and the declarations of an imported module *)

Inductive Expression : Type :=
| ImportKeyword
| StringLiteral (literal : string)
| IdentifierExpr (id : Identifier)
| PropertyAccessExpression (expression : Expression) (member : Identifier)
| CallExpression (expression : Expression) (arguments : list Expression)
| ArrowFunction (parameters : list Identifier) (body : Expression)
| FunctionExpression (parameters : list Identifier) (body : string)
| ParenthesizedExpression (expression : Expression)
| ObjectLiteralExpression (properties : list (Identifier * Expression))
| OtherExpression (source : string).

Inductive NodeFlags : Type := FlagsNone | FlagsLet | FlagsConst.

Record VariableDeclaration : Type :=
  { varName : Identifier;
    initializer : option Expression }.

Record VariableStatement : Type :=
  { declarations : list VariableDeclaration;   (* [declarationList.declarations] *)
    flags : NodeFlags }.

Inductive HeritageToken : Type := ExtendsKeyword | ImplementsKeyword.

(** Every member of [HeritageClause.types] is an
    [ExpressionWithTypeArguments]; the type arguments are not read. *)
Record ExpressionWithTypeArguments : Type :=
  { typeExpression : Expression }.

Record HeritageClause : Type :=
  { token : HeritageToken;
    types : list ExpressionWithTypeArguments }.

(** The node kinds a symbol's [valueDeclaration] is tested for. *)
Inductive Declaration : Type :=
| ClassDeclaration (heritageClauses : option (list HeritageClause))
| FunctionDeclaration (parameters : list Identifier)
| ExportAssignment (expression : Expression)
| VariableStatementNode (statement : VariableStatement)
| VariableDeclarationNode (declaration : VariableDeclaration)
| OtherDeclaration (kind : string).

(** *** Statements of a source file *)

Inductive Statement : Type :=
| ImportStatement (d : ImportDeclaration)
| VariableStatementStmt (v : VariableStatement)
| OtherStatement (at_ : Z) (source : string).

Record SourceFile : Type :=
  { fileName : string;
    statements : list Statement }.

(** *** The symbol and type oracle *)

Inductive TypeSymbol : Type :=
| MkTypeSymbol (escapedName : string) (parent : option TypeSymbol).

Definition escapedName (s : TypeSymbol) : string :=
  match s with MkTypeSymbol n _ => n end.
Definition parent (s : TypeSymbol) : option TypeSymbol :=
  match s with MkTypeSymbol _ p => p end.

Record Signature : Type := { signatureId : nat }.
Record ModuleSymbol : Type := { moduleId : nat }.

Record Type_ : Type :=
  { getCallSignatures : list Signature;
    getSymbol : option TypeSymbol }.

(** An exported symbol as the classifier reads it. *)
Record Symbol : Type :=
  { symbolName : string;                       (* [symbol.name] *)
    valueDeclaration : option Declaration }.

Record TypeChecker : Type :=
  { getSymbolAtLocation : string -> option ModuleSymbol;
    getExportsOfModule : ModuleSymbol -> list Symbol;
    getTypeOfSymbolAtLocation : Symbol -> Declaration -> Type_;
    getReturnTypeOfSignature : Signature -> Type_ }.

Record Program : Type := { getTypeChecker : TypeChecker }.

(** *** Node identity *)

Definition Identifier_eq_dec (a b : Identifier) : {a = b} + {a <> b}.
Proof. decide equality. apply string_dec. Defined.

Definition ImportSpecifier_eq_dec (a b : ImportSpecifier) : {a = b} + {a <> b}.
Proof.
  decide equality; try apply Identifier_eq_dec.
  decide equality; apply Identifier_eq_dec.
Defined.

Definition NamedImportBindings_eq_dec (a b : NamedImportBindings) :
  {a = b} + {a <> b}.
Proof.
  decide equality; try apply Identifier_eq_dec.
  apply list_eq_dec, ImportSpecifier_eq_dec.
Defined.

Definition ImportClause_eq_dec (a b : ImportClause) : {a = b} + {a <> b}.
Proof.
  decide equality.
  - decide equality; apply NamedImportBindings_eq_dec.
  - decide equality; apply Identifier_eq_dec.
Defined.

Definition ImportDeclaration_eq_dec (a b : ImportDeclaration) :
  {a = b} + {a <> b}.
Proof.
  decide equality; try apply string_dec; try apply Z.eq_dec.
  - decide equality; apply ImportClause_eq_dec.
  - decide equality; apply list_eq_dec, string_dec.
  - decide equality; apply list_eq_dec, string_dec.
Defined.

(** [a === b] on import declaration nodes. *)
Definition sameNode (a b : ImportDeclaration) : bool :=
  if ImportDeclaration_eq_dec a b then true else false.

End Ts.

Import Ts.
Local Open Scope list_scope.

(* ===================================================================== *)
(** ** The transform: options *)
(* ===================================================================== *)

(** [createComponentWrapperExpression] is given as the expression the
    callback builds, [createImportDeclaration] as a function of the current
    file name. *)
Record Options : Type :=
  { onlyRewriteDefaultExports : bool;
    onlyRewriteIfImportCanBeRemoved : bool;
    createComponentWrapperExpression : Expression;
    createImportDeclaration : string -> option ImportDeclaration;
    shouldRewrite : string -> string -> bool }.

Definition defaultOptions : Options :=
  {| onlyRewriteDefaultExports := false;
     onlyRewriteIfImportCanBeRemoved := false;
     createComponentWrapperExpression :=
       PropertyAccessExpression (IdentifierExpr (createIdentifier "React"))
                                (createIdentifier "lazy");
     createImportDeclaration := fun _ => None;
     shouldRewrite := fun _ _ => true |}.

(* ===================================================================== *)
(** ** The classifier *)
(* ===================================================================== *)

Definition isArrowFunction (e : Expression) : bool :=
  match e with ArrowFunction _ _ => true | _ => false end.

Definition isFunctionExpression (e : Expression) : bool :=
  match e with FunctionExpression _ _ => true | _ => false end.

(** What [getFunction] returns when it is not [null]: the function
    declaration itself, or the function-valued expression it found. *)
Inductive FunctionNode : Type :=
| DeclaredFunction (parameters : list Identifier)
| FunctionValue (e : Expression).

(** [func.parameters]. *)
Definition parametersOf (func : FunctionNode) : list Identifier :=
  match func with
  | DeclaredFunction ps => ps
  | FunctionValue (ArrowFunction ps _) => ps
  | FunctionValue (FunctionExpression ps _) => ps
  | FunctionValue _ => []
  end.

(** The test on [declaration.initializer] at the end of [getFunction]. *)
Definition functionInitializer (declaration : VariableDeclaration) :
  option FunctionNode :=
  match initializer declaration with
  | Some init =>
      if isArrowFunction init || isFunctionExpression init
      then Some (FunctionValue init) else None
  | None => None
  end.

(** [getFunction], src/index.ts 195-217.  [declarations[0]] of an empty
    list is [undefined], whose [initializer] cannot be read. *)
Definition getFunction (decl : Declaration) : M (option FunctionNode) :=
  match decl with
  | FunctionDeclaration ps => ret (Some (DeclaredFunction ps))
  | ExportAssignment e =>
      if isFunctionExpression e || isArrowFunction e
      then ret (Some (FunctionValue e)) else ret None
  | VariableStatementNode s =>
      match declarations s with
      | declaration :: _ => ret (functionInitializer declaration)
      | [] => throw (Js.TypeError "initializer")
      end
  | VariableDeclarationNode declaration => ret (functionInitializer declaration)
  | _ => ret None
  end.

Definition isExtendsClause (h : HeritageClause) : bool :=
  match token h with ExtendsKeyword => true | ImplementsKeyword => false end.

(** The callback of [baseClass.types.find], src/index.ts 155-160. *)
Definition extendsReactComponentType (t : ExpressionWithTypeArguments) : bool :=
  match typeExpression t with
  | PropertyAccessExpression (IdentifierExpr object) member =>
      (escapedText member =? "Component") && (escapedText object =? "React")
  | _ => false
  end.

(** The condition of src/index.ts 177-184. *)
Definition returnsJsxElement (func : FunctionNode)
           (returnType : option TypeSymbol) : bool :=
  let returnParentType :=
    match returnType with Some r => parent r | None => None end in
  ((length (parametersOf func) =? 1)%nat || (length (parametersOf func) =? 2)%nat)
  && match returnType with
     | Some r =>
         (escapedName r =? "Element")
         && match returnParentType with
            | Some p => escapedName p =? "JSX"
            | None => false
            end
     | None => false
     end.

(** [isComponentType], src/index.ts 143-193. *)
Definition isComponentType (identifier : string) (importDecl : ImportDeclaration)
           (typeChecker : TypeChecker) : M bool :=
  tell (IsComponentTypeCalled identifier (moduleSpecifier importDecl)) ;;;
  match getSymbolAtLocation typeChecker (moduleSpecifier importDecl) with
  | Some importSymbol =>
      let exports := getExportsOfModule typeChecker importSymbol in
      match find (fun e => symbolName e =? identifier) exports with
      | Some exportedSymbol =>
          match valueDeclaration exportedSymbol with
          | Some (ClassDeclaration (Some heritageClauses)) =>
              match find isExtendsClause heritageClauses with
              | Some baseClass =>
                  ret (existsb extendsReactComponentType (types baseClass))
              | None => ret false
              end
          | Some decl =>
              func <- getFunction decl ;;
              match func with
              | Some func =>
                  let type :=
                    getTypeOfSymbolAtLocation typeChecker exportedSymbol decl in
                  match getCallSignatures type with
                  | callSignature :: _ =>
                      let returnType :=
                        getSymbol (getReturnTypeOfSignature typeChecker callSignature) in
                      ret (returnsJsxElement func returnType)
                  | [] => ret false
                  end
              | None => ret false
              end
          | None => ret false
          end
      | None => ret false
      end
  | None => ret false
  end.

(** [(element.propertyName || element.name)]. *)
Definition propertyNameOrName (element : ImportSpecifier) : Identifier :=
  match propertyName element with
  | Some p => p
  | None => name element
  end.

(** The [for] loop of [getImportedReactComponents], pushing onto
    [componentNames]. *)
Fixpoint pushComponentElements (importDecl : ImportDeclaration)
         (typeChecker : TypeChecker) (elements : list ImportSpecifier)
         (componentNames : list string) : M (list string) :=
  match elements with
  | [] => ret componentNames
  | element :: rest =>
      isComponent <-
        isComponentType (text (propertyNameOrName element)) importDecl typeChecker ;;
      pushComponentElements importDecl typeChecker rest
        (if isComponent then componentNames ++ [text (name element)]
         else componentNames)
  end.

(** [getImportedReactComponents], src/index.ts 119-141. *)
Definition getImportedReactComponents (importDecl : ImportDeclaration)
           (typeChecker : TypeChecker) (options : Options) : M (list string) :=
  match importClause importDecl with
  | Some clause =>
      componentNames <-
        match clauseName clause with
        | Some n =>
            isComponent <- isComponentType "default" importDecl typeChecker ;;
            ret (if isComponent then [text n] else [])
        | None => ret []
        end ;;
      if negb (onlyRewriteDefaultExports options) then
        match namedBindings clause with
        | Some (NamedImports elements) =>
            pushComponentElements importDecl typeChecker elements componentNames
        | _ => ret componentNames
        end
      else ret componentNames
  | None => ret []
  end.

(* ===================================================================== *)
(** ** The rewrite of one import declaration *)
(* ===================================================================== *)

(** A visitor returns one node or an array of nodes. *)
Inductive Visited : Type :=
| OneNode (node : Statement)
| NodeArray (nodes : list Statement).

Definition stringsIndexOf : list string -> string -> Z := Js.indexOf String.eqb.

(** [removeImportNames], src/index.ts 324-331.  A namespace import has no
    [elements] to filter. *)
Definition removeImportNames (namedBindings : NamedImportBindings)
           (importNamesToRemove : list string) : M NamedImportBindings :=
  match namedBindings with
  | NamedImports elements =>
      ret (NamedImports
             (filter (fun e =>
                        (stringsIndexOf importNamesToRemove
                                        (text (propertyNameOrName e)) =? -1)%Z)
                     elements))
  | NamespaceImport _ => throw (Js.TypeError "filter")
  end.

(** [(node.importClause!.namedBindings as ts.NamedImports).elements], read
    for a method call or for its [length]. *)
Definition elementsOf (clause : ImportClause) (reading : string) :
  M (list ImportSpecifier) :=
  match namedBindings clause with
  | Some (NamedImports elements) => ret elements
  | Some (NamespaceImport _) => throw (Js.TypeError reading)
  | None => throw (Js.TypeError "elements")
  end.

(** [defaultImportName !== c]. *)
Definition differsFrom (defaultImportName : option string) (c : string) : bool :=
  match defaultImportName with
  | Some d => negb (d =? c)
  | None => true
  end.

(** The [.then(m => ({ default: m.<exported> }))] continuation,
    src/index.ts 250-269. *)
Definition thenDefault (importCall : Expression) (exported : string) : Expression :=
  CallExpression
    (PropertyAccessExpression importCall (createIdentifier "then"))
    [ArrowFunction [createIdentifier "m"]
       (ParenthesizedExpression
          (ObjectLiteralExpression
             [(createIdentifier "default",
               PropertyAccessExpression (IdentifierExpr (createIdentifier "m"))
                                        (createIdentifier exported))]))].

(** [const c = wrapper(() => arrowBody)], src/index.ts 273-287. *)
Definition lazyConst (options : Options) (c : string) (arrowBody : Expression) :
  Statement :=
  VariableStatementStmt
    {| declarations :=
         [{| varName := createIdentifier c;
             initializer :=
               Some (CallExpression (createComponentWrapperExpression options)
                                    [ArrowFunction [] arrowBody]) |}];
       flags := FlagsConst |}.

(** The callback of [componentNames.map], src/index.ts 237-288. *)
Definition additionalStatement (node : ImportDeclaration) (clause : ImportClause)
           (defaultImportName : option string) (options : Options)
           (c : string) : M Statement :=
  let importCall :=
    CallExpression ImportKeyword [StringLiteral (moduleSpecifier node)] in
  arrowBody <-
    (if differsFrom defaultImportName c then
       elements <- elementsOf clause "find" ;;
       match find (fun e => escapedText (name e) =? c) elements with
       | Some element =>
           ret (thenDefault importCall (escapedText (propertyNameOrName element)))
       | None => ret importCall
       end
     else ret importCall) ;;
  ret (lazyConst options c arrowBody).

(** [ts.createImportDeclaration] and [ts.createImportClause]: fresh nodes. *)
Definition createImportDeclarationNode (decorators modifiers : option (list string))
           (importClause : option ImportClause) (moduleSpecifier : string) :
  ImportDeclaration :=
  {| pos := (-1)%Z;
     decorators := decorators;
     modifiers := modifiers;
     importClause := importClause;
     moduleSpecifier := moduleSpecifier |}.

Definition createImportClause (name : option Identifier)
           (namedBindings : option NamedImportBindings) : ImportClause :=
  {| clauseName := name; namedBindings := namedBindings |}.

(** The rewrite of a candidate with a clause, src/index.ts 227-319;
    [node] is returned when nothing is rewritten. *)
Definition rewriteImport (node : ImportDeclaration) (clause : ImportClause)
           (sourceFile : SourceFile) (program : Program) (options : Options) :
  M Visited :=
  tell (ShouldRewriteCalled (moduleSpecifier node) (fileName sourceFile)) ;;;
  if negb (shouldRewrite options (moduleSpecifier node) (fileName sourceFile))
  then ret (OneNode (ImportStatement node))
  else
    let defaultImportName := option_map escapedText (clauseName clause) in
    componentNames <-
      getImportedReactComponents node (getTypeChecker program) options ;;
    if negb (length componentNames =? 0)%nat then
      let defaultName :=
        match defaultImportName with
        | Some d =>
            if Js.truthy d && negb (stringsIndexOf componentNames d =? -1)%Z
            then None else Some d
        | None => None
        end in
      lazies <-
        mapM (additionalStatement node clause defaultImportName options)
             componentNames ;;
      let additionalStatements :=
        match createImportDeclaration options (fileName sourceFile) with
        | Some additionalImport => ImportStatement additionalImport :: lazies
        | None => lazies
        end in
      importedNames <-
        (let fromDefault :=
           match clauseName clause with
           | Some n =>
               if negb (stringsIndexOf componentNames (escapedText n) =? -1)%Z
               then 1 else 0
           | None => 0
           end in
         fromNamed <-
           match namedBindings clause with
           | Some _ => elements <- elementsOf clause "length" ;; ret (length elements)
           | None => ret 0
           end ;;
         ret (fromDefault + fromNamed)) ;;
      if (importedNames =? length componentNames)%nat then
        ret (NodeArray additionalStatements)
      else if negb (onlyRewriteIfImportCanBeRemoved options) then
        remaining <-
          match namedBindings clause with
          | Some bindings =>
              kept <- removeImportNames bindings componentNames ;; ret (Some kept)
          | None => ret None
          end ;;
        ret (NodeArray
               (additionalStatements ++
                [ImportStatement
                   (createImportDeclarationNode
                      (decorators node) (modifiers node)
                      (Some (createImportClause
                               (match defaultName with
                                | Some d =>
                                    if Js.truthy d then Some (createIdentifier d)
                                    else None
                                | None => None
                                end)
                               remaining))
                      (moduleSpecifier node))]))
      else ret (OneNode (ImportStatement node))
    else ret (OneNode (ImportStatement node)).

(** [visitNode], src/index.ts 219-322. *)
Definition visitNode (node : Statement)
           (potentialComponentImports : list ImportDeclaration)
           (sourceFile : SourceFile) (program : Program) (options : Options) :
  M Visited :=
  match node with
  | ImportStatement d =>
      if negb (Js.indexOf sameNode potentialComponentImports d =? -1)%Z then
        match importClause d with
        | Some clause => rewriteImport d clause sourceFile program options
        | None => ret (OneNode node)
        end
      else ret (OneNode node)
  | _ => ret (OneNode node)
  end.

(* ===================================================================== *)
(** ** The walk over a source file *)
(* ===================================================================== *)

(** [t[0] === t[0].toUpperCase()]; on the empty string [t[0]] is
    [undefined] and the call on it throws. *)
Definition leadsWithItsUpperCase (t : string) : M bool :=
  match Js.charAt0 t with
  | Some first => ret (first =? Js.toUpperCase first)
  | None => throw (Js.TypeError "toUpperCase")
  end.

(** The callback of [imports.filter], src/index.ts 69-79. *)
Definition isPotentialComponentImport (i : ImportDeclaration) : M bool :=
  byName <-
    match importClause i with
    | Some clause =>
        match clauseName clause with
        | Some n => leadsWithItsUpperCase (text n)
        | None => ret false
        end
    | None => ret false
    end ;;
  if byName then ret true
  else
    match importClause i with
    | Some clause =>
        match namedBindings clause with
        | Some (NamedImports elements) =>
            someM (fun e => leadsWithItsUpperCase (text (name e))) elements
        | _ => ret false
        end
    | None => ret false
    end.

(** [sourceFile.statements.filter(s => ts.isImportDeclaration(s))]. *)
Fixpoint importDeclarationsOf (l : list Statement) : list ImportDeclaration :=
  match l with
  | [] => []
  | ImportStatement d :: l' => d :: importDeclarationsOf l'
  | _ :: l' => importDeclarationsOf l'
  end.

(** [ts.visitEachChild] below a statement: the members of
    [potentialComponentImports] are top-level statements, so the visitor
    hands every descendant back as it is, and an array is returned as it
    was given. *)
Definition visitEachChild (visitedNode : Visited) : Visited := visitedNode.

(** [visitNodeAndChildren], src/index.ts 101-117. *)
Definition visitNodeAndChildren (node : Statement)
           (potentialComponentImports : list ImportDeclaration)
           (sourceFile : SourceFile) (program : Program) (options : Options) :
  M Visited :=
  visitedNode <-
    visitNode node potentialComponentImports sourceFile program options ;;
  ret (visitEachChild visitedNode).

(** Splicing of the visitor's results into the statement list. *)
Definition flattenVisited (l : list Visited) : list Statement :=
  flat_map (fun v => match v with OneNode n => [n] | NodeArray ns => ns end) l.

Definition updateSourceFileNode (sourceFile : SourceFile)
           (statements : list Statement) : SourceFile :=
  {| fileName := fileName sourceFile; statements := statements |}.

(** [visitSourceFile], src/index.ts 58-91.  [visitNode] applied to the
    source file itself hands it back, not being an import declaration; the
    visitor then runs over its statements. *)
Definition visitSourceFile (sourceFile : SourceFile) (program : Program)
           (options : Options) : M SourceFile :=
  let imports := importDeclarationsOf (statements sourceFile) in
  let hasReactImport := existsb (fun s => moduleSpecifier s =? "react") imports in
  if hasReactImport && (Js.stringIndexOf (fileName sourceFile) ".d.ts" =? -1)%Z
  then
    potentialComponentImports <- filterM isPotentialComponentImport imports ;;
    if negb (length potentialComponentImports =? 0)%nat then
      visited <-
        mapM (fun childNode =>
                visitNodeAndChildren childNode potentialComponentImports
                                     sourceFile program options)
             (statements sourceFile) ;;
      ret (updateSourceFileNode sourceFile (flattenVisited visited))
    else ret sourceFile
  else ret sourceFile.

(* ===================================================================== *)
(** ** Names bound by statements *)
(* ===================================================================== *)

(** The local names an import clause binds, default first. *)
Definition namedBindingNames (b : NamedImportBindings) : list string :=
  match b with
  | NamedImports elements => map (fun e => text (name e)) elements
  | NamespaceImport n => [text n]
  end.

Definition clauseBoundNames (clause : ImportClause) : list string :=
  match clauseName clause with Some n => [text n] | None => [] end
  ++ match namedBindings clause with
     | Some b => namedBindingNames b
     | None => []
     end.

Definition importBoundNames (d : ImportDeclaration) : list string :=
  match importClause d with
  | Some clause => clauseBoundNames clause
  | None => []
  end.

Definition statementBoundNames (s : Statement) : list string :=
  match s with
  | ImportStatement d => importBoundNames d
  | VariableStatementStmt v => map (fun d => text (varName d)) (declarations v)
  | OtherStatement _ _ => []
  end.

Definition boundNames (l : list Statement) : list string :=
  flat_map statementBoundNames l.

(** The statements of a replacement without the import that
    [createImportDeclaration] injects in front of them. *)
Definition withoutInjectedImport (options : Options) (currentFile : string)
           (l : list Statement) : list Statement :=
  match createImportDeclaration options currentFile with
  | Some _ => tl l
  | None => l
  end.

(* ===================================================================== *)
(** ** Sample modules *)
(* ===================================================================== *)

Module Sample.

Definition props : Identifier := createIdentifier "props".

(** The symbol of [JSX.Element]. *)
Definition jsxElement : TypeSymbol :=
  MkTypeSymbol "Element" (Some (MkTypeSymbol "JSX" None)).

(** Signature 0 returns [JSX.Element]; any other returns a type without
    a symbol. *)
Definition returnsElement : Signature := {| signatureId := 0 |}.

(** [class X extends React.Component<any> { ... }] *)
Definition componentClass : Declaration :=
  ClassDeclaration
    (Some [{| token := ExtendsKeyword;
              types := [{| typeExpression :=
                             PropertyAccessExpression
                               (IdentifierExpr (createIdentifier "React"))
                               (createIdentifier "Component") |}] |}]).

(** [function X(props: any) { return <p>Hello!</p>; }] *)
Definition componentFunction : Declaration := FunctionDeclaration [props].

(** The declarator of [const X = (props: any) => <div />]. *)
Definition componentArrow (x : string) : VariableDeclaration :=
  {| varName := createIdentifier x;
     initializer := Some (ArrowFunction [props] (OtherExpression "<div />")) |}.

(** The declarator of [const X = "123"]. *)
Definition stringConstant (x : string) : VariableDeclaration :=
  {| varName := createIdentifier x;
     initializer := Some (StringLiteral "123") |}.

(** [export default "123"] *)
Definition defaultString : Declaration := ExportAssignment (StringLiteral "123").

(** [export default (props: any) => <p>Hello!</p>] *)
Definition defaultArrow : Declaration :=
  ExportAssignment (ArrowFunction [props] (OtherExpression "<p>Hello!</p>")).

Definition exported (x : string) (d : Declaration) : Symbol :=
  {| symbolName := x; valueDeclaration := Some d |}.

(** A checker that knows one module, given with the call signatures of
    each export. *)
Definition checkerFor (specifier : string)
           (exports : list (Symbol * list Signature)) : TypeChecker :=
  {| getSymbolAtLocation :=
       fun s => if s =? specifier then Some {| moduleId := 1 |} else None;
     getExportsOfModule := fun _ => map fst exports;
     getTypeOfSymbolAtLocation :=
       fun sym _ =>
         {| getCallSignatures :=
              match find (fun e => symbolName (fst e) =? symbolName sym) exports with
              | Some e => snd e
              | None => []
              end;
            getSymbol := None |};
     getReturnTypeOfSignature :=
       fun sig =>
         {| getCallSignatures := [];
            getSymbol :=
              if (signatureId sig =? 0)%nat then Some jsxElement else None |} |}.

Definition programFor (specifier : string)
           (exports : list (Symbol * list Signature)) : Program :=
  {| getTypeChecker := checkerFor specifier exports |}.

Definition importOf (at_ : Z) (default : option string)
           (bindings : option NamedImportBindings) (specifier : string) :
  ImportDeclaration :=
  {| pos := at_;
     decorators := None;
     modifiers := None;
     importClause :=
       Some {| clauseName := option_map createIdentifier default;
               namedBindings := bindings |};
     moduleSpecifier := specifier |}.

(** [{ x }] and [{ x as y }] *)
Definition plain (x : string) : ImportSpecifier :=
  {| propertyName := None; name := createIdentifier x |}.
Definition aliased (x y : string) : ImportSpecifier :=
  {| propertyName := Some (createIdentifier x); name := createIdentifier y |}.

(** [import * as React from "react";] *)
Definition importReact : ImportDeclaration :=
  importOf 0 None (Some (NamespaceImport (createIdentifier "React"))) "react".

(** [const c = React.lazy(() => import(specifier))] *)
Definition lazyDefault (c specifier : string) : Statement :=
  lazyConst defaultOptions c
            (CallExpression ImportKeyword [StringLiteral specifier]).

(** [const c = React.lazy(() => import(specifier).then(m => ({ default: m.x })))] *)
Definition lazyNamed (c specifier x : string) : Statement :=
  lazyConst defaultOptions c
            (thenDefault (CallExpression ImportKeyword [StringLiteral specifier]) x).

(** test/transformer.test.ts, "importing a mix of components and other
    things gets rewritten correctly". *)
Definition mixProgram : Program :=
  programFor "./component1"
    [(exported "default" componentClass, []);
     (exported "MyComp2" (VariableDeclarationNode (componentArrow "MyComp2")),
      [returnsElement]);
     (exported "MyConst" (VariableDeclarationNode (stringConstant "MyConst")), [])].

Definition mixImport : ImportDeclaration :=
  importOf 30 (Some "MyComp1")
           (Some (NamedImports [plain "MyComp2"; plain "MyConst"]))
           "./component1".

Definition mixFile : SourceFile :=
  {| fileName := "component2.tsx";
     statements :=
       [ImportStatement importReact;
        ImportStatement mixImport;
        OtherStatement 80 "export default function (props: any) { ... }"] |}.

(** A module whose default export is a string and that exports the class
    component [Panel] and the constant [helper]. *)
Definition panelProgram : Program :=
  programFor "./panel"
    [(exported "default" defaultString, []);
     (exported "Panel" componentClass, []);
     (exported "helper" (VariableDeclarationNode (stringConstant "helper")), [])].

Definition fileWith (d : ImportDeclaration) : SourceFile :=
  {| fileName := "page.tsx";
     statements := [ImportStatement importReact; ImportStatement d] |}.

(** [import settings, { Panel } from "./panel";] *)
Definition settingsAndPanel : ImportDeclaration :=
  importOf 30 (Some "settings") (Some (NamedImports [plain "Panel"])) "./panel".

(** [import { Panel as Sidebar, helper } from "./panel";] *)
Definition aliasedPanel : ImportDeclaration :=
  importOf 30 None
           (Some (NamedImports [aliased "Panel" "Sidebar"; plain "helper"]))
           "./panel".

Definition bailOut : Options :=
  {| onlyRewriteDefaultExports := false;
     onlyRewriteIfImportCanBeRemoved := true;
     createComponentWrapperExpression :=
       createComponentWrapperExpression defaultOptions;
     createImportDeclaration := fun _ => None;
     shouldRewrite := fun _ _ => true |}.

End Sample.

(* ===================================================================== *)
(** ** The classification rules, in words of the specification *)
(* ===================================================================== *)

(** The name resolves, from the import, to the value declaration [decl] of
    the exported symbol [symbol]. *)
Definition ResolvesTo (typeChecker : TypeChecker) (specifier identifier : string)
           (symbol : Symbol) (decl : Declaration) : Prop :=
  exists importSymbol,
    getSymbolAtLocation typeChecker specifier = Some importSymbol
    /\ find (fun e => symbolName e =? identifier)
            (getExportsOfModule typeChecker importSymbol) = Some symbol
    /\ valueDeclaration symbol = Some decl.


(** [React.Component] *)
Definition reactComponent : Expression :=
  PropertyAccessExpression (IdentifierExpr (createIdentifier "React"))
                           (createIdentifier "Component").

(** Class rule: the extends clause of the class names [React.Component]. *)
Definition ClassRule (decl : Declaration) : Prop :=
  exists heritageClauses extendsClause t,
    decl = ClassDeclaration (Some heritageClauses)
    /\ find isExtendsClause heritageClauses = Some extendsClause
    /\ In t (types extendsClause)
    /\ typeExpression t = reactComponent.

Definition isFunctionValue (e : Expression) : bool :=
  isArrowFunction e || isFunctionExpression e.

(** The declaration is a function declaration, or unwraps to a function
    expression or arrow function.  [admits] says which lists of further
    declarators a variable statement may have after its first. *)
Inductive ReducesToFunction (admits : list VariableDeclaration -> Prop) :
  Declaration -> FunctionNode -> Prop :=
| reduces_function_declaration : forall ps,
    ReducesToFunction admits (FunctionDeclaration ps) (DeclaredFunction ps)
| reduces_export_assignment : forall e,
    isFunctionValue e = true ->
    ReducesToFunction admits (ExportAssignment e) (FunctionValue e)
| reduces_variable_declaration : forall d e,
    initializer d = Some e -> isFunctionValue e = true ->
    ReducesToFunction admits (VariableDeclarationNode d) (FunctionValue e)
| reduces_variable_statement : forall d others fl e,
    admits others ->
    initializer d = Some e -> isFunctionValue e = true ->
    ReducesToFunction admits
      (VariableStatementNode {| declarations := d :: others; flags := fl |})
      (FunctionValue e).


(** A variable statement of any length, unwrapped at its first
    declaration. *)
Definition firstDeclaration (others : list VariableDeclaration) : Prop := True.

(** Function rule: one or two parameters, and the first call signature
    returns the type whose symbol is [Element] in [JSX]. *)
Definition FunctionRule (admits : list VariableDeclaration -> Prop)
           (typeChecker : TypeChecker) (symbol : Symbol) (decl : Declaration) :
  Prop :=
  exists func callSignature overloads outer,
    ReducesToFunction admits decl func
    /\ (length (parametersOf func) = 1 \/ length (parametersOf func) = 2)
    /\ getCallSignatures (getTypeOfSymbolAtLocation typeChecker symbol decl)
       = callSignature :: overloads
    /\ getSymbol (getReturnTypeOfSignature typeChecker callSignature)
       = Some (MkTypeSymbol "Element" (Some (MkTypeSymbol "JSX" outer))).


(* ===================================================================== *)
(** ** The conditions for walking a module, in words of the specification *)
(* ===================================================================== *)






(** The names the pre-filter looks at: the default name and the local names
    of named imports. *)
Definition candidateNames (d : ImportDeclaration) : list string :=
  match importClause d with
  | Some clause =>
      match clauseName clause with Some n => [text n] | None => [] end
      ++ match namedBindings clause with
         | Some (NamedImports elements) => map (fun e => text (name e)) elements
         | _ => []
         end
  | None => []
  end.

(** [n] starts with a character that its upper-casing leaves alone. *)
Definition ledByOwnUpperCase (n : string) : bool :=
  match n with
  | String c _ => Ascii.eqb c (Js.toUpperCaseChar c)
  | EmptyString => false
  end.



(* ===================================================================== *)
(** ** Vocabulary of the statements below *)
(* ===================================================================== *)

Definition isImportStatement (s : Statement) : bool :=
  match s with ImportStatement _ => true | _ => false end.

Definition isClassifierCall (ev : Event) : Prop :=
  match ev with
  | IsComponentTypeCalled _ _ => True
  | ShouldRewriteCalled _ _ => False
  end.



(** Identifiers whose stored and written spellings agree, that is, that do
    not begin with two underscores. *)
Definition plainIdentifier (id : Identifier) : Prop := escapedText id = text id.

(** The verdict of the classifier on an exported name of the module that
    [d] imports; a call that throws counts as no verdict. *)
Definition classifies (typeChecker : TypeChecker) (d : ImportDeclaration)
           (identifier : string) : bool :=
  match outcome (isComponentType identifier d typeChecker) with
  | Returned true => true
  | _ => false
  end.

Definition namedElements (clause : ImportClause) : list ImportSpecifier :=
  match namedBindings clause with
  | Some (NamedImports elements) => elements
  | _ => []
  end.

Definition localName (e : ImportSpecifier) : string := text (name e).

(** The bindings of a clause that count as components: the default name
    when ["default"] classifies, and the named imports whose exported name
    classifies, unless only default exports are rewritten. *)
Definition classifiedDefault (typeChecker : TypeChecker) (d : ImportDeclaration)
           (clause : ImportClause) : list string :=
  match clauseName clause with
  | Some n => if classifies typeChecker d "default" then [text n] else []
  | None => []
  end.

Definition classifiedNamed (typeChecker : TypeChecker) (d : ImportDeclaration)
           (options : Options) (clause : ImportClause) : list ImportSpecifier :=
  if onlyRewriteDefaultExports options then []
  else filter (fun e => classifies typeChecker d (text (propertyNameOrName e)))
              (namedElements clause).

(** The same named imports, as a test on the elements. *)
Definition namedVerdict (typeChecker : TypeChecker) (d : ImportDeclaration)
           (options : Options) (e : ImportSpecifier) : bool :=
  negb (onlyRewriteDefaultExports options)
  && classifies typeChecker d (text (propertyNameOrName e)).

Definition componentNamesOf (typeChecker : TypeChecker) (d : ImportDeclaration)
           (options : Options) (clause : ImportClause) : list string :=
  classifiedDefault typeChecker d clause
  ++ map localName (classifiedNamed typeChecker d options clause).

(** The names a clause binds when it has no namespace import. *)
Definition defaultAndNamed (clause : ImportClause) : list string :=
  match clauseName clause with Some n => [text n] | None => [] end
  ++ map localName (namedElements clause).

(** The lazy constants the claims describe: for a default import, with the
    bare dynamic import; for a named import, under its local name and with
    a continuation that reads the exported name. *)
Definition defaultLazy (node : ImportDeclaration) (options : Options)
           (c : string) : Statement :=
  lazyConst options c
            (CallExpression ImportKeyword [StringLiteral (moduleSpecifier node)]).

Definition namedLazy (node : ImportDeclaration) (options : Options)
           (e : ImportSpecifier) : Statement :=
  lazyConst options (localName e)
            (thenDefault
               (CallExpression ImportKeyword [StringLiteral (moduleSpecifier node)])
               (text (propertyNameOrName e))).

(** The parts of the residual import, as [visitNode] builds them from
    [componentNames]: the default name it keeps, the elements it keeps and
    the count it compares with [componentNames.length]. *)
Definition residualDefault (clause : ImportClause) (componentNames : list string) :
  option Identifier :=
  match clauseName clause with
  | Some n =>
      if Js.truthy (escapedText n)
         && negb (stringsIndexOf componentNames (escapedText n) =? -1)%Z
      then None
      else if Js.truthy (escapedText n)
           then Some (createIdentifier (escapedText n)) else None
  | None => None
  end.

Definition residualElements (clause : ImportClause) (componentNames : list string) :
  list ImportSpecifier :=
  filter (fun e =>
            (stringsIndexOf componentNames (text (propertyNameOrName e)) =? -1)%Z)
         (namedElements clause).

Definition residualImport (node : ImportDeclaration) (clause : ImportClause)
           (componentNames : list string) : ImportDeclaration :=
  createImportDeclarationNode
    (decorators node) (modifiers node)
    (Some (createImportClause
             (residualDefault clause componentNames)
             (match namedBindings clause with
              | Some _ => Some (NamedImports (residualElements clause componentNames))
              | None => None
              end)))
    (moduleSpecifier node).

Definition importedNamesOf (clause : ImportClause) (componentNames : list string) :
  nat :=
  match clauseName clause with
  | Some n =>
      if negb (stringsIndexOf componentNames (escapedText n) =? -1)%Z
      then 1 else 0
  | None => 0
  end
  + length (namedElements clause).

(** [additionalStatements] once the optional import is put in front. *)
Definition withInjectedImport (options : Options) (currentFile : string)
           (lazies : list Statement) : list Statement :=
  match createImportDeclaration options currentFile with
  | Some additionalImport => ImportStatement additionalImport :: lazies
  | None => lazies
  end.

(* ===================================================================== *)
(** ** More sample modules *)
(* ===================================================================== *)

Module Sample2.
Import Sample.

(** [export const other = "123", Pair = (props: any) => <div />;] as a
    statement node: what [getFunction] is given when it has a variable
    statement to unwrap. *)
Definition pairStatement : Declaration :=
  VariableStatementNode
    {| declarations := [stringConstant "other"; componentArrow "Pair"];
       flags := FlagsConst |}.

(** The checker of the module that holds this statement: the value
    declaration of the symbol of a variable is its own declarator, as the
    TypeScript checker gives it, never the statement. *)
Definition pairChecker : TypeChecker :=
  checkerFor "./pair"
    [(exported "other" (VariableDeclarationNode (stringConstant "other")), []);
     (exported "Pair" (VariableDeclarationNode (componentArrow "Pair")),
      [returnsElement])].

Definition importPair : ImportDeclaration :=
  importOf 30 None (Some (NamedImports [plain "Pair"])) "./pair".

(** A module that exports the function components [_panel] and
    [__Panel]. *)
Definition widgetsProgram : Program :=
  programFor "./widgets"
    [(exported "_panel" componentFunction, [returnsElement]);
     (exported "__Panel" componentFunction, [returnsElement])].

(** [import react from "react";] *)
Definition importLowerReact : ImportDeclaration :=
  importOf 0 (Some "react") None "react".

(** [import { _panel } from "./widgets";] *)
Definition importUnderscored : ImportDeclaration :=
  importOf 30 None (Some (NamedImports [plain "_panel"])) "./widgets".

Definition underscoredFile : SourceFile :=
  {| fileName := "page.tsx";
     statements :=
       [ImportStatement importLowerReact; ImportStatement importUnderscored] |}.

(** [import { __Panel } from "./widgets";] *)
Definition importDunder : ImportDeclaration :=
  importOf 30 None (Some (NamedImports [plain "__Panel"])) "./widgets".

(** [import { __Panel as Panel } from "./widgets";] *)
Definition importDunderAliased : ImportDeclaration :=
  importOf 30 None (Some (NamedImports [aliased "__Panel" "Panel"])) "./widgets".


(** [shouldRewrite] that refuses every import. *)
Definition refuseAll : Options :=
  {| onlyRewriteDefaultExports := false;
     onlyRewriteIfImportCanBeRemoved := false;
     createComponentWrapperExpression :=
       createComponentWrapperExpression defaultOptions;
     createImportDeclaration := fun _ => None;
     shouldRewrite := fun _ _ => false |}.

(** [import { Missing, Panel } from "./panel";] where the module has no
    export [Missing]. *)
Definition missingAndPanel : ImportDeclaration :=
  importOf 30 None (Some (NamedImports [plain "Missing"; plain "Panel"]))
           "./panel".

(** test/transformer.test.ts, "importing another mix of components and
    other things gets rewritten correctly". *)
Definition anotherMixProgram : Program :=
  programFor "./component1"
    [(exported "default" defaultString, []);
     (exported "MyComp1" componentClass, []);
     (exported "MyComp2" (VariableDeclarationNode (componentArrow "MyComp2")),
      [returnsElement]);
     (exported "MyConst2" (VariableDeclarationNode (stringConstant "MyConst2")), [])].

Definition anotherMixImport : ImportDeclaration :=
  importOf 30 (Some "MyConst1")
           (Some (NamedImports [plain "MyComp1"; plain "MyComp2"; plain "MyConst2"]))
           "./component1".

(** test/transformer.test.ts, "can replace call to react" and "bails out
    if it cannot remove the import". *)
Definition twoFunctionsProgram : Program :=
  programFor "./component1"
    [(exported "default" componentFunction, [returnsElement]);
     (exported "MyComp2" componentFunction, [returnsElement]);
     (exported "MyConst" (VariableDeclarationNode (stringConstant "MyConst")), [])].

Definition importLoadable : ImportDeclaration :=
  createImportDeclarationNode
    None None
    (Some (createImportClause (Some (createIdentifier "loadable")) None))
    "@loadable/component".

Definition loadableOptions : Options :=
  {| onlyRewriteDefaultExports := true;
     onlyRewriteIfImportCanBeRemoved := false;
     createComponentWrapperExpression := IdentifierExpr (createIdentifier "loadable");
     createImportDeclaration := fun _ => Some importLoadable;
     shouldRewrite := fun _ _ => true |}.

Definition defaultAndComp2 : ImportDeclaration :=
  importOf 30 (Some "MyComp1") (Some (NamedImports [plain "MyComp2"]))
           "./component1".

Definition defaultComp2AndConst : ImportDeclaration :=
  importOf 30 (Some "MyComp1")
           (Some (NamedImports [plain "MyComp2"; plain "MyConst"]))
           "./component1".

(** test/transformer.test.ts, "importing a default arrow function component
    gets rewritten" and "importing a named export function component as
    aliased gets rewritten". *)
Definition arrowAndFunctionProgram : Program :=
  programFor "./component1"
    [(exported "default" defaultArrow, [returnsElement]);
     (exported "MyComp1" componentFunction, [returnsElement])].

Definition importDefaultOnly : ImportDeclaration :=
  importOf 30 (Some "MyComp1") None "./component1".

Definition importAliased : ImportDeclaration :=
  importOf 30 None (Some (NamedImports [aliased "MyComp1" "MyAliasedComp"]))
           "./component1".

(** [import MyComp1, * as all from "./component1";] *)
Definition defaultAndNamespace : ImportDeclaration :=
  importOf 30 (Some "MyComp1") (Some (NamespaceImport (createIdentifier "all")))
           "./component1".

End Sample2.

(* ===================================================================== *)
(** ** The transformer factory *)
(* ===================================================================== *)

(** [Partial<Options>]: each key is absent or holds a value of its type.
    A key that is present and holds [undefined], which the spread would
    copy over the default, is not represented. *)
Record PartialOptions : Type :=
  { givenOnlyRewriteDefaultExports : option bool;
    givenOnlyRewriteIfImportCanBeRemoved : option bool;
    givenCreateComponentWrapperExpression : option Expression;
    givenCreateImportDeclaration : option (string -> option ImportDeclaration);
    givenShouldRewrite : option (string -> string -> bool) }.

(** [{}] *)
Definition noOptions : PartialOptions :=
  {| givenOnlyRewriteDefaultExports := None;
     givenOnlyRewriteIfImportCanBeRemoved := None;
     givenCreateComponentWrapperExpression := None;
     givenCreateImportDeclaration := None;
     givenShouldRewrite := None |}.

(** An [Options] object passed where [Partial<Options>] is expected. *)
Definition allGiven (o : Options) : PartialOptions :=
  {| givenOnlyRewriteDefaultExports := Some (onlyRewriteDefaultExports o);
     givenOnlyRewriteIfImportCanBeRemoved :=
       Some (onlyRewriteIfImportCanBeRemoved o);
     givenCreateComponentWrapperExpression :=
       Some (createComponentWrapperExpression o);
     givenCreateImportDeclaration := Some (createImportDeclaration o);
     givenShouldRewrite := Some (shouldRewrite o) |}.

Definition orElse {A} (given : option A) (base : A) : A :=
  match given with Some a => a | None => base end.

(** [{ ...base, ...options }] *)
Definition spread (base : Options) (options : PartialOptions) : Options :=
  {| onlyRewriteDefaultExports :=
       orElse (givenOnlyRewriteDefaultExports options)
              (onlyRewriteDefaultExports base);
     onlyRewriteIfImportCanBeRemoved :=
       orElse (givenOnlyRewriteIfImportCanBeRemoved options)
              (onlyRewriteIfImportCanBeRemoved base);
     createComponentWrapperExpression :=
       orElse (givenCreateComponentWrapperExpression options)
              (createComponentWrapperExpression base);
     createImportDeclaration :=
       orElse (givenCreateImportDeclaration options)
              (createImportDeclaration base);
     shouldRewrite :=
       orElse (givenShouldRewrite options) (shouldRewrite base) |}.

(** What calling [transformer] gives: the [Error] it throws, or the
    function from source files to source files (the transformation context
    is only handed on to [ts.visitEachChild]). *)
Inductive Factory : Type :=
| FactoryThrows (message : string)
| TransformerFactory (transform : SourceFile -> M SourceFile).

(** [transformer], src/index.ts 43-56.  A missing argument is [None]: for
    [options] the default parameter value [defaultOptions] takes its
    place. *)
Definition transformer (program : option Program)
           (options : option PartialOptions) : Factory :=
  let options :=
    spread defaultOptions
           (match options with
            | Some given => given
            | None => allGiven defaultOptions
            end) in
  match program with
  | None => FactoryThrows "No ts.Program was passed to the transformer factory"
  | Some program =>
      TransformerFactory (fun file => visitSourceFile file program options)
  end.

(** Running a factory on a file, when there is one. *)
Definition transform (factory : Factory) (file : SourceFile) :
  option (M SourceFile) :=
  match factory with
  | FactoryThrows _ => None
  | TransformerFactory f => Some (f file)
  end.

(* ===================================================================== *)
(** ** Vocabulary of the further properties *)
(* ===================================================================== *)

(** The call is one the transform may make for this file under these
    options: [shouldRewrite] on an import of the file and on the file's
    name, the classifier on an import of the file that [shouldRewrite]
    accepted. *)
Definition callOfFile (sourceFile : SourceFile) (options : Options)
           (ev : Event) : Prop :=
  match ev with
  | ShouldRewriteCalled specifier currentFile =>
      currentFile = fileName sourceFile
      /\ exists d, In d (importDeclarationsOf (statements sourceFile))
                   /\ moduleSpecifier d = specifier
  | IsComponentTypeCalled _ specifier =>
      shouldRewrite options specifier (fileName sourceFile) = true
      /\ exists d, In d (importDeclarationsOf (statements sourceFile))
                   /\ moduleSpecifier d = specifier
  end.

(** The calls of [shouldRewrite] in a trace, as pairs of arguments. *)
Fixpoint shouldRewriteCalls (t : list Event) : list (string * string) :=
  match t with
  | [] => []
  | ShouldRewriteCalled specifier currentFile :: t' =>
      (specifier, currentFile) :: shouldRewriteCalls t'
  | IsComponentTypeCalled _ _ :: t' => shouldRewriteCalls t'
  end.

(** The classifier calls a statement causes when none of them throws: the
    default export first, then each named import by its exported name. *)
Definition classifierCallsOf (d : ImportDeclaration) (clause : ImportClause)
           (options : Options) : list Event :=
  match clauseName clause with
  | Some _ => [IsComponentTypeCalled "default" (moduleSpecifier d)]
  | None => []
  end
  ++ if onlyRewriteDefaultExports options then []
     else map (fun e => IsComponentTypeCalled (text (propertyNameOrName e))
                                              (moduleSpecifier d))
              (namedElements clause).

(** A lazy constant of [node]: one [const] declaration, the wrapper called
    on a function without parameters that loads the module of [node],
    directly or through [.then]. *)
Definition isLazyConstOf (node : ImportDeclaration) (options : Options)
           (s : Statement) : Prop :=
  exists c body,
    s = lazyConst options c body
    /\ (body = CallExpression ImportKeyword [StringLiteral (moduleSpecifier node)]
        \/ exists exported,
            body = thenDefault
                     (CallExpression ImportKeyword
                                     [StringLiteral (moduleSpecifier node)])
                     exported).

(** An import whose names are distinct and not empty, that has no alias,
    and whose default name is not led by two underscores. *)
Definition plainImport (d : ImportDeclaration) : Prop :=
  forall clause,
    importClause d = Some clause ->
    (forall n, clauseName clause = Some n -> plainIdentifier n /\ text n <> "")
    /\ (forall e, In e (namedElements clause) ->
                  propertyName e = None /\ text (name e) <> "")
    /\ NoDup (defaultAndNamed clause).

(** The verdict of the pre-filter on an import, when it gives one. *)
Definition passesPreFilter (d : ImportDeclaration) : bool :=
  match outcome (isPotentialComponentImport d) with
  | Returned true => true
  | _ => false
  end.

(** How one statement of the input shows in the output: as itself, or, for
    an import with a clause, as the array its rewrite returned. *)
Definition blockOf (sourceFile : SourceFile) (program : Program)
           (options : Options) (s : Statement) (block : list Statement) : Prop :=
  block = [s]
  \/ exists d clause,
      s = ImportStatement d
      /\ importClause d = Some clause
      /\ outcome (rewriteImport d clause sourceFile program options)
         = Returned (NodeArray block).

(* ===================================================================== *)
(** ** Sample inputs of the further properties *)
(* ===================================================================== *)

Module Sample3.
Import Sample Sample2.

(** [import { MyConst } from "./component1";] in the module of the mixed
    test: a candidate that holds no component. *)
Definition importConstOnly : ImportDeclaration :=
  importOf 30 None (Some (NamedImports [plain "MyConst"])) "./component1".

(** [import * as all from "./component1";] and [import "./component1";] *)
Definition importNamespaceOnly : ImportDeclaration :=
  importOf 30 None (Some (NamespaceImport (createIdentifier "all")))
           "./component1".

Definition importForEffect : ImportDeclaration :=
  {| pos := 30;
     decorators := None;
     modifiers := None;
     importClause := None;
     moduleSpecifier := "./component1" |}.

(** A component file named [widgets.d.tsx]. *)
Definition declarationLikeFile : SourceFile :=
  {| fileName := "widgets.d.tsx";
     statements := [ImportStatement importReact; ImportStatement mixImport] |}.

(** An oracle that answers a variable statement without declarations, the
    one kind of value declaration on which the classifier throws;
    TypeScript's checker does not give one. *)
Definition emptyStatementChecker : TypeChecker :=
  checkerFor "./empty"
    [(exported "Nothing"
               (VariableStatementNode {| declarations := []; flags := FlagsConst |}),
      [])].

Definition importNothing : ImportDeclaration :=
  importOf 30 None (Some (NamedImports [plain "Nothing"])) "./empty".

(** [import __MyComp from "./component1";] in the module of the mixed
    test, whose default export is a class component. *)
Definition importDunderDefault : ImportDeclaration :=
  importOf 30 (Some "__MyComp") None "./component1".

(** [import __D, { MyConst, helper } from "./component1";] in the module
    of the mixed test: a default component whose name begins with two
    underscores, beside two names that are not components. *)
Definition importDunderAndConstants : ImportDeclaration :=
  importOf 30 (Some "__D")
           (Some (NamedImports [plain "MyConst"; plain "helper"]))
           "./component1".

(** [import Widgets, { _panel } from "./widgets";] where the module has no
    default export. *)
Definition importMissingDefault : ImportDeclaration :=
  importOf 30 (Some "Widgets") (Some (NamedImports [plain "_panel"]))
           "./widgets".

(** [{ shouldRewrite: () => false }] *)
Definition onlyRefuse : PartialOptions :=
  {| givenOnlyRewriteDefaultExports := None;
     givenOnlyRewriteIfImportCanBeRemoved := None;
     givenCreateComponentWrapperExpression := None;
     givenCreateImportDeclaration := None;
     givenShouldRewrite := Some (fun _ _ => false) |}.

End Sample3.

(* ===================================================================== *)
(** * Properties *)
(* ===================================================================== *)

(** ** Computations *)

Lemma bind_ret A B (a : A) (f : A -> M B) : bind (ret a) f = f a.
Proof. unfold bind, ret. destruct (f a). reflexivity. Qed.

Lemma outcome_bind_tell B (ev : Event) (k : M B) :
  outcome (bind (tell ev) (fun _ => k)) = outcome k.
Proof. unfold bind, tell, outcome. destruct k. reflexivity. Qed.

Lemma trace_bind_tell B (ev : Event) (k : M B) :
  trace (bind (tell ev) (fun _ => k)) = ev :: trace k.
Proof. unfold bind, tell, trace. destruct k. reflexivity. Qed.

Lemma bind_returned A B (m : M A) (f : A -> M B) t a :
  m = (t, Returned a) ->
  bind m f = ((t ++ trace (f a))%list, outcome (f a)).
Proof. intros ->. unfold bind, trace, outcome. destruct (f a). reflexivity. Qed.


(** ** The classifier *)

Lemma getFunction_silent decl : trace (getFunction decl) = [].
Proof.
  destruct decl as [h | ps | e | s | d | k]; simpl; try reflexivity.
  - destruct (isFunctionExpression e || isArrowFunction e); reflexivity.
  - destruct (declarations s); reflexivity.
Qed.

(** One call of the classifier is one event, whatever it answers. *)
Lemma isComponentType_trace identifier importDecl typeChecker :
  trace (isComponentType identifier importDecl typeChecker)
  = [IsComponentTypeCalled identifier (moduleSpecifier importDecl)].
Proof.
  unfold isComponentType. rewrite trace_bind_tell. f_equal.
  destruct (getSymbolAtLocation typeChecker (moduleSpecifier importDecl));
    [| reflexivity].
  destruct (find _ _) as [sym |]; [| reflexivity].
  destruct (valueDeclaration sym) as [decl |]; [| reflexivity].
  assert (G : forall k : option FunctionNode -> M bool,
             (forall r, trace (k r) = []) ->
             trace (bind (getFunction decl) k) = []).
  { intros k Hk. pose proof (getFunction_silent decl) as Hs.
    destruct (getFunction decl) as [t [r | e]]; simpl in Hs; subst t.
    - rewrite (bind_returned _ eq_refl). apply Hk.
    - reflexivity. }
  assert (K : forall r : option FunctionNode,
             trace (match r with
                    | Some func =>
                        match getCallSignatures
                                (getTypeOfSymbolAtLocation typeChecker sym decl) with
                        | callSignature :: _ =>
                            ret (returnsJsxElement
                                   func
                                   (getSymbol (getReturnTypeOfSignature
                                                 typeChecker callSignature)))
                        | [] => ret false
                        end
                    | None => ret false
                    end) = []).
  { intros [func |]; [| reflexivity].
    destruct (getCallSignatures _); reflexivity. }
  destruct decl as [[hcs |] | ps | e | s | d | k]; try (apply G; exact K).
  destruct (find isExtendsClause hcs); reflexivity.
Qed.

(** The classifier reads nothing of the import but its module specifier. *)
Lemma isComponentType_specifier identifier d d' typeChecker :
  moduleSpecifier d = moduleSpecifier d' ->
  isComponentType identifier d typeChecker
  = isComponentType identifier d' typeChecker.
Proof. intros E. unfold isComponentType. rewrite E. reflexivity. Qed.

Lemma extendsReactComponentType_spec t :
  extendsReactComponentType t = true <-> typeExpression t = reactComponent.
Proof.
  unfold extendsReactComponentType, reactComponent. split.
  - destruct (typeExpression t) as [| | | e m | | | | | |]; try discriminate.
    destruct e as [| | [o] | | | | | | |]; try discriminate.
    destruct m as [m]. simpl. intros H.
    apply andb_true_iff in H as [Hm Ho].
    apply String.eqb_eq in Hm, Ho. subst. reflexivity.
  - intros ->. reflexivity.
Qed.

Lemma returnsJsxElement_spec func returnType :
  returnsJsxElement func returnType = true <->
  (length (parametersOf func) = 1 \/ length (parametersOf func) = 2)
  /\ exists outer,
      returnType = Some (MkTypeSymbol "Element" (Some (MkTypeSymbol "JSX" outer))).
Proof.
  unfold returnsJsxElement. split.
  - intros H. apply andb_true_iff in H as [Hp Hr]. split.
    + apply orb_true_iff in Hp as [Hp | Hp]; apply Nat.eqb_eq in Hp; auto.
    + destruct returnType as [[n [[pn outer] |]] |]; simpl in Hr;
        try discriminate;
        try (apply andb_true_iff in Hr as [_ Hr]; discriminate).
      apply andb_true_iff in Hr as [Hn Hpn].
      apply String.eqb_eq in Hn, Hpn. subst. eauto.
  - intros [[Hp | Hp] [outer ->]]; rewrite Hp; reflexivity.
Qed.

(** [getFunction] finds a function exactly in the declarations that reduce
    to one, a variable statement being unwrapped at its first declaration. *)
Lemma getFunction_spec decl func :
  outcome (getFunction decl) = Returned (Some func) <->
  ReducesToFunction firstDeclaration decl func.
Proof.
  split.
  - destruct decl as [h | ps | e | [[| d others] fl] | d | k]; simpl;
      try discriminate.
    + intros H. injection H as <-. constructor.
    + destruct (isFunctionExpression e || isArrowFunction e) eqn:E; simpl;
        [| discriminate].
      intros H. injection H as <-. constructor.
      unfold isFunctionValue. rewrite orb_comm. exact E.
    + unfold functionInitializer.
      destruct (initializer d) as [init |] eqn:Ei; [| discriminate].
      destruct (isArrowFunction init || isFunctionExpression init) eqn:E;
        [| discriminate].
      intros H. injection H as <-.
      apply reduces_variable_statement with (e := init); auto. exact I.
    + unfold functionInitializer.
      destruct (initializer d) as [init |] eqn:Ei; [| discriminate].
      destruct (isArrowFunction init || isFunctionExpression init) eqn:E;
        [| discriminate].
      intros H. injection H as <-. constructor; auto.
  - intros H. destruct H as [ps | e E | d e Ei E | d others fl e _ Ei E]; simpl.
    + reflexivity.
    + unfold isFunctionValue in E. rewrite orb_comm in E. rewrite E. reflexivity.
    + unfold functionInitializer. rewrite Ei.
      unfold isFunctionValue in E. rewrite E. reflexivity.
    + unfold functionInitializer. rewrite Ei.
      unfold isFunctionValue in E. rewrite E. reflexivity.
Qed.

Lemma outcome_bind A B (m : M A) (k : A -> M B) a :
  outcome m = Returned a -> outcome (bind m k) = outcome (k a).
Proof.
  destruct m as [t r]. simpl. intros ->.
  unfold bind, outcome. destruct (k a). reflexivity.
Qed.

Lemma outcome_bind_inv A B (m : M A) (k : A -> M B) b :
  outcome (bind m k) = Returned b ->
  exists a, outcome m = Returned a /\ outcome (k a) = Returned b.
Proof.
  destruct m as [t [a | e]]; simpl.
  - unfold bind, outcome. destruct (k a) eqn:E. simpl. intros ->.
    exists a. rewrite E. auto.
  - discriminate.
Qed.

(** The part of [isComponentType] that follows [getFunction]. *)
Lemma signature_step typeChecker sym decl r :
  outcome (match r with
           | Some func =>
               match getCallSignatures
                       (getTypeOfSymbolAtLocation typeChecker sym decl) with
               | callSignature :: _ =>
                   ret (returnsJsxElement
                          func
                          (getSymbol (getReturnTypeOfSignature
                                        typeChecker callSignature)))
               | [] => ret false
               end
           | None => ret false
           end) = Returned true <->
  exists func callSignature overloads outer,
    r = Some func
    /\ (length (parametersOf func) = 1 \/ length (parametersOf func) = 2)
    /\ getCallSignatures (getTypeOfSymbolAtLocation typeChecker sym decl)
       = callSignature :: overloads
    /\ getSymbol (getReturnTypeOfSignature typeChecker callSignature)
       = Some (MkTypeSymbol "Element" (Some (MkTypeSymbol "JSX" outer))).
Proof.
  split.
  - destruct r as [func |]; [| discriminate].
    destruct (getCallSignatures _) as [| callSignature overloads] eqn:Es;
      [discriminate |].
    simpl. intros H. injection H as H.
    apply returnsJsxElement_spec in H as [Hp [outer Hr]].
    exists func, callSignature, overloads, outer. auto.
  - intros (func & callSignature & overloads & outer & -> & Hp & Es & Hr).
    rewrite Es. simpl. f_equal. apply returnsJsxElement_spec. eauto.
Qed.


(** How the classifier answers once the name has resolved to [decl]. *)
Lemma isComponentType_resolved identifier importDecl typeChecker sym decl :
  ResolvesTo typeChecker (moduleSpecifier importDecl) identifier sym decl ->
  (outcome (isComponentType identifier importDecl typeChecker) = Returned true <->
   ClassRule decl \/ FunctionRule firstDeclaration typeChecker sym decl).
Proof.
  intros (importSymbol & Em & Ef & Ev).
  unfold isComponentType. rewrite outcome_bind_tell, Em, Ef, Ev.
  assert (F : outcome
                (bind (getFunction decl)
                      (fun func =>
                         match func with
                         | Some func =>
                             match getCallSignatures
                                     (getTypeOfSymbolAtLocation typeChecker sym decl) with
                             | callSignature :: _ =>
                                 ret (returnsJsxElement
                                        func
                                        (getSymbol (getReturnTypeOfSignature
                                                      typeChecker callSignature)))
                             | [] => ret false
                             end
                         | None => ret false
                         end)) = Returned true <->
              FunctionRule firstDeclaration typeChecker sym decl).
  { split.
    - intros H. apply outcome_bind_inv in H as (r & Hg & Hk).
      apply signature_step in Hk
        as (func & callSignature & overloads & outer & -> & Hp & Es & Hr).
      apply getFunction_spec in Hg.
      exists func, callSignature, overloads, outer. auto.
    - intros (func & callSignature & overloads & outer & Hg & Hp & Es & Hr).
      apply getFunction_spec in Hg.
      rewrite (outcome_bind _ _ Hg).
      apply (proj2 (signature_step typeChecker sym decl (Some func))).
      exists func, callSignature, overloads, outer. auto. }
  assert (NC : (forall hcs, decl <> ClassDeclaration (Some hcs)) ->
               (ClassRule decl \/
                FunctionRule firstDeclaration typeChecker sym decl) <->
               FunctionRule firstDeclaration typeChecker sym decl).
  { intros Hne. split; [| auto].
    intros [(hcs & ec & t & E & _) | H]; [| exact H].
    exfalso. exact (Hne hcs E). }
  destruct decl as [[hcs |] | ps | e | s | d | k];
    try (rewrite F; symmetry; apply NC; intros hcs0; discriminate).
  (* a class with heritage clauses *)
  split.
  - destruct (find isExtendsClause hcs) as [baseClass |] eqn:Eb; [| discriminate].
    simpl. intros H. injection H as H.
    apply existsb_exists in H as (t & Ht & Hx).
    apply extendsReactComponentType_spec in Hx.
    left. exists hcs, baseClass, t. auto.
  - intros [(hcs' & ec & t & E & Eb & Ht & Hx) | (func & _ & _ & _ & Hg & _)].
    + injection E as <-. rewrite Eb. simpl. f_equal.
      apply existsb_exists. exists t. split; [exact Ht |].
      apply extendsReactComponentType_spec. exact Hx.
    + inversion Hg.
Qed.





(** C10: when a variable statement is unwrapped, the first declaration
    decides, and it alone: a function in its initializer is what
    [getFunction] returns, without one [getFunction] returns [null],
    whatever the declarations that follow hold; and a name that resolves
    to the statement is classified by the function rule on the first
    declaration, whichever declaration binds it. *)
Theorem C10_getFunction_first_declaration_only :
  forall (first : VariableDeclaration) (others : list VariableDeclaration)
         (fl : NodeFlags),
    (forall e, initializer first = Some e -> isFunctionValue e = true ->
               getFunction (VariableStatementNode
                              {| declarations := first :: others; flags := fl |})
               = ret (Some (FunctionValue e)))
    /\ ((forall e, initializer first = Some e -> isFunctionValue e = false) ->
        getFunction (VariableStatementNode
                       {| declarations := first :: others; flags := fl |})
        = ret None)
    /\ (forall others' fl',
           getFunction (VariableStatementNode
                          {| declarations := first :: others; flags := fl |})
           = getFunction (VariableStatementNode
                            {| declarations := first :: others'; flags := fl' |}))
    /\ forall identifier importDecl typeChecker symbol,
        ResolvesTo typeChecker (moduleSpecifier importDecl) identifier symbol
                   (VariableStatementNode
                      {| declarations := first :: others; flags := fl |}) ->
        (outcome (isComponentType identifier importDecl typeChecker)
         = Returned true
         <-> exists e callSignature overloads outer,
              initializer first = Some e
              /\ isFunctionValue e = true
              /\ (length (parametersOf (FunctionValue e)) = 1
                  \/ length (parametersOf (FunctionValue e)) = 2)
              /\ getCallSignatures
                   (getTypeOfSymbolAtLocation
                      typeChecker symbol
                      (VariableStatementNode
                         {| declarations := first :: others; flags := fl |}))
                 = callSignature :: overloads
              /\ getSymbol (getReturnTypeOfSignature typeChecker callSignature)
                 = Some (MkTypeSymbol "Element"
                                      (Some (MkTypeSymbol "JSX" outer))))
        /\ ((forall e, initializer first = Some e -> isFunctionValue e = false) ->
            outcome (isComponentType identifier importDecl typeChecker)
            = Returned false).
Proof.
  intros first others fl.
  assert (Found : forall e, initializer first = Some e ->
                            isFunctionValue e = true ->
                            functionInitializer first = Some (FunctionValue e)).
  { intros e He Hf. unfold functionInitializer. rewrite He.
    unfold isFunctionValue in Hf. rewrite Hf. reflexivity. }
  assert (Missed : (forall e, initializer first = Some e ->
                              isFunctionValue e = false) ->
                   functionInitializer first = None).
  { intros H. unfold functionInitializer.
    destruct (initializer first) as [e |]; [| reflexivity].
    specialize (H e eq_refl). unfold isFunctionValue in H. rewrite H.
    reflexivity. }
  split; [| split; [| split]].
  - intros e He Hf. simpl. rewrite (Found e He Hf). reflexivity.
  - intros H. simpl. rewrite (Missed H). reflexivity.
  - intros others' fl'. reflexivity.
  - intros identifier importDecl typeChecker symbol R. split.
    + rewrite (isComponentType_resolved importDecl R). split.
      * intros [C | F].
        -- destruct C as (hcs & ec & t & E & _). discriminate.
        -- destruct F as (func & cs & ov & outer & Hr & Hp & Hs & Hg).
           inversion Hr; subst. exists e, cs, ov, outer. auto.
      * intros (e & cs & ov & outer & He & Hf & Hp & Hs & Hg). right.
        exists (FunctionValue e), cs, ov, outer.
        split; [constructor; [exact I | exact He | exact Hf] | auto].
    + intros H. destruct R as (m & Em & Ef & Ev).
      unfold isComponentType. rewrite outcome_bind_tell, Em, Ef, Ev.
      simpl. rewrite (Missed H). reflexivity.
Qed.

(** With the checker of TypeScript the statement is not what a name
    resolves to: [getFunction] on [export const other = "123", Pair =
    (props: any) => <div />] looks at [other] and returns [null], while
    the name [Pair] resolves to its own declarator and is classified as a
    component. *)
Example later_declarator_is_classified_through_its_own_declaration :
  getFunction Sample2.pairStatement = ret None
  /\ outcome (isComponentType "Pair" Sample2.importPair Sample2.pairChecker)
     = Returned true
  /\ outcome (isComponentType "other" Sample2.importPair Sample2.pairChecker)
     = Returned false.
Proof. repeat split. Qed.

(** ** Traces *)

Lemma trace_bind A B (m : M A) (k : A -> M B) :
  trace (bind m k)
  = (trace m ++ match outcome m with
                | Returned a => trace (k a)
                | Thrown _ => []
                end)%list.
Proof.
  destruct m as [t [a | e]]; unfold bind, trace, outcome; simpl.
  - destruct (k a). reflexivity.
  - rewrite app_nil_r. reflexivity.
Qed.

Lemma silent_bind A B (m : M A) (k : A -> M B) :
  trace m = [] -> (forall a, trace (k a) = []) -> trace (bind m k) = [].
Proof.
  intros Hm Hk. rewrite trace_bind, Hm. destruct (outcome m); simpl; auto.
Qed.

Lemma silent_mapM A B (f : A -> M B) (l : list A) :
  (forall a, trace (f a) = []) -> trace (mapM f l) = [].
Proof.
  intros Hf. induction l as [| x l IH]; simpl; [reflexivity |].
  apply silent_bind; [apply Hf |]. intros y.
  apply silent_bind; [exact IH |]. reflexivity.
Qed.

Ltac silent :=
  repeat first
         [ reflexivity
         | apply silent_bind; [| intros ?]
         | apply silent_mapM; intros ?
         | match goal with
           | |- context [match ?x with _ => _ end] => destruct x
           end ].

Lemma elementsOf_silent clause reading : trace (elementsOf clause reading) = [].
Proof. unfold elementsOf. silent. Qed.

Lemma removeImportNames_silent bindings names :
  trace (removeImportNames bindings names) = [].
Proof. unfold removeImportNames. silent. Qed.

Lemma additionalStatement_silent node clause defaultImportName options c :
  trace (additionalStatement node clause defaultImportName options c) = [].
Proof.
  unfold additionalStatement.
  apply silent_bind; [| reflexivity].
  destruct (differsFrom defaultImportName c); [| reflexivity].
  apply silent_bind; [apply elementsOf_silent |].
  intros elements. destruct (find _ elements); reflexivity.
Qed.

Lemma pushComponentElements_calls importDecl typeChecker elements names :
  Forall isClassifierCall
         (trace (pushComponentElements importDecl typeChecker elements names)).
Proof.
  revert names. induction elements as [| e rest IH]; intros names; simpl.
  - constructor.
  - rewrite trace_bind, isComponentType_trace. constructor; [exact I |].
    destruct (outcome _) as [b | x]; [apply IH | constructor].
Qed.

Lemma getImportedReactComponents_calls importDecl typeChecker options :
  Forall isClassifierCall
         (trace (getImportedReactComponents importDecl typeChecker options)).
Proof.
  unfold getImportedReactComponents.
  destruct (importClause importDecl) as [clause |]; [| constructor].
  rewrite trace_bind. apply Forall_app. split.
  - destruct (clauseName clause); [| constructor].
    rewrite trace_bind, isComponentType_trace. constructor; [exact I |].
    destruct (outcome _); constructor.
  - destruct (outcome _) as [names | x]; [| constructor].
    destruct (negb (onlyRewriteDefaultExports options)); [| constructor].
    destruct (namedBindings clause) as [[elements | n] |]; try constructor.
    apply pushComponentElements_calls.
Qed.

(** What [rewriteImport] does once [componentNames] is known makes no
    call. *)
Lemma rewriteImport_trace node clause sourceFile program options :
  exists calls,
    trace (rewriteImport node clause sourceFile program options)
    = ShouldRewriteCalled (moduleSpecifier node) (fileName sourceFile) :: calls
    /\ Forall isClassifierCall calls.
Proof.
  unfold rewriteImport. rewrite trace_bind_tell. eexists. split; [reflexivity |].
  destruct (negb (shouldRewrite options _ _)); [constructor |].
  rewrite trace_bind. apply Forall_app. split.
  - apply getImportedReactComponents_calls.
  - destruct (outcome _) as [names | x]; [| constructor].
    match goal with |- Forall _ ?t => assert (E : t = []) end.
    { destruct (negb (length names =? 0)%nat); [| reflexivity].
      apply silent_bind.
      { apply silent_mapM. intros c. apply additionalStatement_silent. }
      intros lazies. apply silent_bind.
      { apply silent_bind; [| reflexivity].
        destruct (namedBindings clause); [| reflexivity].
        apply silent_bind; [apply elementsOf_silent | reflexivity]. }
      intros importedNames.
      destruct (importedNames =? length names)%nat; [reflexivity |].
      destruct (negb (onlyRewriteIfImportCanBeRemoved options)); [| reflexivity].
      apply silent_bind; [| reflexivity].
      destruct (namedBindings clause); [| reflexivity].
      apply silent_bind; [apply removeImportNames_silent | reflexivity]. }
    rewrite E. constructor.
Qed.

(** C7: for every candidate import statement, [shouldRewrite] is the first
    call the visit makes, every later call being a call of the classifier;
    and when it answers false the statement is returned as it is, without
    any classification, whatever the program. *)
Theorem C7_shouldRewrite_consulted_first :
  forall d clause potentialComponentImports sourceFile program options,
    Js.indexOf sameNode potentialComponentImports d <> (-1)%Z ->
    importClause d = Some clause ->
    (exists calls,
        trace (visitNode (ImportStatement d) potentialComponentImports
                         sourceFile program options)
        = ShouldRewriteCalled (moduleSpecifier d) (fileName sourceFile) :: calls
        /\ Forall isClassifierCall calls)
    /\ (shouldRewrite options (moduleSpecifier d) (fileName sourceFile) = false ->
        visitNode (ImportStatement d) potentialComponentImports
                  sourceFile program options
        = ([ShouldRewriteCalled (moduleSpecifier d) (fileName sourceFile)],
           Returned (OneNode (ImportStatement d)))).
Proof.
  intros d clause potential sourceFile program options Hin Hclause.
  assert (E : visitNode (ImportStatement d) potential sourceFile program options
              = rewriteImport d clause sourceFile program options).
  { unfold visitNode. rewrite Hclause.
    destruct (Z.eqb_spec (Js.indexOf sameNode potential d) (-1)) as [C | _];
      [contradiction | reflexivity]. }
  rewrite E. split.
  - apply rewriteImport_trace.
  - intros Hno. unfold rewriteImport. rewrite Hno. reflexivity.
Qed.

(** C7 at work: every import refused, the mixed import of the tests comes
    back as it is after the single call of [shouldRewrite]. *)
Lemma C7_witness_refused_import :
  visitNode (ImportStatement Sample.mixImport) [Sample.mixImport]
            Sample.mixFile Sample.mixProgram Sample2.refuseAll
  = ([ShouldRewriteCalled "./component1" "component2.tsx"],
     Returned (OneNode (ImportStatement Sample.mixImport))).
Proof.
  refine (proj2 (@C7_shouldRewrite_consulted_first
                   Sample.mixImport _ [Sample.mixImport] Sample.mixFile
                   Sample.mixProgram Sample2.refuseAll _ eq_refl) eq_refl).
  vm_compute. discriminate.
Defined.

(** ** The candidate pre-filter *)

Lemma leadsWithItsUpperCase_nonempty t :
  t <> "" -> leadsWithItsUpperCase t = ret (ledByOwnUpperCase t).
Proof.
  destruct t as [| c r]; [congruence |]. intros _.
  unfold leadsWithItsUpperCase. simpl.
  destruct (Ascii.eqb c (Js.toUpperCaseChar c)); reflexivity.
Qed.

Lemma someM_leads (elements : list ImportSpecifier) :
  Forall (fun n => n <> "") (map (fun e => text (name e)) elements) ->
  someM (fun e => leadsWithItsUpperCase (text (name e))) elements
  = ret (existsb ledByOwnUpperCase (map (fun e => text (name e)) elements)).
Proof.
  induction elements as [| e rest IH]; simpl; intros H; [reflexivity |].
  inversion H as [| ? ? Hne Hrest]; subst.
  rewrite (leadsWithItsUpperCase_nonempty Hne), bind_ret.
  destruct (ledByOwnUpperCase (text (name e))); [reflexivity |].
  apply IH. exact Hrest.
Qed.

(** With names that are not empty, the pre-filter accepts an import exactly
    when one of the names it looks at starts with a character equal to its
    own upper-case form. *)
Lemma isPotentialComponentImport_spec i :
  Forall (fun n => n <> "") (candidateNames i) ->
  isPotentialComponentImport i
  = ret (existsb ledByOwnUpperCase (candidateNames i)).
Proof.
  unfold isPotentialComponentImport, candidateNames.
  destruct (importClause i) as [clause |]; [| reflexivity].
  intros H. apply Forall_app in H as [Hd Hn].
  assert (N : match namedBindings clause with
              | Some (NamedImports elements) =>
                  someM (fun e => leadsWithItsUpperCase (text (name e))) elements
              | _ => ret false
              end
              = ret (existsb ledByOwnUpperCase
                             match namedBindings clause with
                             | Some (NamedImports elements) =>
                                 map (fun e => text (name e)) elements
                             | _ => []
                             end)).
  { destruct (namedBindings clause) as [[elements | n] |]; try reflexivity.
    apply someM_leads. exact Hn. }
  destruct (clauseName clause) as [n |].
  - inversion Hd as [| ? ? Hne _]; subst.
    rewrite (leadsWithItsUpperCase_nonempty Hne), bind_ret.
    rewrite existsb_app. simpl. rewrite orb_false_r.
    destruct (ledByOwnUpperCase (text n)); [reflexivity | exact N].
  - rewrite bind_ret. simpl. exact N.
Qed.




(** ** The modules [visitSourceFile] does not walk *)








(** ** Unresolved names *)


Lemma pushComponentElements_specifier d d' typeChecker elements names :
  moduleSpecifier d = moduleSpecifier d' ->
  pushComponentElements d typeChecker elements names
  = pushComponentElements d' typeChecker elements names.
Proof.
  intros E. revert names. induction elements as [| e rest IH]; intros names;
    simpl; [reflexivity |].
  rewrite (isComponentType_specifier _ d d' typeChecker E).
  unfold bind. destruct (isComponentType _ d' typeChecker) as [t [b | x]];
    [rewrite IH; reflexivity | reflexivity].
Qed.


(** ** The rewrite on the sample imports *)

(** test/transformer.test.ts, "importing a mix of components and other
    things gets rewritten correctly": the model yields the expected
    statements. *)
Example mix_is_rewritten_as_expected :
  outcome (visitSourceFile Sample.mixFile Sample.mixProgram defaultOptions)
  = Returned
      {| fileName := "component2.tsx";
         statements :=
           [ImportStatement Sample.importReact;
            Sample.lazyDefault "MyComp1" "./component1";
            Sample.lazyNamed "MyComp2" "./component1" "MyComp2";
            ImportStatement
              (createImportDeclarationNode
                 None None
                 (Some (createImportClause
                          None (Some (NamedImports [Sample.plain "MyConst"]))))
                 "./component1");
            OtherStatement 80 "export default function (props: any) { ... }"] |}.
Proof. reflexivity. Qed.

(** C1 (the code breaks it): the names bound by the replacement are not the
    names bound by the import.  For [import settings, { Panel } from
    "./panel"], where only [Panel] is a component, the replacement is the
    lazy constant [Panel] alone and [settings] is bound nowhere; for
    [import { Panel as Sidebar, helper } from "./panel"], the replacement
    binds [Sidebar] twice, by the lazy constant and by the residual import. *)
Theorem C1_bound_names_not_preserved :
  (outcome (visitSourceFile (Sample.fileWith Sample.settingsAndPanel)
                            Sample.panelProgram defaultOptions)
   = Returned
       {| fileName := "page.tsx";
          statements :=
            [ImportStatement Sample.importReact;
             Sample.lazyNamed "Panel" "./panel" "Panel"] |}
   /\ importBoundNames Sample.settingsAndPanel = ["settings"; "Panel"]
   /\ boundNames [Sample.lazyNamed "Panel" "./panel" "Panel"] = ["Panel"]
   /\ ~ Permutation (importBoundNames Sample.settingsAndPanel)
                    (boundNames [Sample.lazyNamed "Panel" "./panel" "Panel"]))
  /\ (exists replacement,
         outcome (visitNode (ImportStatement Sample.aliasedPanel)
                            [Sample.aliasedPanel]
                            (Sample.fileWith Sample.aliasedPanel)
                            Sample.panelProgram defaultOptions)
         = Returned (NodeArray replacement)
         /\ importBoundNames Sample.aliasedPanel = ["Sidebar"; "helper"]
         /\ boundNames replacement = ["Sidebar"; "Sidebar"; "helper"]
         /\ ~ Permutation (importBoundNames Sample.aliasedPanel)
                          (boundNames replacement)).
Proof.
  split.
  - repeat split.
    intros P. apply Permutation_length in P. discriminate.
  - eexists. split; [reflexivity |]. repeat split.
    intros P. apply Permutation_length in P. discriminate.
Qed.

(** C2 (the code breaks it): for [import settings, { Panel } from
    "./panel"] the default binding is not classified as a component, yet the
    replacement holds no residual import; and for [import { Panel as
    Sidebar, helper } from "./panel"] the residual import keeps the binding
    [Panel as Sidebar] although [Panel] is classified as a component. *)
Theorem C2_residual_import_wrong :
  (outcome (isComponentType "default" Sample.settingsAndPanel
                            (getTypeChecker Sample.panelProgram))
   = Returned false
   /\ exists replacement,
       outcome (visitNode (ImportStatement Sample.settingsAndPanel)
                          [Sample.settingsAndPanel]
                          (Sample.fileWith Sample.settingsAndPanel)
                          Sample.panelProgram defaultOptions)
       = Returned (NodeArray replacement)
       /\ existsb isImportStatement replacement = false)
  /\ (outcome (isComponentType "Panel" Sample.aliasedPanel
                               (getTypeChecker Sample.panelProgram))
      = Returned true
      /\ outcome (visitNode (ImportStatement Sample.aliasedPanel)
                            [Sample.aliasedPanel]
                            (Sample.fileWith Sample.aliasedPanel)
                            Sample.panelProgram defaultOptions)
         = Returned
             (NodeArray
                [Sample.lazyNamed "Sidebar" "./panel" "Panel";
                 ImportStatement
                   (createImportDeclarationNode
                      None None
                      (Some (createImportClause
                               None
                               (Some (NamedImports
                                        [Sample.aliased "Panel" "Sidebar";
                                         Sample.plain "helper"]))))
                      "./panel")])).
Proof.
  split.
  - split; [reflexivity |]. eexists. split; reflexivity.
  - split; reflexivity.
Qed.

(** C4 (the code breaks it): with [onlyRewriteIfImportCanBeRemoved] set,
    [import settings, { Panel } from "./panel"] has a binding that is not a
    component, [settings], and is nevertheless replaced by the lazy constant
    [Panel] instead of being returned as it is. *)
Theorem C4_bail_out_not_taken :
  onlyRewriteIfImportCanBeRemoved Sample.bailOut = true
  /\ outcome (isComponentType "default" Sample.settingsAndPanel
                              (getTypeChecker Sample.panelProgram))
     = Returned false
  /\ outcome (visitNode (ImportStatement Sample.settingsAndPanel)
                        [Sample.settingsAndPanel]
                        (Sample.fileWith Sample.settingsAndPanel)
                        Sample.panelProgram Sample.bailOut)
     = Returned (NodeArray [Sample.lazyNamed "Panel" "./panel" "Panel"])
  /\ outcome (visitNode (ImportStatement Sample.settingsAndPanel)
                        [Sample.settingsAndPanel]
                        (Sample.fileWith Sample.settingsAndPanel)
                        Sample.panelProgram Sample.bailOut)
     <> Returned (OneNode (ImportStatement Sample.settingsAndPanel)).
Proof. repeat split. discriminate. Qed.

(** C5 (the code breaks it): for a binding whose name begins with two
    underscores the loader is wrong.  The named import [{ __Panel }] of a
    component gets the bare dynamic import, without [.then]; and for
    [{ __Panel as Panel }] the continuation reads [___Panel], with three
    underscores, off the module. *)
Theorem C5_named_import_without_then :
  (outcome (isComponentType "__Panel" Sample2.importDunder
                            (getTypeChecker Sample2.widgetsProgram))
   = Returned true
   /\ outcome (visitNode (ImportStatement Sample2.importDunder)
                         [Sample2.importDunder]
                         (Sample.fileWith Sample2.importDunder)
                         Sample2.widgetsProgram defaultOptions)
      = Returned (NodeArray [Sample.lazyDefault "__Panel" "./widgets"])
   /\ Sample.lazyDefault "__Panel" "./widgets"
      <> Sample.lazyNamed "__Panel" "./widgets" "__Panel")
  /\ (outcome (visitNode (ImportStatement Sample2.importDunderAliased)
                         [Sample2.importDunderAliased]
                         (Sample.fileWith Sample2.importDunderAliased)
                         Sample2.widgetsProgram defaultOptions)
      = Returned (NodeArray [Sample.lazyNamed "Panel" "./widgets" "___Panel"])
      /\ text (createIdentifier "___Panel") = "___Panel"
      /\ Sample.lazyNamed "Panel" "./widgets" "___Panel"
         <> Sample.lazyNamed "Panel" "./widgets" "__Panel").
Proof.
  repeat split; try discriminate.
Qed.

(** ** Lazy bindings for names not led by two underscores *)

Lemma text_createIdentifier s : text (createIdentifier s) = s.
Proof.
  destruct s as [| a s1]; [reflexivity |].
  destruct a as [[] [] [] [] [] [] [] []]; try reflexivity.
  destruct s1 as [| b s2]; [reflexivity |].
  destruct b as [[] [] [] [] [] [] [] []]; reflexivity.
Qed.

(** The lazy constant binds the component name it was built for. *)
Lemma lazyConst_binds options c body :
  statementBoundNames (lazyConst options c body) = [c].
Proof. simpl. rewrite text_createIdentifier. reflexivity. Qed.

Lemma find_by_escaped_name (elements : list ImportSpecifier) e :
  In e elements ->
  NoDup (map (fun x => escapedText (name x)) elements) ->
  find (fun x => escapedText (name x) =? escapedText (name e)) elements = Some e.
Proof.
  induction elements as [| x rest IH]; simpl; [contradiction |].
  intros [-> | Hin] Hnd.
  - rewrite String.eqb_refl. reflexivity.
  - inversion Hnd as [| ? ? Hx Hrest]; subst.
    destruct (String.eqb_spec (escapedText (name x)) (escapedText (name e)))
      as [E | _].
    + exfalso. apply Hx. rewrite E.
      apply (in_map (fun x => escapedText (name x))). exact Hin.
    + apply IH; assumption.
Qed.

(** The default import of a component: the loader is the bare dynamic
    import. *)
Lemma additionalStatement_default node clause options n :
  plainIdentifier n ->
  additionalStatement node clause (Some (escapedText n)) options (text n)
  = ret (lazyConst options (text n)
                   (CallExpression ImportKeyword
                                   [StringLiteral (moduleSpecifier node)])).
Proof.
  intros P. unfold additionalStatement, differsFrom.
  rewrite P, String.eqb_refl. reflexivity.
Qed.

(** A named import of a component, with local names that are distinct:
    the constant takes the local name and the continuation reads the
    exported name off the module. *)
Lemma additionalStatement_named node clause options defaultImportName elements e :
  namedBindings clause = Some (NamedImports elements) ->
  In e elements ->
  NoDup (map (fun x => escapedText (name x)) elements) ->
  plainIdentifier (name e) ->
  plainIdentifier (propertyNameOrName e) ->
  differsFrom defaultImportName (text (name e)) = true ->
  additionalStatement node clause defaultImportName options (text (name e))
  = ret (lazyConst options (text (name e))
                   (thenDefault
                      (CallExpression ImportKeyword
                                      [StringLiteral (moduleSpecifier node)])
                      (text (propertyNameOrName e)))).
Proof.
  intros Hn Hin Hnd Pn Pp Hd. unfold additionalStatement.
  rewrite Hd. unfold elementsOf. rewrite Hn, bind_ret.
  rewrite <- Pn, (find_by_escaped_name _ _ Hin Hnd), bind_ret, Pp.
  reflexivity.
Qed.

(** ** The component names of a statement *)

Lemma indexOfFrom_lower (l : list string) x i :
  (0 <= i)%Z ->
  Js.indexOfFrom String.eqb i x l = (-1)%Z
  \/ (i <= Js.indexOfFrom String.eqb i x l)%Z.
Proof.
  revert i. induction l as [| y l IH]; intros i Hi; simpl; [auto |].
  destruct (y =? x); [right; lia |].
  destruct (IH (i + 1)%Z ltac:(lia)) as [E | E]; [auto | right; lia].
Qed.

Lemma indexOfFrom_absent (l : list string) x i :
  (0 <= i)%Z ->
  (Js.indexOfFrom String.eqb i x l = (-1)%Z <-> ~ In x l).
Proof.
  revert i. induction l as [| y l IH]; intros i Hi; simpl.
  - split; auto.
  - destruct (String.eqb_spec y x) as [E | N].
    + split; [lia | intros H; exfalso; apply H; auto].
    + rewrite (IH (i + 1)%Z ltac:(lia)). split.
      * intros H [E | Hin]; [exact (N E) | exact (H Hin)].
      * intros H Hin. apply H. auto.
Qed.

(** [names.indexOf(x) === -1] says that [x] is not among [names]. *)
Lemma stringsIndexOf_absent names x :
  (stringsIndexOf names x =? -1)%Z = true <-> ~ In x names.
Proof.
  unfold stringsIndexOf, Js.indexOf. rewrite Z.eqb_eq.
  apply indexOfFrom_absent. lia.
Qed.

Lemma stringsIndexOf_present names x :
  negb (stringsIndexOf names x =? -1)%Z = true <-> In x names.
Proof.
  rewrite negb_true_iff. split.
  - intros H. destruct (in_dec string_dec x names) as [Hin | Hn]; [exact Hin |].
    apply stringsIndexOf_absent in Hn. congruence.
  - intros Hin. destruct (stringsIndexOf names x =? -1)%Z eqn:E; [| reflexivity].
    apply stringsIndexOf_absent in E. contradiction.
Qed.

Lemma classifies_returned typeChecker d identifier b :
  outcome (isComponentType identifier d typeChecker) = Returned b ->
  classifies typeChecker d identifier = b.
Proof. unfold classifies. intros ->. destruct b; reflexivity. Qed.

(** The loop pushes the local names of the elements that classify, in
    order. *)
Lemma pushComponentElements_returned d typeChecker elements names result :
  outcome (pushComponentElements d typeChecker elements names) = Returned result ->
  result
  = names ++ map localName
                 (filter (fun e => classifies typeChecker d
                                              (text (propertyNameOrName e)))
                         elements).
Proof.
  revert names. induction elements as [| e rest IH]; intros names; simpl.
  - intros H. injection H as <-. rewrite app_nil_r. reflexivity.
  - intros H. apply outcome_bind_inv in H as (b & Hb & H).
    apply IH in H. rewrite (classifies_returned _ _ _ Hb).
    destruct b; [| exact H].
    rewrite H. simpl. rewrite <- app_assoc. reflexivity.
Qed.

(** [getImportedReactComponents] returns the classified default name
    followed by the local names of the classified named imports. *)
Lemma getImportedReactComponents_returned d clause typeChecker options names :
  importClause d = Some clause ->
  outcome (getImportedReactComponents d typeChecker options) = Returned names ->
  names = classifiedDefault typeChecker d clause
          ++ map localName (classifiedNamed typeChecker d options clause).
Proof.
  intros Hc. unfold getImportedReactComponents. rewrite Hc. intros H.
  apply outcome_bind_inv in H as (fromDefault & Hd & H).
  assert (D : fromDefault = classifiedDefault typeChecker d clause).
  { unfold classifiedDefault. destruct (clauseName clause) as [n |].
    - apply outcome_bind_inv in Hd as (b & Hb & Hd).
      rewrite (classifies_returned _ _ _ Hb).
      injection Hd as <-. reflexivity.
    - injection Hd as <-. reflexivity. }
  subst fromDefault. unfold classifiedNamed, namedElements.
  destruct (onlyRewriteDefaultExports options); simpl in H.
  - injection H as <-. rewrite app_nil_r. reflexivity.
  - destruct (namedBindings clause) as [[elements | ns] |].
    + apply pushComponentElements_returned in H. exact H.
    + injection H as <-. rewrite app_nil_r. reflexivity.
    + injection H as <-. rewrite app_nil_r. reflexivity.
Qed.

(** ** The statements of a replacement *)

(** Every lazy binding is a constant initialised by a call of the wrapper
    on a function without parameters, whose body is the dynamic import,
    bare or continued by [.then]. *)
Lemma additionalStatement_shape node clause defaultImportName options c s :
  outcome (additionalStatement node clause defaultImportName options c)
  = Returned s ->
  exists body,
    s = lazyConst options c body
    /\ (body = CallExpression ImportKeyword [StringLiteral (moduleSpecifier node)]
        \/ exists exported,
            body = thenDefault
                     (CallExpression ImportKeyword
                                     [StringLiteral (moduleSpecifier node)])
                     exported).
Proof.
  unfold additionalStatement. intros H.
  apply outcome_bind_inv in H as (body & Hb & H). injection H as <-.
  exists body. split; [reflexivity |].
  destruct (differsFrom defaultImportName c).
  - apply outcome_bind_inv in Hb as (elements & _ & Hb).
    destruct (find _ elements) as [element |]; injection Hb as <-; eauto.
  - injection Hb as <-. auto.
Qed.

Lemma lazies_bind_component_names node clause defaultImportName options names lazies :
  outcome (mapM (additionalStatement node clause defaultImportName options) names)
  = Returned lazies ->
  boundNames lazies = names.
Proof.
  revert lazies. induction names as [| c names IH]; intros lazies; simpl.
  - intros H. injection H as <-. reflexivity.
  - intros H. apply outcome_bind_inv in H as (s & Hs & H).
    apply outcome_bind_inv in H as (rest & Hrest & H). injection H as <-.
    apply additionalStatement_shape in Hs as (body & -> & _).
    unfold boundNames. cbn [flat_map]. rewrite lazyConst_binds.
    fold (boundNames rest). rewrite (IH _ Hrest). reflexivity.
Qed.

Lemma withoutInjectedImport_withInjectedImport options currentFile lazies rest :
  withoutInjectedImport options currentFile
                        (withInjectedImport options currentFile lazies ++ rest)
  = lazies ++ rest.
Proof.
  unfold withoutInjectedImport, withInjectedImport.
  destruct (createImportDeclaration options currentFile); reflexivity.
Qed.

(** When [rewriteImport] returns an array, it is the lazy constants of the
    component names, after the injected import if there is one, and
    followed by the residual import unless the count of imported names
    equals the number of component names. *)
Lemma rewriteImport_array node clause sourceFile program options l :
  outcome (rewriteImport node clause sourceFile program options)
  = Returned (NodeArray l) ->
  exists names lazies,
    outcome (getImportedReactComponents node (getTypeChecker program) options)
    = Returned names
    /\ names <> []
    /\ outcome (mapM (additionalStatement
                        node clause (option_map escapedText (clauseName clause))
                        options) names)
       = Returned lazies
    /\ (forall ns, namedBindings clause <> Some (NamespaceImport ns))
    /\ ((importedNamesOf clause names = length names
         /\ l = withInjectedImport options (fileName sourceFile) lazies)
        \/ (importedNamesOf clause names <> length names
            /\ onlyRewriteIfImportCanBeRemoved options = false
            /\ l = withInjectedImport options (fileName sourceFile) lazies
                   ++ [ImportStatement (residualImport node clause names)])).
Proof.
  unfold rewriteImport. rewrite outcome_bind_tell.
  destruct (negb (shouldRewrite options _ _)); [discriminate |].
  intros H. apply outcome_bind_inv in H as (names & Hnames & H).
  destruct names as [| c0 names0]; [discriminate |].
  remember (c0 :: names0) as names eqn:En.
  assert (Hne : names <> []) by (subst; discriminate).
  replace (negb (length names =? 0)%nat) with true in H
    by (subst; reflexivity).
  cbv zeta in H.
  apply outcome_bind_inv in H as (lazies & Hlazies & H).
  apply outcome_bind_inv in H as (k & Hk & H).
  exists names, lazies. repeat (split; [assumption |]).
  assert (K : k = importedNamesOf clause names
              /\ match namedBindings clause with
                 | Some (NamespaceImport _) => False
                 | _ => True
                 end).
  { apply outcome_bind_inv in Hk as (fromNamed & Hf & Hk). injection Hk as <-.
    unfold importedNamesOf, namedElements. unfold elementsOf in Hf.
    destruct (namedBindings clause) as [[elements | ns] |]; simpl in Hf.
    - injection Hf as <-. auto.
    - discriminate.
    - injection Hf as <-. auto. }
  destruct K as [-> NS].
  split.
  { intros ns E. rewrite E in NS. exact NS. }
  destruct (Nat.eqb_spec (importedNamesOf clause names) (length names)) as [E | N].
  - injection H as <-. left. auto.
  - destruct (onlyRewriteIfImportCanBeRemoved options); [discriminate |].
    simpl in H. apply outcome_bind_inv in H as (remaining & Hr & H).
    injection H as <-. right. repeat (split; [auto |]).
    unfold withInjectedImport, residualImport, residualDefault, residualElements,
      namedElements.
    f_equal. f_equal. f_equal. f_equal. f_equal. f_equal.
    + destruct (clauseName clause) as [n |]; simpl; [| reflexivity].
      destruct (Js.truthy (escapedText n) && _); reflexivity.
    + destruct (namedBindings clause) as [[elements | ns] |]; simpl in Hr.
      * injection Hr as <-. reflexivity.
      * contradiction.
      * injection Hr as <-. reflexivity.
Qed.

(** ** Where the replacement is right *)

Lemma filter_keeps_all A (p : A -> bool) (l : list A) :
  length (filter p l) = length l -> filter p l = l.
Proof.
  induction l as [| x l IH]; simpl; [reflexivity |].
  destruct (p x); simpl; intros H.
  - f_equal. apply IH. lia.
  - pose proof (filter_length_le p l). lia.
Qed.

Lemma filter_splits A (p : A -> bool) (l : list A) :
  Permutation l (filter p l ++ filter (fun x => negb (p x)) l).
Proof.
  induction l as [| x l IH]; simpl; [constructor |].
  destruct (p x); simpl.
  - constructor. exact IH.
  - apply Permutation_cons_app. exact IH.
Qed.

Lemma same_image_same_element A B (f : A -> B) (l : list A) a b :
  NoDup (map f l) -> In a l -> In b l -> f a = f b -> a = b.
Proof.
  induction l as [| x l IH]; simpl; [contradiction |].
  intros Hnd Ha Hb E. inversion Hnd as [| ? ? Hx Hl]; subst.
  destruct Ha as [-> | Ha], Hb as [-> | Hb]; auto.
  - exfalso. apply Hx. rewrite E. apply in_map. exact Hb.
  - exfalso. apply Hx. rewrite <- E. apply in_map. exact Ha.
Qed.

Lemma classifiedNamed_as_filter typeChecker d options clause :
  classifiedNamed typeChecker d options clause
  = filter (namedVerdict typeChecker d options) (namedElements clause).
Proof.
  unfold classifiedNamed, namedVerdict.
  destruct (onlyRewriteDefaultExports options); simpl.
  - induction (namedElements clause) as [| e l IH]; [reflexivity | exact IH].
  - reflexivity.
Qed.

Lemma getImportedReactComponents_names d clause typeChecker options names :
  importClause d = Some clause ->
  outcome (getImportedReactComponents d typeChecker options) = Returned names ->
  names = componentNamesOf typeChecker d options clause.
Proof. apply getImportedReactComponents_returned. Qed.

Lemma clauseBoundNames_without_namespace clause :
  (forall ns, namedBindings clause <> Some (NamespaceImport ns)) ->
  clauseBoundNames clause = defaultAndNamed clause.
Proof.
  intros Hns. unfold clauseBoundNames, defaultAndNamed, namedElements.
  destruct (namedBindings clause) as [[elements | ns] |]; try reflexivity.
  exfalso. exact (Hns ns eq_refl).
Qed.

(** An import with distinct names, no alias, and a default name that is
    neither empty nor led by two underscores. *)
Section PlainImport.

Variable typeChecker : TypeChecker.
Variable node : ImportDeclaration.
Variable options : Options.
Variable clause : ImportClause.

Hypothesis default_plain :
  forall n, clauseName clause = Some n -> plainIdentifier n /\ text n <> "".
Hypothesis no_alias :
  forall e, In e (namedElements clause) -> propertyName e = None.
Hypothesis distinct : NoDup (defaultAndNamed clause).

Lemma default_not_named n :
  clauseName clause = Some n ->
  ~ In (text n) (map localName (namedElements clause)).
Proof.
  intros En. unfold defaultAndNamed in distinct. rewrite En in distinct.
  simpl in distinct. inversion distinct. assumption.
Qed.

Lemma named_distinct : NoDup (map localName (namedElements clause)).
Proof.
  unfold defaultAndNamed in distinct.
  destruct (clauseName clause); simpl in distinct;
    [inversion distinct; assumption | exact distinct].
Qed.

Lemma classifiedNamed_subset e :
  In e (classifiedNamed typeChecker node options clause) ->
  In e (namedElements clause).
Proof. rewrite classifiedNamed_as_filter. intros H. apply filter_In in H. tauto. Qed.

(** The default name is a component name exactly when ["default"]
    classifies. *)
Lemma default_in_component_names n :
  clauseName clause = Some n ->
  (In (text n) (componentNamesOf typeChecker node options clause)
   <-> classifies typeChecker node "default" = true).
Proof.
  intros En. unfold componentNamesOf, classifiedDefault. rewrite En.
  rewrite in_app_iff. split.
  - intros [H | H].
    + destruct (classifies typeChecker node "default"); [reflexivity | contradiction].
    + exfalso. apply (default_not_named En).
      apply in_map_iff in H as (e & E & He). rewrite <- E.
      apply (in_map localName). apply classifiedNamed_subset. exact He.
  - intros ->. left. simpl. auto.
Qed.

(** The local name of a named import is a component name exactly when the
    import classifies. *)
Lemma named_in_component_names e :
  In e (namedElements clause) ->
  (In (localName e) (componentNamesOf typeChecker node options clause)
   <-> namedVerdict typeChecker node options e = true).
Proof.
  intros He. unfold componentNamesOf. rewrite in_app_iff. split.
  - intros [H | H].
    + exfalso. unfold classifiedDefault in H.
      destruct (clauseName clause) as [n |] eqn:En; [| contradiction].
      destruct (classifies typeChecker node "default"); [| contradiction].
      destruct H as [E | []]. apply (default_not_named En). rewrite E.
      apply (in_map localName). exact He.
    + apply in_map_iff in H as (e' & E & He').
      assert (e' = e).
      { apply (same_image_same_element localName (namedElements clause));
          auto using named_distinct, classifiedNamed_subset. }
      subst e'. rewrite classifiedNamed_as_filter in He'.
      apply filter_In in He'. tauto.
  - intros Hv. right. apply (in_map localName).
    rewrite classifiedNamed_as_filter. apply filter_In. auto.
Qed.

(** The count that [visitNode] compares with [componentNames.length]: the
    named imports, plus one when the default is a component. *)
Lemma importedNamesOf_count :
  importedNamesOf clause (componentNamesOf typeChecker node options clause)
  = length (classifiedDefault typeChecker node clause)
    + length (namedElements clause).
Proof.
  unfold importedNamesOf. f_equal. unfold classifiedDefault.
  destruct (clauseName clause) as [n |] eqn:En; [| reflexivity].
  destruct (default_plain eq_refl) as [Pn _]. rewrite Pn.
  pose proof (default_in_component_names En) as Hd.
  destruct (classifies typeChecker node "default").
  - replace (negb (stringsIndexOf _ (text n) =? -1)%Z) with true; [reflexivity |].
    symmetry. apply stringsIndexOf_present. apply Hd. reflexivity.
  - destruct (negb (stringsIndexOf _ (text n) =? -1)%Z) eqn:E; [| reflexivity].
    apply stringsIndexOf_present in E. apply Hd in E. discriminate.
Qed.

(** No residual import is built exactly when every named import
    classifies. *)
Lemma no_residual_iff_all_named_classified :
  importedNamesOf clause (componentNamesOf typeChecker node options clause)
  = length (componentNamesOf typeChecker node options clause)
  <-> classifiedNamed typeChecker node options clause = namedElements clause.
Proof.
  rewrite importedNamesOf_count. unfold componentNamesOf.
  rewrite length_app, length_map. split.
  - intros E. rewrite classifiedNamed_as_filter. apply filter_keeps_all.
    rewrite <- classifiedNamed_as_filter. lia.
  - intros ->. reflexivity.
Qed.

(** The residual import keeps the named imports that do not classify, as
    they are and in their order. *)
Lemma residualElements_unclassified :
  residualElements clause (componentNamesOf typeChecker node options clause)
  = filter (fun e => negb (namedVerdict typeChecker node options e))
           (namedElements clause).
Proof.
  unfold residualElements. apply filter_ext_in. intros e He.
  assert (Ep : text (propertyNameOrName e) = localName e).
  { unfold propertyNameOrName. rewrite (no_alias e He). reflexivity. }
  rewrite Ep. pose proof (named_in_component_names e He) as Hn.
  destruct (stringsIndexOf _ (localName e) =? -1)%Z eqn:Ei.
  - apply stringsIndexOf_absent in Ei.
    destruct (namedVerdict typeChecker node options e); [| reflexivity].
    exfalso. apply Ei. apply Hn. reflexivity.
  - assert (Hi : In (localName e)
                    (componentNamesOf typeChecker node options clause)).
    { apply stringsIndexOf_present. rewrite Ei. reflexivity. }
    apply Hn in Hi. rewrite Hi. reflexivity.
Qed.

(** The residual import keeps the default name exactly when ["default"]
    does not classify. *)
Lemma residualDefault_unclassified :
  option_map text
             (residualDefault clause
                              (componentNamesOf typeChecker node options clause))
  = match clauseName clause with
    | Some n => if classifies typeChecker node "default" then None
                else Some (text n)
    | None => None
    end.
Proof.
  unfold residualDefault.
  destruct (clauseName clause) as [n |] eqn:En; [| reflexivity].
  destruct (default_plain eq_refl) as [Pn Nn].
  assert (T : Js.truthy (escapedText n) = true).
  { unfold Js.truthy. rewrite Pn.
    destruct (String.eqb_spec (text n) ""); [contradiction | reflexivity]. }
  rewrite T, Pn. simpl andb.
  pose proof (default_in_component_names En) as Hd.
  destruct (negb (stringsIndexOf _ (text n) =? -1)%Z) eqn:E.
  - apply stringsIndexOf_present in E. apply Hd in E. rewrite E. reflexivity.
  - simpl. rewrite text_createIdentifier.
    destruct (classifies typeChecker node "default"); [| reflexivity].
    exfalso. apply Bool.not_true_iff_false in E. apply E.
    apply stringsIndexOf_present. apply Hd. reflexivity.
Qed.

(** The names of the residual import are those of the bindings that do not
    classify. *)
Lemma residualImport_names :
  importBoundNames
    (residualImport node clause (componentNamesOf typeChecker node options clause))
  = match clauseName clause with
    | Some n => if classifies typeChecker node "default" then [] else [text n]
    | None => []
    end
    ++ map localName
           (filter (fun e => negb (namedVerdict typeChecker node options e))
                   (namedElements clause)).
Proof.
  unfold importBoundNames, residualImport, clauseBoundNames. cbn.
  f_equal.
  - pose proof residualDefault_unclassified as Hd.
    destruct (residualDefault clause _) as [kept |]; simpl in Hd;
      destruct (clauseName clause) as [n |];
      try destruct (classifies typeChecker node "default");
      try discriminate; try reflexivity.
    injection Hd as ->. reflexivity.
  - rewrite <- residualElements_unclassified.
    destruct (namedBindings clause) as [b |] eqn:Eb; [reflexivity |].
    unfold residualElements, namedElements. rewrite Eb. reflexivity.
Qed.

(** Component names and residual names together are the names of the
    import. *)
Lemma names_split :
  Permutation
    (defaultAndNamed clause)
    (componentNamesOf typeChecker node options clause
     ++ importBoundNames
          (residualImport node clause
                          (componentNamesOf typeChecker node options clause))).
Proof.
  rewrite residualImport_names. unfold defaultAndNamed, componentNamesOf.
  pose proof (Permutation_map
                localName
                (filter_splits (namedVerdict typeChecker node options)
                               (namedElements clause))) as P.
  rewrite map_app, <- classifiedNamed_as_filter in P.
  unfold classifiedDefault.
  destruct (clauseName clause) as [n |]; [| exact P].
  destruct (classifies typeChecker node "default"); simpl.
  - constructor. exact P.
  - apply Permutation_cons_app. exact P.
Qed.

End PlainImport.

(** What [rewriteImport] returns as a single node is the import itself. *)
Lemma rewriteImport_one node clause sourceFile program options s :
  outcome (rewriteImport node clause sourceFile program options)
  = Returned (OneNode s) ->
  s = ImportStatement node.
Proof.
  unfold rewriteImport. rewrite outcome_bind_tell.
  destruct (negb (shouldRewrite options _ _)); [intros H; injection H; auto |].
  intros H. apply outcome_bind_inv in H as (names & _ & H).
  destruct (negb (length names =? 0)%nat); [| injection H; auto].
  cbv zeta in H.
  apply outcome_bind_inv in H as (lazies & _ & H).
  apply outcome_bind_inv in H as (k & _ & H).
  destruct (k =? length names)%nat; [discriminate |].
  destruct (negb (onlyRewriteIfImportCanBeRemoved options));
    [| injection H; auto].
  apply outcome_bind_inv in H as (remaining & _ & H). discriminate.
Qed.

Lemma filter_drops_some A (p : A -> bool) (l : list A) :
  filter p l <> l -> exists x, In x l /\ p x = false.
Proof.
  induction l as [| x l IH]; simpl; [congruence |].
  destruct (p x) eqn:E.
  - intros H. destruct IH as (y & Hy & Py); [congruence |]. eauto.
  - intros _. eauto.
Qed.

Lemma lazies_are_not_imports node clause defaultImportName options names lazies :
  outcome (mapM (additionalStatement node clause defaultImportName options) names)
  = Returned lazies ->
  forall s, In s lazies -> isImportStatement s = false.
Proof.
  revert lazies. induction names as [| c names IH]; intros lazies; simpl.
  - intros H. injection H as <-. contradiction.
  - intros H. apply outcome_bind_inv in H as (s0 & Hs & H).
    apply outcome_bind_inv in H as (rest & Hrest & H). injection H as <-.
    apply additionalStatement_shape in Hs as (body & -> & _).
    intros s [<- | Hin]; [reflexivity | exact (IH _ Hrest s Hin)].
Qed.

Lemma lazies_are_lazy_constants node clause defaultImportName options names lazies :
  outcome (mapM (additionalStatement node clause defaultImportName options) names)
  = Returned lazies ->
  Forall (isLazyConstOf node options) lazies.
Proof.
  revert lazies. induction names as [| c names IH]; intros lazies; simpl.
  - intros H. injection H as <-. constructor.
  - intros H. apply outcome_bind_inv in H as (s0 & Hs & H).
    apply outcome_bind_inv in H as (rest & Hrest & H). injection H as <-.
    constructor; [| exact (IH _ Hrest)].
    apply additionalStatement_shape in Hs as (body & -> & Hb).
    exists c, body. auto.
Qed.

(** Where the code keeps the claim of C1: when the import has no alias, its
    names are distinct, its default name is neither empty nor led by two
    underscores, and its default binding, if it has one, is a component or
    comes with a named binding that is not one, the replacement binds
    exactly the names of the import. *)
Theorem bound_names_preserved_without_alias :
  forall node clause sourceFile program options l,
    (forall n, clauseName clause = Some n -> plainIdentifier n /\ text n <> "") ->
    (forall e, In e (namedElements clause) -> propertyName e = None) ->
    NoDup (clauseBoundNames clause) ->
    (clauseName clause = None
     \/ classifies (getTypeChecker program) node "default" = true
     \/ exists e, In e (namedElements clause)
                  /\ namedVerdict (getTypeChecker program) node options e = false) ->
    importClause node = Some clause ->
    outcome (rewriteImport node clause sourceFile program options)
    = Returned (NodeArray l) ->
    Permutation (clauseBoundNames clause)
                (boundNames (withoutInjectedImport options (fileName sourceFile) l)).
Proof.
  intros node clause sourceFile program options l Hplain Hnoalias Hnd Hdef Hc H.
  apply rewriteImport_array in H
    as (names & lazies & Hnames & _ & Hlazies & Hns & Hl).
  apply (@getImportedReactComponents_names node clause _ _ _ Hc) in Hnames.
  apply lazies_bind_component_names in Hlazies.
  rewrite (clauseBoundNames_without_namespace _ Hns) in Hnd |- *.
  subst names.
  destruct Hl as [[Hk ->] | (Hk & _ & ->)].
  - rewrite <- (app_nil_r (withInjectedImport _ _ lazies)),
      withoutInjectedImport_withInjectedImport, app_nil_r, Hlazies.
    apply (no_residual_iff_all_named_classified
             (getTypeChecker program) node options clause Hplain Hnd) in Hk.
    unfold componentNamesOf, defaultAndNamed, classifiedDefault. rewrite Hk.
    destruct (clauseName clause) as [n |]; [| reflexivity].
    destruct (classifies (getTypeChecker program) node "default") eqn:Ed;
      [reflexivity |].
    exfalso. destruct Hdef as [Hd | [Hd | (e & He & Hv)]]; try discriminate.
    rewrite <- Hk, classifiedNamed_as_filter in He.
    apply filter_In in He as [_ He]. congruence.
  - rewrite withoutInjectedImport_withInjectedImport.
    unfold boundNames. rewrite flat_map_app. fold (boundNames lazies).
    rewrite Hlazies. cbn [flat_map statementBoundNames]. rewrite app_nil_r.
    apply names_split; assumption.
Qed.

(** Where the code keeps the claim of C2, under the same conditions: a
    residual import follows the lazy constants exactly when a named
    binding is not classified, and it keeps the named bindings that are not
    classified, as they are and in their order, and the default name when
    it is not classified. *)
Theorem residual_import_without_alias :
  forall node clause sourceFile program options l,
    (forall n, clauseName clause = Some n -> plainIdentifier n /\ text n <> "") ->
    (forall e, In e (namedElements clause) -> propertyName e = None) ->
    NoDup (clauseBoundNames clause) ->
    importClause node = Some clause ->
    outcome (rewriteImport node clause sourceFile program options)
    = Returned (NodeArray l) ->
    (existsb isImportStatement
             (withoutInjectedImport options (fileName sourceFile) l) = true
     <-> exists e, In e (namedElements clause)
                   /\ namedVerdict (getTypeChecker program) node options e = false)
    /\ forall residual,
        In (ImportStatement residual)
           (withoutInjectedImport options (fileName sourceFile) l) ->
        exists kept,
          importClause residual = Some kept
          /\ namedElements kept
             = filter (fun e => negb (namedVerdict (getTypeChecker program)
                                                   node options e))
                      (namedElements clause)
          /\ option_map text (clauseName kept)
             = match clauseName clause with
               | Some n =>
                   if classifies (getTypeChecker program) node "default"
                   then None else Some (text n)
               | None => None
               end.
Proof.
  intros node clause sourceFile program options l Hplain Hnoalias Hnd Hc H.
  apply rewriteImport_array in H
    as (names & lazies & Hnames & _ & Hlazies & Hns & Hl).
  apply (@getImportedReactComponents_names node clause _ _ _ Hc) in Hnames.
  pose proof (lazies_are_not_imports _ _ _ _ _ Hlazies) as Hnot.
  rewrite (clauseBoundNames_without_namespace _ Hns) in Hnd.
  subst names.
  pose proof (no_residual_iff_all_named_classified
                (getTypeChecker program) node options clause Hplain Hnd) as Hiff.
  assert (Hlz : existsb isImportStatement lazies = false).
  { destruct (existsb isImportStatement lazies) eqn:E; [| reflexivity].
    apply existsb_exists in E as (s & Hs & Es).
    rewrite (Hnot s Hs) in Es. discriminate. }
  destruct Hl as [[Hk ->] | (Hk & _ & ->)].
  - rewrite <- (app_nil_r (withInjectedImport _ _ lazies)),
      withoutInjectedImport_withInjectedImport, app_nil_r.
    split.
    + rewrite Hlz. split; [discriminate |].
      intros (e & He & Hv). exfalso. apply Hiff in Hk.
      rewrite <- Hk, classifiedNamed_as_filter in He.
      apply filter_In in He as [_ He]. congruence.
    + intros residual Hin. apply Hnot in Hin. discriminate.
  - rewrite withoutInjectedImport_withInjectedImport. split.
    + rewrite existsb_app, Hlz. simpl. split; [intros _ | reflexivity].
      apply filter_drops_some. rewrite <- classifiedNamed_as_filter.
      intros E. apply Hk. apply Hiff. exact E.
    + intros residual Hin. apply in_app_iff in Hin as [Hin | [E | []]].
      * apply Hnot in Hin. discriminate.
      * injection E as <-. eexists. split; [reflexivity |]. split.
        -- rewrite <- (residualElements_unclassified
                         (getTypeChecker program) node options clause
                         Hplain Hnoalias Hnd).
           unfold namedElements at 1. cbn.
           destruct (namedBindings clause) as [b |] eqn:Eb; [reflexivity |].
           unfold residualElements, namedElements. rewrite Eb. reflexivity.
        -- apply (residualDefault_unclassified
                    (getTypeChecker program) node options clause Hplain Hnd).
Qed.

(** Where the code keeps the claim of C4: with
    [onlyRewriteIfImportCanBeRemoved] set, an import one of whose named
    bindings is not classified as a component is returned as it is. *)
Theorem bail_out_on_unclassified_named_binding :
  forall node clause sourceFile program options e visited,
    onlyRewriteIfImportCanBeRemoved options = true ->
    (forall n, clauseName clause = Some n -> plainIdentifier n /\ text n <> "") ->
    NoDup (clauseBoundNames clause) ->
    In e (namedElements clause) ->
    namedVerdict (getTypeChecker program) node options e = false ->
    importClause node = Some clause ->
    outcome (rewriteImport node clause sourceFile program options)
    = Returned visited ->
    visited = OneNode (ImportStatement node).
Proof.
  intros node clause sourceFile program options e visited
         Hbail Hplain Hnd He Hv Hc H.
  destruct visited as [s | l].
  - f_equal. apply (rewriteImport_one _ _ _ _ _ H).
  - exfalso. apply rewriteImport_array in H
      as (names & lazies & Hnames & _ & _ & Hns & Hl).
    apply (@getImportedReactComponents_names node clause _ _ _ Hc) in Hnames.
    rewrite (clauseBoundNames_without_namespace _ Hns) in Hnd.
    subst names.
    destruct Hl as [[Hk _] | (_ & Hf & _)]; [| congruence].
    apply (no_residual_iff_all_named_classified
             (getTypeChecker program) node options clause Hplain Hnd) in Hk.
    rewrite <- Hk, classifiedNamed_as_filter in He.
    apply filter_In in He as [_ He]. congruence.
Qed.

(** ** Where the lazy bindings are right *)

Lemma mapM_returns A B (f : A -> M B) (g : A -> B) (l : list A) :
  (forall x, In x l -> f x = ret (g x)) -> mapM f l = ret (map g l).
Proof.
  induction l as [| x l IH]; simpl; intros H; [reflexivity |].
  rewrite (H x (or_introl eq_refl)), bind_ret, IH, bind_ret; [reflexivity |].
  intros y Hy. apply H. right. exact Hy.
Qed.

Lemma mapM_app A B (f : A -> M B) (l1 l2 : list A) r1 r2 :
  mapM f l1 = ret r1 -> mapM f l2 = ret r2 -> mapM f (l1 ++ l2) = ret (r1 ++ r2).
Proof.
  revert r1. induction l1 as [| x l1 IH]; simpl; intros r1 H1 H2.
  - injection H1 as <-. exact H2.
  - destruct (f x) as [t [y | e]] eqn:Ef; [| discriminate].
    destruct (mapM f l1) as [t1 [ys | e]] eqn:E1; [| discriminate].
    unfold bind, ret in H1. simpl in H1. injection H1 as Ht Hr.
    apply app_eq_nil in Ht as [-> Ht]. rewrite app_nil_r in Ht. subst t1 r1.
    rewrite (IH ys eq_refl H2). reflexivity.
Qed.

Lemma mapM_map A B C (f : B -> M C) (h : A -> B) (l : list A) :
  mapM f (map h l) = mapM (fun x => f (h x)) l.
Proof.
  induction l as [| x l IH]; simpl; [reflexivity |]. rewrite IH. reflexivity.
Qed.

(** Where the code keeps the claim of C5: when the names of the import are
    distinct and none of its identifiers is led by two underscores, the
    replacement starts, after the injected import, with the lazy constant
    of the default import if it is a component, loaded by the bare dynamic
    import, and then one lazy constant for each named import that is a
    component, under its local name and loaded through [.then] from the
    exported name. *)
Theorem lazy_bindings_of_plain_import :
  forall node clause sourceFile program options l,
    (forall n, clauseName clause = Some n -> plainIdentifier n) ->
    (forall e, In e (namedElements clause) ->
               plainIdentifier (name e) /\ plainIdentifier (propertyNameOrName e)) ->
    NoDup (clauseBoundNames clause) ->
    importClause node = Some clause ->
    outcome (rewriteImport node clause sourceFile program options)
    = Returned (NodeArray l) ->
    exists residual,
      withoutInjectedImport options (fileName sourceFile) l
      = map (defaultLazy node options)
            (classifiedDefault (getTypeChecker program) node clause)
        ++ map (namedLazy node options)
               (classifiedNamed (getTypeChecker program) node options clause)
        ++ residual
      /\ (residual = [] \/ exists d, residual = [ImportStatement d]).
Proof.
  intros node clause sourceFile program options l Hdefault Hnamed Hnd Hc H.
  apply rewriteImport_array in H
    as (names & lazies & Hnames & _ & Hlazies & Hns & Hl).
  apply (@getImportedReactComponents_names node clause _ _ _ Hc) in Hnames.
  rewrite (clauseBoundNames_without_namespace _ Hns) in Hnd.
  subst names.
  set (tc := getTypeChecker program) in *.
  assert (L : mapM (additionalStatement
                      node clause (option_map escapedText (clauseName clause))
                      options)
                   (componentNamesOf tc node options clause)
              = ret (map (defaultLazy node options) (classifiedDefault tc node clause)
                     ++ map (namedLazy node options)
                            (classifiedNamed tc node options clause))).
  { unfold componentNamesOf. apply mapM_app.
    - unfold classifiedDefault.
      destruct (clauseName clause) as [n |] eqn:En; [| reflexivity].
      destruct (classifies tc node "default"); [| reflexivity].
      simpl. rewrite (additionalStatement_default _ _ _ (Hdefault n eq_refl)).
      rewrite !bind_ret. reflexivity.
    - rewrite mapM_map. apply mapM_returns. intros e He.
      assert (Hes : In e (namedElements clause)).
      { rewrite classifiedNamed_as_filter in He. apply filter_In in He. tauto. }
      destruct (Hnamed e Hes) as [Pn Pp].
      unfold namedElements in Hes, Hnd.
      unfold defaultAndNamed, namedElements in Hnd.
      destruct (namedBindings clause) as [[elements | ns] |] eqn:Eb;
        try contradiction.
      assert (ND : NoDup (map (fun x => escapedText (name x)) elements)).
      { assert (E : map (fun x => escapedText (name x)) elements
                    = map localName elements).
        { apply map_ext_in. intros x Hx.
          assert (Hx' : In x (namedElements clause))
            by (unfold namedElements; rewrite Eb; exact Hx).
          exact (proj1 (Hnamed x Hx')). }
        rewrite E. apply NoDup_app_remove_l in Hnd. exact Hnd. }
      assert (DF : differsFrom (option_map escapedText (clauseName clause))
                               (text (name e)) = true).
      { unfold differsFrom. destruct (clauseName clause) as [n |]; [| reflexivity].
        simpl. rewrite (Hdefault n eq_refl).
        destruct (String.eqb_spec (text n) (text (name e))) as [E | _];
          [| reflexivity].
        exfalso. simpl in Hnd. inversion Hnd as [| ? ? Hx _]; subst.
        apply Hx. rewrite E. apply (in_map localName). exact Hes. }
      exact (@additionalStatement_named
               node clause options (option_map escapedText (clauseName clause))
               elements e Eb Hes ND Pn Pp DF). }
  rewrite L in Hlazies. injection Hlazies as <-.
  destruct Hl as [[_ ->] | (_ & _ & ->)].
  - exists []. split; [| auto].
    rewrite <- (app_nil_r (withInjectedImport _ _ _)),
      withoutInjectedImport_withInjectedImport, <- app_assoc.
    reflexivity.
  - eexists. split; [| right; eexists; reflexivity].
    rewrite withoutInjectedImport_withInjectedImport, <- app_assoc.
    reflexivity.
Qed.

(** ** The tests of the repository, and one more *)

(** "importing another mix of components and other things gets rewritten
    correctly" *)
Example another_mix_is_rewritten_as_expected :
  outcome (visitNode (ImportStatement Sample2.anotherMixImport)
                     [Sample2.anotherMixImport]
                     (Sample.fileWith Sample2.anotherMixImport)
                     Sample2.anotherMixProgram defaultOptions)
  = Returned
      (NodeArray
         [Sample.lazyNamed "MyComp1" "./component1" "MyComp1";
          Sample.lazyNamed "MyComp2" "./component1" "MyComp2";
          ImportStatement
            (createImportDeclarationNode
               None None
               (Some (createImportClause
                        (Some (createIdentifier "MyConst1"))
                        (Some (NamedImports [Sample.plain "MyConst2"]))))
               "./component1")]).
Proof. reflexivity. Qed.

(** "importing a default arrow function component gets rewritten" *)
Example default_arrow_is_rewritten_as_expected :
  outcome (visitSourceFile (Sample.fileWith Sample2.importDefaultOnly)
                           Sample2.arrowAndFunctionProgram defaultOptions)
  = Returned
      {| fileName := "page.tsx";
         statements :=
           [ImportStatement Sample.importReact;
            Sample.lazyDefault "MyComp1" "./component1"] |}.
Proof. reflexivity. Qed.

(** "importing a named export function component as aliased gets
    rewritten" *)
Example aliased_is_rewritten_as_expected :
  outcome (visitSourceFile (Sample.fileWith Sample2.importAliased)
                           Sample2.arrowAndFunctionProgram defaultOptions)
  = Returned
      {| fileName := "page.tsx";
         statements :=
           [ImportStatement Sample.importReact;
            Sample.lazyNamed "MyAliasedComp" "./component1" "MyComp1"] |}.
Proof. reflexivity. Qed.

(** "can replace call to react" *)
Example loadable_is_used_as_expected :
  outcome (visitNode (ImportStatement Sample2.defaultAndComp2)
                     [Sample2.defaultAndComp2]
                     (Sample.fileWith Sample2.defaultAndComp2)
                     Sample2.twoFunctionsProgram Sample2.loadableOptions)
  = Returned
      (NodeArray
         [ImportStatement Sample2.importLoadable;
          lazyConst Sample2.loadableOptions "MyComp1"
                    (CallExpression ImportKeyword [StringLiteral "./component1"]);
          ImportStatement
            (createImportDeclarationNode
               None None
               (Some (createImportClause
                        None (Some (NamedImports [Sample.plain "MyComp2"]))))
               "./component1")]).
Proof. reflexivity. Qed.

(** "bails out if it cannot remove the import" *)
Example bail_out_as_expected :
  outcome (visitNode (ImportStatement Sample2.defaultComp2AndConst)
                     [Sample2.defaultComp2AndConst]
                     (Sample.fileWith Sample2.defaultComp2AndConst)
                     Sample2.twoFunctionsProgram Sample.bailOut)
  = Returned (OneNode (ImportStatement Sample2.defaultComp2AndConst)).
Proof. reflexivity. Qed.

(** A default component imported together with a namespace: the count of
    imported names reads [elements.length] of a namespace import, and the
    visit throws. *)
Example namespace_import_throws :
  outcome (visitNode (ImportStatement Sample2.defaultAndNamespace)
                     [Sample2.defaultAndNamespace]
                     (Sample.fileWith Sample2.defaultAndNamespace)
                     Sample2.twoFunctionsProgram defaultOptions)
  = Thrown (Js.TypeError "length").
Proof. reflexivity. Qed.

(** ** Unresolved names in the rewrite *)


Lemma outcome_bind_thrown_inv A B (m : M A) (k : A -> M B) e :
  outcome (bind m k) = Thrown e ->
  outcome m = Thrown e
  \/ exists a, outcome m = Returned a /\ outcome (k a) = Thrown e.
Proof.
  destruct m as [t [a | x]]; simpl.
  - unfold bind, outcome. destruct (k a) eqn:E. simpl. intros ->.
    right. exists a. rewrite E. auto.
  - intros H. left. injection H as <-. reflexivity.
Qed.

Lemma getFunction_throws decl e :
  outcome (getFunction decl) = Thrown e <->
  e = Js.TypeError "initializer"
  /\ exists fl, decl = VariableStatementNode {| declarations := []; flags := fl |}.
Proof.
  split.
  - destruct decl as [h | ps | x | [[| d others] fl] | d | k]; simpl;
      try discriminate.
    + destruct (isFunctionExpression x || isArrowFunction x); discriminate.
    + intros H. injection H as <-. eauto.
  - intros [-> [fl ->]]. reflexivity.
Qed.








(** The same import is rewritten as usual: a lazy constant for [Panel], and
    [Missing] left in the residual import. *)
Example missing_export_stays_imported :
  outcome (visitNode (ImportStatement Sample2.missingAndPanel)
                     [Sample2.missingAndPanel]
                     (Sample.fileWith Sample2.missingAndPanel)
                     Sample.panelProgram defaultOptions)
  = Returned
      (NodeArray
         [Sample.lazyNamed "Panel" "./panel" "Panel";
          ImportStatement
            (createImportDeclarationNode
               None None
               (Some (createImportClause
                        None (Some (NamedImports [Sample.plain "Missing"]))))
               "./panel")]).
Proof. reflexivity. Qed.

(** An unresolved default import beside a named import that is a
    component: ["./widgets"] has no default export; [_panel] gets its lazy
    constant, and no import is left for [Widgets], the count of imported
    names being that of the component names. *)
Example unresolved_default_beside_a_component :
  outcome (visitNode (ImportStatement Sample3.importMissingDefault)
                     [Sample3.importMissingDefault]
                     (Sample.fileWith Sample3.importMissingDefault)
                     Sample2.widgetsProgram defaultOptions)
  = Returned (NodeArray [Sample.lazyNamed "_panel" "./widgets" "_panel"]).
Proof. reflexivity. Qed.

(** ** A binding led by an underscore, from pre-filter to classification *)

(** [{ _panel }] passes the pre-filter, [shouldRewrite] is consulted and the
    classifier is called on [_panel]. *)
Example underscore_binding_is_classified :
  trace (visitSourceFile Sample2.underscoredFile Sample2.widgetsProgram
                         defaultOptions)
  = [ShouldRewriteCalled "./widgets" "page.tsx";
     IsComponentTypeCalled "_panel" "./widgets"]
  /\ outcome (visitSourceFile Sample2.underscoredFile Sample2.widgetsProgram
                              defaultOptions)
     = Returned
         {| fileName := "page.tsx";
            statements :=
              [ImportStatement Sample2.importLowerReact;
               Sample.lazyNamed "_panel" "./widgets" "_panel"] |}.
Proof. split; reflexivity. Qed.

(* ===================================================================== *)
(** * Further properties of the code *)
(* ===================================================================== *)

(** ** [removeImportNames] *)

Lemma filter_idempotent A (p : A -> bool) (l : list A) :
  filter p (filter p l) = filter p l.
Proof.
  induction l as [| x l IH]; simpl; [reflexivity |].
  destruct (p x) eqn:E; simpl; [rewrite E, IH; reflexivity | exact IH].
Qed.

(** X1: [removeImportNames] goes by the exported name: of named imports it
    keeps exactly the elements whose exported name ([propertyName] if there
    is one, the name otherwise) is not in the list; removing the same
    names again changes nothing; with no name to remove the bindings come
    back as they were; and on a namespace import it throws. *)
Theorem removeImportNames_goes_by_exported_name :
  forall (elements : list ImportSpecifier) (names : list string),
    (exists kept,
        removeImportNames (NamedImports elements) names = ret (NamedImports kept)
        /\ (forall e, In e kept <->
                      In e elements /\ ~ In (text (propertyNameOrName e)) names)
        /\ removeImportNames (NamedImports kept) names = ret (NamedImports kept))
    /\ removeImportNames (NamedImports elements) [] = ret (NamedImports elements)
    /\ forall ns, removeImportNames (NamespaceImport ns) names
                  = throw (Js.TypeError "filter").
Proof.
  intros elements names. split; [| split].
  - eexists. split; [reflexivity |]. split.
    + intros e. rewrite filter_In, stringsIndexOf_absent. reflexivity.
    + unfold removeImportNames. rewrite filter_idempotent. reflexivity.
  - unfold removeImportNames. do 2 f_equal.
    induction elements as [| e l IH]; simpl; [reflexivity |].
    f_equal. exact IH.
  - reflexivity.
Qed.

(** ** When the classifier throws *)

(** X2: the classifier throws in one situation only: the name resolves to
    a variable statement that has no declaration, whose first declaration
    [getFunction] then reads; the exception is a [TypeError]. *)
Theorem isComponentType_throws_only_on_empty_variable_statement :
  forall identifier importDecl typeChecker e,
    outcome (isComponentType identifier importDecl typeChecker) = Thrown e
    <-> e = Js.TypeError "initializer"
        /\ exists symbol fl,
            ResolvesTo typeChecker (moduleSpecifier importDecl) identifier symbol
                       (VariableStatementNode
                          {| declarations := []; flags := fl |}).
Proof.
  intros identifier importDecl typeChecker e.
  unfold isComponentType, ResolvesTo. rewrite outcome_bind_tell. split.
  - destruct (getSymbolAtLocation typeChecker (moduleSpecifier importDecl))
      as [m |]; [| discriminate].
    destruct (find _ _) as [sym |] eqn:Ef; [| discriminate].
    destruct (valueDeclaration sym) as [decl |] eqn:Ev; [| discriminate].
    assert (G : outcome
                  (bind (getFunction decl)
                        (fun func =>
                           match func with
                           | Some func =>
                               match getCallSignatures
                                       (getTypeOfSymbolAtLocation
                                          typeChecker sym decl) with
                               | callSignature :: _ =>
                                   ret (returnsJsxElement
                                          func
                                          (getSymbol (getReturnTypeOfSignature
                                                        typeChecker callSignature)))
                               | [] => ret false
                               end
                           | None => ret false
                           end)) = Thrown e ->
                e = Js.TypeError "initializer"
                /\ exists fl, decl = VariableStatementNode
                                       {| declarations := []; flags := fl |}).
    { intros H. apply outcome_bind_thrown_inv in H as [H | (r & _ & H)].
      - apply getFunction_throws. exact H.
      - destruct r as [func |]; [| discriminate].
        destruct (getCallSignatures _); discriminate. }
    destruct decl as [[hcs |] | ps | x | s | d | k];
      try (intros H; apply G in H as [-> [fl Hd]]; split; [reflexivity |];
           exists sym, fl, m; rewrite <- Hd; auto).
    destruct (find isExtendsClause hcs); discriminate.
  - intros [-> (sym & fl & m & Em & Ef & Ev)]. rewrite Em, Ef, Ev. reflexivity.
Qed.

(** The situation on a sample module: [Nothing] resolves to a variable
    statement without declarations. *)
Example empty_variable_statement_throws :
  outcome (isComponentType "Nothing" Sample3.importNothing
                           Sample3.emptyStatementChecker)
  = Thrown (Js.TypeError "initializer").
Proof. reflexivity. Qed.

(** ** File names that hold [.d.ts] *)

Lemma substring_at_infix before middle after :
  substring (String.length before) (String.length middle)
            (before ++ middle ++ after)%string
  = middle.
Proof.
  induction before as [| c before IH]; simpl; [| exact IH].
  induction middle as [| c middle IH]; simpl.
  - destruct after; reflexivity.
  - rewrite IH. reflexivity.
Qed.

Lemma stringIndexOf_infix before middle after :
  middle <> "" ->
  Js.stringIndexOf (before ++ middle ++ after)%string middle <> (-1)%Z.
Proof.
  intros Hne. unfold Js.stringIndexOf.
  destruct (index 0 middle (before ++ middle ++ after)%string) as [n |] eqn:E;
    [lia |].
  exfalso.
  apply (index_correct3 0 (String.length before) middle
                        (before ++ middle ++ after)%string E Hne); [lia |].
  apply substring_at_infix.
Qed.

(** X3: a file is left alone as soon as [.d.ts] occurs anywhere in its
    name, not only at its end: a component file named [widgets.d.tsx], or a
    file below a directory named [types.d.ts], is returned as it is and no
    call is made. *)
Theorem file_name_holding_d_ts_is_skipped :
  forall sourceFile program options before after,
    fileName sourceFile = (before ++ ".d.ts" ++ after)%string ->
    visitSourceFile sourceFile program options = ([], Returned sourceFile).
Proof.
  intros sourceFile program options before after Hn.
  unfold visitSourceFile. rewrite Hn.
  destruct (Z.eqb_spec (Js.stringIndexOf (before ++ ".d.ts" ++ after)%string ".d.ts")
                       (-1)) as [C | _].
  - exfalso. revert C. apply stringIndexOf_infix. discriminate.
  - rewrite andb_false_r. reflexivity.
Qed.

(** X3 at work: [widgets.d.tsx] imports ["react"] and a component, and
    comes back untouched. *)
Lemma file_name_holding_d_ts_witness :
  visitSourceFile Sample3.declarationLikeFile Sample.mixProgram defaultOptions
  = ([], Returned Sample3.declarationLikeFile).
Proof.
  apply (@file_name_holding_d_ts_is_skipped
           Sample3.declarationLikeFile Sample.mixProgram defaultOptions
           "widgets" "x").
  reflexivity.
Defined.

(** ** Imports that bind no default and no named import *)

Lemma getImportedReactComponents_nothing d clause typeChecker options :
  importClause d = Some clause ->
  clauseName clause = None ->
  namedElements clause = [] ->
  getImportedReactComponents d typeChecker options = ret [].
Proof.
  intros Hc Hn He. unfold getImportedReactComponents. rewrite Hc, Hn, bind_ret.
  unfold namedElements in He.
  destruct (negb (onlyRewriteDefaultExports options)); [| reflexivity].
  destruct (namedBindings clause) as [[elements | ns] |]; try reflexivity.
  subst elements. reflexivity.
Qed.

(** X4: an import for its side effects ([import "./x"]), an import of a
    namespace alone ([import * as ns from "./x"]) and an import of empty
    braces are never rewritten and never classified, whatever the module
    exports and whatever list of candidates [visitNode] is given. *)
Theorem import_without_default_or_named_binding_is_kept :
  forall d potentialComponentImports sourceFile program options,
    (importClause d = None
     \/ exists clause,
         importClause d = Some clause
         /\ clauseName clause = None
         /\ namedElements clause = []) ->
    outcome (visitNode (ImportStatement d) potentialComponentImports
                       sourceFile program options)
    = Returned (OneNode (ImportStatement d))
    /\ Forall (fun ev => ~ isClassifierCall ev)
              (trace (visitNode (ImportStatement d) potentialComponentImports
                                sourceFile program options)).
Proof.
  intros d potential sourceFile program options H. unfold visitNode.
  destruct (negb (Js.indexOf sameNode potential d =? -1)%Z);
    [| split; [reflexivity | constructor]].
  destruct H as [Hc | (clause & Hc & Hn & He)]; rewrite Hc;
    [split; [reflexivity | constructor] |].
  unfold rewriteImport.
  rewrite (@getImportedReactComponents_nothing d clause (getTypeChecker program) options Hc Hn He).
  destruct (negb (shouldRewrite options _ _)); split; try reflexivity;
    repeat constructor; intros [].
Qed.

(** X4 at work, on a namespace import and on an import for its effects,
    both listed as candidates. *)
Lemma import_without_binding_witness :
  outcome (visitNode (ImportStatement Sample3.importNamespaceOnly)
                     [Sample3.importNamespaceOnly]
                     (Sample.fileWith Sample3.importNamespaceOnly)
                     Sample.mixProgram defaultOptions)
  = Returned (OneNode (ImportStatement Sample3.importNamespaceOnly))
  /\ outcome (visitNode (ImportStatement Sample3.importForEffect)
                        [Sample3.importForEffect]
                        (Sample.fileWith Sample3.importForEffect)
                        Sample.mixProgram defaultOptions)
     = Returned (OneNode (ImportStatement Sample3.importForEffect)).
Proof.
  split.
  - refine (proj1 (@import_without_default_or_named_binding_is_kept
                     Sample3.importNamespaceOnly _ _ _ _ _)).
    right. eexists. repeat split.
  - refine (proj1 (@import_without_default_or_named_binding_is_kept
                     Sample3.importForEffect _ _ _ _ _)).
    left. reflexivity.
Defined.

(** ** A default component beside a namespace import *)

Lemma outcome_bind_thrown A B (m : M A) (k : A -> M B) e :
  outcome m = Thrown e -> outcome (bind m k) = Thrown e.
Proof. destruct m as [t [a | x]]; simpl; [discriminate |]. intros H. injection H as <-. reflexivity. Qed.

(** X5: [import X, * as ns from "./x"] with [X] a component cannot be
    rewritten: once [shouldRewrite] accepts this candidate and the default
    export classifies, the visit throws a [TypeError], reading the
    [elements] that a namespace import does not have. *)
Theorem default_component_beside_namespace_throws :
  forall d clause n ns potentialComponentImports sourceFile program options,
    Js.indexOf sameNode potentialComponentImports d <> (-1)%Z ->
    importClause d = Some clause ->
    clauseName clause = Some n ->
    namedBindings clause = Some (NamespaceImport ns) ->
    shouldRewrite options (moduleSpecifier d) (fileName sourceFile) = true ->
    outcome (isComponentType "default" d (getTypeChecker program)) = Returned true ->
    exists reading,
      outcome (visitNode (ImportStatement d) potentialComponentImports
                         sourceFile program options)
      = Thrown (Js.TypeError reading).
Proof.
  intros d clause n ns potential sourceFile program options
         Hin Hc Hn Hns Hshould Hdefault.
  unfold visitNode. rewrite Hc.
  destruct (Z.eqb_spec (Js.indexOf sameNode potential d) (-1)) as [C | _];
    [contradiction |].
  simpl negb. cbv iota. unfold rewriteImport.
  rewrite outcome_bind_tell, Hshould. simpl negb. cbv iota.
  assert (Hnames : outcome (getImportedReactComponents
                              d (getTypeChecker program) options)
                   = Returned [text n]).
  { unfold getImportedReactComponents. rewrite Hc, Hn, Hns.
    rewrite (@outcome_bind _ _ _ _ [text n]).
    - destruct (negb (onlyRewriteDefaultExports options)); reflexivity.
    - rewrite (outcome_bind _ _ Hdefault). reflexivity. }
  rewrite (outcome_bind _ _ Hnames). cbv beta zeta. simpl negb. cbv iota.
  rewrite Hn.
  unfold mapM, additionalStatement, elementsOf. rewrite Hns.
  destruct (differsFrom (option_map escapedText (Some n)) (text n)).
  - exists "find". reflexivity.
  - exists "length". reflexivity.
Qed.

(** X5 at work: the import of the test module by default name and
    namespace. *)
Lemma default_component_beside_namespace_witness :
  exists reading,
    outcome (visitNode (ImportStatement Sample2.defaultAndNamespace)
                       [Sample2.defaultAndNamespace]
                       (Sample.fileWith Sample2.defaultAndNamespace)
                       Sample2.twoFunctionsProgram defaultOptions)
    = Thrown (Js.TypeError reading).
Proof.
  refine (@default_component_beside_namespace_throws
            Sample2.defaultAndNamespace _ _ _ [Sample2.defaultAndNamespace]
            (Sample.fileWith Sample2.defaultAndNamespace)
            Sample2.twoFunctionsProgram defaultOptions
            _ eq_refl eq_refl eq_refl eq_refl eq_refl).
  vm_compute. discriminate.
Defined.

(** ** What a visit returns *)

(** [visitNode] hands the node back, or is the rewrite of a candidate that
    has an import clause. *)
Lemma visitNode_cases node potentialComponentImports sourceFile program options :
  visitNode node potentialComponentImports sourceFile program options
  = ret (OneNode node)
  \/ exists d clause,
      node = ImportStatement d
      /\ importClause d = Some clause
      /\ Js.indexOf sameNode potentialComponentImports d <> (-1)%Z
      /\ visitNode node potentialComponentImports sourceFile program options
         = rewriteImport d clause sourceFile program options.
Proof.
  unfold visitNode. destruct node as [d | |]; auto.
  destruct (Z.eqb_spec (Js.indexOf sameNode potentialComponentImports d) (-1))
    as [E | N]; simpl; auto.
  destruct (importClause d) as [clause |] eqn:Hc; auto.
  right. exists d, clause. auto.
Qed.

(** X6: with [onlyRewriteIfImportCanBeRemoved] set, a visit that returns
    is all or nothing: the statement comes back as it is, or it is replaced
    by lazy constants alone (after the injected import, if one is
    configured); no import of the module is left beside a lazy constant. *)
Theorem bail_out_is_all_or_nothing :
  forall node potentialComponentImports sourceFile program options visited,
    onlyRewriteIfImportCanBeRemoved options = true ->
    outcome (visitNode node potentialComponentImports sourceFile program options)
    = Returned visited ->
    visited = OneNode node
    \/ exists lazies,
        visited = NodeArray (withInjectedImport options (fileName sourceFile) lazies)
        /\ lazies <> []
        /\ Forall (fun s => isImportStatement s = false) lazies.
Proof.
  intros node potential sourceFile program options visited Hbail H.
  destruct (visitNode_cases node potential sourceFile program options)
    as [E | (d & clause & -> & Hc & Hin & E)]; rewrite E in H.
  - injection H as <-. left. reflexivity.
  - destruct visited as [s | l].
    + left. f_equal. exact (rewriteImport_one _ _ _ _ _ H).
    + right. apply rewriteImport_array in H
        as (names & lazies & _ & Hne & Hlazies & _ & Hl).
      destruct Hl as [[_ ->] | (_ & Hf & _)]; [| congruence].
      exists lazies. split; [reflexivity |]. split.
      * intros ->. apply lazies_bind_component_names in Hlazies.
        apply Hne. rewrite <- Hlazies. reflexivity.
      * apply Forall_forall.
        exact (lazies_are_not_imports _ _ _ _ _ Hlazies).
Qed.

(** X6 at work: the import of a component with a constant is kept, with
    the option set. *)
Lemma bail_out_is_all_or_nothing_witness :
  exists visited,
    outcome (visitNode (ImportStatement Sample2.defaultComp2AndConst)
                       [Sample2.defaultComp2AndConst]
                       (Sample.fileWith Sample2.defaultComp2AndConst)
                       Sample2.twoFunctionsProgram Sample.bailOut)
    = Returned visited
    /\ (visited = OneNode (ImportStatement Sample2.defaultComp2AndConst)
        \/ exists lazies,
            visited
            = NodeArray
                (withInjectedImport
                   Sample.bailOut
                   (fileName (Sample.fileWith Sample2.defaultComp2AndConst))
                   lazies)
            /\ lazies <> []
            /\ Forall (fun s => isImportStatement s = false) lazies).
Proof.
  eexists. split; [reflexivity |].
  exact (@bail_out_is_all_or_nothing
           (ImportStatement Sample2.defaultComp2AndConst)
           [Sample2.defaultComp2AndConst]
           (Sample.fileWith Sample2.defaultComp2AndConst)
           Sample2.twoFunctionsProgram Sample.bailOut _ eq_refl eq_refl).
Defined.

(** X7: whenever the visit of an import returns an array, the array is
    the injected import if one is configured, then one lazy constant of
    the module for each classified binding (the default import first when
    it classifies, then the classified named imports under their local
    names and in their order), then nothing or one residual import. *)
Theorem replacement_is_lazy_constants_then_residual_import :
  forall d potentialComponentImports sourceFile program options l,
    outcome (visitNode (ImportStatement d) potentialComponentImports
                       sourceFile program options)
    = Returned (NodeArray l) ->
    exists clause lazies residual,
      importClause d = Some clause
      /\ l = withInjectedImport options (fileName sourceFile) lazies ++ residual
      /\ Forall (isLazyConstOf d options) lazies
      /\ boundNames lazies
         = classifiedDefault (getTypeChecker program) d clause
           ++ map localName (classifiedNamed (getTypeChecker program) d options clause)
      /\ lazies <> []
      /\ (residual = []
          \/ residual = [ImportStatement (residualImport d clause (boundNames lazies))]).
Proof.
  intros d potential sourceFile program options l H.
  destruct (visitNode_cases (ImportStatement d) potential sourceFile program options)
    as [E | (d' & clause & Ed & Hc & Hin & E)]; rewrite E in H;
    [discriminate |].
  injection Ed as <-.
  apply rewriteImport_array in H
    as (names & lazies & Hnames & Hne & Hlazies & _ & Hl).
  pose proof (lazies_bind_component_names _ _ _ _ _ Hlazies) as Hb.
  exists clause, lazies.
  exists (if (importedNamesOf clause names =? length names)%nat then []
          else [ImportStatement (residualImport d clause names)]).
  split; [exact Hc |]. split.
  { destruct Hl as [[Hk ->] | (Hk & _ & ->)].
    - rewrite Hk, Nat.eqb_refl, app_nil_r. reflexivity.
    - apply Nat.eqb_neq in Hk. rewrite Hk. reflexivity. }
  split; [exact (lazies_are_lazy_constants _ _ _ _ _ Hlazies) |].
  split.
  { rewrite Hb.
    exact (@getImportedReactComponents_returned
             d clause (getTypeChecker program) options names Hc Hnames). }
  split.
  { intros ->. apply Hne. rewrite <- Hb. reflexivity. }
  rewrite Hb. destruct (_ =? _)%nat; auto.
Qed.

(** X7 at work, on the mixed import of the repository's tests. *)
Lemma replacement_shape_witness :
  exists l clause lazies residual,
    outcome (visitNode (ImportStatement Sample2.anotherMixImport)
                       [Sample2.anotherMixImport]
                       (Sample.fileWith Sample2.anotherMixImport)
                       Sample2.anotherMixProgram defaultOptions)
    = Returned (NodeArray l)
    /\ importClause Sample2.anotherMixImport = Some clause
    /\ l = withInjectedImport
             defaultOptions
             (fileName (Sample.fileWith Sample2.anotherMixImport)) lazies
           ++ residual
    /\ Forall (isLazyConstOf Sample2.anotherMixImport defaultOptions) lazies
    /\ boundNames lazies
       = classifiedDefault (getTypeChecker Sample2.anotherMixProgram)
                           Sample2.anotherMixImport clause
         ++ map localName
                (classifiedNamed (getTypeChecker Sample2.anotherMixProgram)
                                 Sample2.anotherMixImport defaultOptions clause)
    /\ lazies <> []
    /\ (residual = []
        \/ residual
           = [ImportStatement
                (residualImport Sample2.anotherMixImport clause
                                (boundNames lazies))]).
Proof.
  eexists.
  destruct (@replacement_is_lazy_constants_then_residual_import
              Sample2.anotherMixImport [Sample2.anotherMixImport]
              (Sample.fileWith Sample2.anotherMixImport)
              Sample2.anotherMixProgram defaultOptions _ eq_refl)
    as (clause & lazies & residual & H).
  exists clause, lazies, residual. split; [reflexivity | exact H].
Defined.

(** X8: an import statement found in a replacement, the injected import
    apart, is a fresh node built from the visited import: same module
    specifier, decorators and modifiers; its named imports are those of
    the original whose exported name is not in [componentNames], in their
    order; its default name, if it has one, is the identifier made from
    the [escapedText] of the original's default name, which is then not in
    [componentNames]: it reads as the original name when that is not led
    by two underscores, and with one more underscore when it is.  It only
    occurs without [onlyRewriteIfImportCanBeRemoved]. *)
Theorem residual_import_is_built_from_the_original :
  forall d potentialComponentImports sourceFile program options l r,
    outcome (visitNode (ImportStatement d) potentialComponentImports
                       sourceFile program options)
    = Returned (NodeArray l) ->
    In (ImportStatement r)
       (withoutInjectedImport options (fileName sourceFile) l) ->
    exists clause kept,
      importClause d = Some clause
      /\ importClause r = Some kept
      /\ onlyRewriteIfImportCanBeRemoved options = false
      /\ pos r = (-1)%Z
      /\ moduleSpecifier r = moduleSpecifier d
      /\ decorators r = decorators d
      /\ modifiers r = modifiers d
      /\ (namedBindings kept = None <-> namedBindings clause = None)
      /\ (exists keep,
             namedElements kept = filter keep (namedElements clause)
             /\ forall e,
                 keep e = true
                 <-> ~ In (text (propertyNameOrName e))
                          (componentNamesOf (getTypeChecker program) d options clause))
      /\ forall k,
          clauseName kept = Some k ->
          exists n,
            clauseName clause = Some n
            /\ k = createIdentifier (escapedText n)
            /\ text k = escapedText n
            /\ (plainIdentifier n -> text k = text n)
            /\ (~ plainIdentifier n -> text k <> text n)
            /\ ~ In (escapedText n)
                    (componentNamesOf (getTypeChecker program) d options clause).
Proof.
  intros d potential sourceFile program options l r H Hr.
  destruct (visitNode_cases (ImportStatement d) potential sourceFile program options)
    as [E | (d' & clause & Ed & Hc & Hin & E)]; rewrite E in H;
    [discriminate |].
  injection Ed as <-.
  apply rewriteImport_array in H
    as (names & lazies & Hnames & _ & Hlazies & _ & Hl).
  apply (@getImportedReactComponents_names d clause _ _ _ Hc) in Hnames.
  subst names.
  pose proof (lazies_are_not_imports _ _ _ _ _ Hlazies) as Hnot.
  set (names := componentNamesOf (getTypeChecker program) d options clause) in *.
  assert (R : r = residualImport d clause names
              /\ onlyRewriteIfImportCanBeRemoved options = false).
  { destruct Hl as [[_ ->] | (_ & Hf & ->)].
    - rewrite <- (app_nil_r (withInjectedImport _ _ lazies)),
        withoutInjectedImport_withInjectedImport, app_nil_r in Hr.
      apply Hnot in Hr. discriminate.
    - rewrite withoutInjectedImport_withInjectedImport in Hr.
      apply in_app_iff in Hr as [Hr | [Hr | []]].
      + apply Hnot in Hr. discriminate.
      + injection Hr as <-. auto. }
  destruct R as [-> Hf].
  exists clause. eexists. split; [exact Hc |]. split; [reflexivity |].
  repeat (split; [reflexivity || exact Hf |]).
  cbn [createImportClause namedBindings clauseName]. split; [| split].
  - destruct (namedBindings clause); split; congruence.
  - exists (fun e => (stringsIndexOf names (text (propertyNameOrName e)) =? -1)%Z).
    split.
    + unfold namedElements at 1. cbn [namedBindings].
      destruct (namedBindings clause) as [b |] eqn:Eb; [reflexivity |].
      unfold namedElements. rewrite Eb. reflexivity.
    + intros e. apply stringsIndexOf_absent.
  - intros k. unfold residualDefault.
    destruct (clauseName clause) as [n |]; [| discriminate].
    destruct (Js.truthy (escapedText n)); simpl; [| discriminate].
    destruct (stringsIndexOf names (escapedText n) =? -1)%Z eqn:En; simpl;
      [| discriminate].
    intros K. injection K as <-. exists n.
    split; [reflexivity |]. split; [reflexivity |].
    rewrite text_createIdentifier.
    split; [reflexivity |]. split; [intros P; exact P |].
    split; [intros P; exact P |].
    apply stringsIndexOf_absent. exact En.
Qed.

(** X8 at work, on the residual import of the mixed import. *)
Lemma residual_import_witness :
  exists l r clause kept,
    outcome (visitNode (ImportStatement Sample2.anotherMixImport)
                       [Sample2.anotherMixImport]
                       (Sample.fileWith Sample2.anotherMixImport)
                       Sample2.anotherMixProgram defaultOptions)
    = Returned (NodeArray l)
    /\ In (ImportStatement r)
          (withoutInjectedImport
             defaultOptions
             (fileName (Sample.fileWith Sample2.anotherMixImport)) l)
    /\ importClause Sample2.anotherMixImport = Some clause
    /\ importClause r = Some kept
    /\ pos r = (-1)%Z
    /\ moduleSpecifier r = moduleSpecifier Sample2.anotherMixImport
    /\ option_map text (clauseName kept) = Some "MyConst1"
    /\ map localName (namedElements kept) = ["MyConst2"].
Proof.
  eexists. eexists.
  assert (Hin : In (ImportStatement
                      (createImportDeclarationNode
                         None None
                         (Some (createImportClause
                                  (Some (createIdentifier "MyConst1"))
                                  (Some (NamedImports [Sample.plain "MyConst2"]))))
                         "./component1"))
                   (withoutInjectedImport
                      defaultOptions
                      (fileName (Sample.fileWith Sample2.anotherMixImport))
                      [Sample.lazyNamed "MyComp1" "./component1" "MyComp1";
                       Sample.lazyNamed "MyComp2" "./component1" "MyComp2";
                       ImportStatement
                         (createImportDeclarationNode
                            None None
                            (Some (createImportClause
                                     (Some (createIdentifier "MyConst1"))
                                     (Some (NamedImports [Sample.plain "MyConst2"]))))
                            "./component1")]))
    by (right; right; left; reflexivity).
  destruct (@residual_import_is_built_from_the_original
              Sample2.anotherMixImport [Sample2.anotherMixImport]
              (Sample.fileWith Sample2.anotherMixImport)
              Sample2.anotherMixProgram defaultOptions _ _ eq_refl Hin)
    as (clause & kept & Hc & Hk & _ & Hp & Hs & _).
  exists clause, kept.
  split; [reflexivity |]. split; [exact Hin |].
  split; [exact Hc |]. split; [exact Hk |]. split; [exact Hp |].
  split; [exact Hs |].
  injection Hk as <-. split; reflexivity.
Defined.

(** The default name led by two underscores: [import __D, { MyConst,
    helper }] with [__D] a component gives the lazy constant [__D] and a
    residual import whose default name reads [___D]. *)
Example residual_default_gains_an_underscore :
  exists lazies residual kept k,
    outcome (visitNode (ImportStatement Sample3.importDunderAndConstants)
                       [Sample3.importDunderAndConstants]
                       (Sample.fileWith Sample3.importDunderAndConstants)
                       Sample.mixProgram defaultOptions)
    = Returned (NodeArray (lazies ++ [ImportStatement residual]))
    /\ boundNames lazies = ["__D"]
    /\ importClause residual = Some kept
    /\ clauseName kept = Some k
    /\ text k = "___D"
    /\ map localName (namedElements kept) = ["MyConst"; "helper"].
Proof. do 4 eexists. repeat split. Qed.

(** ** The calls a visit makes *)

Lemma pushComponentElements_trace d typeChecker elements names result :
  outcome (pushComponentElements d typeChecker elements names) = Returned result ->
  trace (pushComponentElements d typeChecker elements names)
  = map (fun e => IsComponentTypeCalled (text (propertyNameOrName e))
                                        (moduleSpecifier d))
        elements.
Proof.
  revert names. induction elements as [| e rest IH]; intros names; simpl;
    [reflexivity |].
  intros H. apply outcome_bind_inv in H as (b & Hb & H).
  rewrite trace_bind, Hb, isComponentType_trace. simpl. f_equal.
  exact (IH _ H).
Qed.

Lemma getImportedReactComponents_trace d clause typeChecker options names :
  importClause d = Some clause ->
  outcome (getImportedReactComponents d typeChecker options) = Returned names ->
  trace (getImportedReactComponents d typeChecker options)
  = classifierCallsOf d clause options.
Proof.
  intros Hc. unfold getImportedReactComponents, classifierCallsOf. rewrite Hc.
  intros H. apply outcome_bind_inv in H as (fromDefault & Hd & H).
  rewrite trace_bind, Hd. f_equal.
  - destruct (clauseName clause); [| reflexivity].
    apply outcome_bind_inv in Hd as (b & Hb & _).
    rewrite trace_bind, Hb, isComponentType_trace. reflexivity.
  - unfold namedElements. destruct (onlyRewriteDefaultExports options); simpl;
      [reflexivity |].
    simpl in H.
    destruct (namedBindings clause) as [[elements | ns] |]; try reflexivity.
    exact (pushComponentElements_trace _ _ _ _ H).
Qed.

(** The calls of a rewrite: [shouldRewrite], then those of
    [getImportedReactComponents] when it accepts. *)
Lemma rewriteImport_trace_eq node clause sourceFile program options :
  trace (rewriteImport node clause sourceFile program options)
  = ShouldRewriteCalled (moduleSpecifier node) (fileName sourceFile)
    :: (if shouldRewrite options (moduleSpecifier node) (fileName sourceFile)
        then trace (getImportedReactComponents
                      node (getTypeChecker program) options)
        else []).
Proof.
  unfold rewriteImport. rewrite trace_bind_tell. f_equal.
  destruct (shouldRewrite options _ _); simpl; [| reflexivity].
  rewrite trace_bind.
  rewrite <- (app_nil_r (trace (getImportedReactComponents _ _ _))) at 2.
  f_equal.
  destruct (outcome _) as [names | x]; [| reflexivity].
  destruct (negb (length names =? 0)%nat); [| reflexivity].
  apply silent_bind.
  { apply silent_mapM. intros c. apply additionalStatement_silent. }
  intros lazies. apply silent_bind.
  { apply silent_bind; [| reflexivity].
    destruct (namedBindings clause); [| reflexivity].
    apply silent_bind; [apply elementsOf_silent | reflexivity]. }
  intros importedNames.
  destruct (importedNames =? length names)%nat; [reflexivity |].
  destruct (negb (onlyRewriteIfImportCanBeRemoved options)); [| reflexivity].
  apply silent_bind; [| reflexivity].
  destruct (namedBindings clause); [| reflexivity].
  apply silent_bind; [apply removeImportNames_silent | reflexivity].
Qed.

(** X9: a visit of a candidate that [shouldRewrite] accepts, when it
    returns, has made exactly these calls: [shouldRewrite] once, then the
    classifier once on ["default"] if the import has a default name, then
    once on each named import in source order, by its exported name and
    not by its alias; with [onlyRewriteDefaultExports] no named import is
    classified. *)
Theorem classifier_is_called_once_per_binding_in_order :
  forall d clause potentialComponentImports sourceFile program options visited,
    Js.indexOf sameNode potentialComponentImports d <> (-1)%Z ->
    importClause d = Some clause ->
    shouldRewrite options (moduleSpecifier d) (fileName sourceFile) = true ->
    outcome (visitNode (ImportStatement d) potentialComponentImports
                       sourceFile program options)
    = Returned visited ->
    trace (visitNode (ImportStatement d) potentialComponentImports
                     sourceFile program options)
    = ShouldRewriteCalled (moduleSpecifier d) (fileName sourceFile)
      :: classifierCallsOf d clause options.
Proof.
  intros d clause potential sourceFile program options visited
         Hin Hc Hshould H.
  assert (E : visitNode (ImportStatement d) potential sourceFile program options
              = rewriteImport d clause sourceFile program options).
  { unfold visitNode. rewrite Hc.
    destruct (Z.eqb_spec (Js.indexOf sameNode potential d) (-1));
      [contradiction | reflexivity]. }
  rewrite E in *. rewrite rewriteImport_trace_eq, Hshould. f_equal.
  unfold rewriteImport in H. rewrite outcome_bind_tell, Hshould in H.
  cbn [negb] in H. apply outcome_bind_inv in H as (names & Hn & _).
  exact (@getImportedReactComponents_trace
           d clause (getTypeChecker program) options names Hc Hn).
Qed.

(** X9 at work, on an aliased import: the classifier is asked about
    [MyComp1], the exported name. *)
Lemma classifier_calls_witness :
  trace (visitNode (ImportStatement Sample2.importAliased)
                   [Sample2.importAliased]
                   (Sample.fileWith Sample2.importAliased)
                   Sample2.arrowAndFunctionProgram defaultOptions)
  = [ShouldRewriteCalled "./component1" "page.tsx";
     IsComponentTypeCalled "MyComp1" "./component1"].
Proof.
  refine (@classifier_is_called_once_per_binding_in_order
            Sample2.importAliased _ [Sample2.importAliased]
            (Sample.fileWith Sample2.importAliased)
            Sample2.arrowAndFunctionProgram defaultOptions _
            _ eq_refl eq_refl eq_refl).
  vm_compute. discriminate.
Defined.

(** ** The walk over the statements of a file *)

Lemma mapM_returned_inv A B (f : A -> M B) (l : list A) ys :
  outcome (mapM f l) = Returned ys ->
  Forall2 (fun x y => outcome (f x) = Returned y) l ys.
Proof.
  revert ys. induction l as [| x l IH]; intros ys; simpl.
  - intros H. injection H as <-. constructor.
  - intros H. apply outcome_bind_inv in H as (y & Hy & H).
    apply outcome_bind_inv in H as (rest & Hrest & H). injection H as <-.
    constructor; [exact Hy | exact (IH _ Hrest)].
Qed.

Lemma mapM_returned A B (f : A -> M B) (g : A -> B) (l : list A) :
  (forall x, In x l -> outcome (f x) = Returned (g x)) ->
  outcome (mapM f l) = Returned (map g l).
Proof.
  induction l as [| x l IH]; simpl; intros H; [reflexivity |].
  rewrite (outcome_bind _ _ (H x (or_introl eq_refl))).
  rewrite (@outcome_bind _ _ _ _ (map g l)); [reflexivity |].
  apply IH. intros y Hy. apply H. right. exact Hy.
Qed.

Lemma trace_mapM A B (f : A -> M B) (P : Event -> Prop) (l : list A) :
  (forall x, In x l -> Forall P (trace (f x))) -> Forall P (trace (mapM f l)).
Proof.
  induction l as [| x l IH]; simpl; intros H; [constructor |].
  rewrite trace_bind. apply Forall_app. split; [apply H; auto |].
  destruct (outcome (f x)) as [y | e]; [| constructor].
  rewrite trace_bind. apply Forall_app. split; [apply IH; auto |].
  destruct (outcome (mapM f l)); constructor.
Qed.

Lemma trace_mapM_returned A B (f : A -> M B) (l : list A) ys :
  outcome (mapM f l) = Returned ys ->
  trace (mapM f l) = flat_map (fun x => trace (f x)) l.
Proof.
  revert ys. induction l as [| x l IH]; intros ys; simpl; [reflexivity |].
  intros H. apply outcome_bind_inv in H as (y & Hy & H).
  apply outcome_bind_inv in H as (rest & Hrest & H).
  rewrite trace_bind, Hy, trace_bind, Hrest, (IH _ Hrest). simpl.
  rewrite app_nil_r. reflexivity.
Qed.

Lemma leadsWithItsUpperCase_silent t : trace (leadsWithItsUpperCase t) = [].
Proof. unfold leadsWithItsUpperCase. destruct (Js.charAt0 t); reflexivity. Qed.

Lemma someM_silent A (f : A -> M bool) (l : list A) :
  (forall a, trace (f a) = []) -> trace (someM f l) = [].
Proof.
  intros Hf. induction l as [| x l IH]; simpl; [reflexivity |].
  apply silent_bind; [apply Hf |]. intros [|]; [reflexivity | exact IH].
Qed.

Lemma isPotentialComponentImport_silent i :
  trace (isPotentialComponentImport i) = [].
Proof.
  unfold isPotentialComponentImport. apply silent_bind.
  - destruct (importClause i) as [c |]; [| reflexivity].
    destruct (clauseName c); [apply leadsWithItsUpperCase_silent | reflexivity].
  - intros [|]; [reflexivity |].
    destruct (importClause i) as [c |]; [| reflexivity].
    destruct (namedBindings c) as [[elements | ns] |]; try reflexivity.
    apply someM_silent. intros e. apply leadsWithItsUpperCase_silent.
Qed.

Lemma filterM_silent A (f : A -> M bool) (l : list A) :
  (forall a, trace (f a) = []) -> trace (filterM f l) = [].
Proof.
  intros Hf. induction l as [| x l IH]; simpl; [reflexivity |].
  apply silent_bind; [apply Hf |]. intros b.
  apply silent_bind; [exact IH | reflexivity].
Qed.

(** When the pre-filter returns, it returns the imports it accepts. *)
Lemma filterM_returned_inv (imports : list ImportDeclaration) potential :
  outcome (filterM isPotentialComponentImport imports) = Returned potential ->
  potential = filter passesPreFilter imports.
Proof.
  revert potential. induction imports as [| d rest IH]; intros potential; simpl.
  - intros H. injection H as <-. reflexivity.
  - intros H. apply outcome_bind_inv in H as (b & Hb & H).
    apply outcome_bind_inv in H as (ys & Hys & H). injection H as <-.
    unfold passesPreFilter at 1. rewrite Hb, (IH _ Hys).
    destruct b; reflexivity.
Qed.

(** With names that are not empty the pre-filter returns. *)
Lemma filterM_returns (imports : list ImportDeclaration) :
  (forall d n, In d imports -> In n (candidateNames d) -> n <> "") ->
  exists potential,
    outcome (filterM isPotentialComponentImport imports) = Returned potential.
Proof.
  induction imports as [| d rest IH]; simpl; intros H; [eexists; reflexivity |].
  destruct IH as [ys Hys]; [intros d' n Hd'; apply H; auto |].
  rewrite isPotentialComponentImport_spec, bind_ret.
  - rewrite (outcome_bind _ _ Hys). eexists. reflexivity.
  - apply Forall_forall. intros n Hn. exact (H d n (or_introl eq_refl) Hn).
Qed.

Lemma in_importDeclarationsOf d (l : list Statement) :
  In d (importDeclarationsOf l) <-> In (ImportStatement d) l.
Proof.
  induction l as [| s l IH]; simpl; [tauto |].
  destruct s; simpl; rewrite IH; intuition congruence.
Qed.

Lemma visitNodeAndChildren_outcome node potential sourceFile program options :
  outcome (visitNodeAndChildren node potential sourceFile program options)
  = outcome (visitNode node potential sourceFile program options).
Proof.
  unfold visitNodeAndChildren, visitEachChild.
  destruct (visitNode node potential sourceFile program options) as [t [v | e]];
    reflexivity.
Qed.

Lemma visitNodeAndChildren_trace node potential sourceFile program options :
  trace (visitNodeAndChildren node potential sourceFile program options)
  = trace (visitNode node potential sourceFile program options).
Proof.
  unfold visitNodeAndChildren, visitEachChild. rewrite trace_bind.
  destruct (outcome _); apply app_nil_r.
Qed.

Lemma flattenVisited_one (l : list Statement) :
  flattenVisited (map OneNode l) = l.
Proof.
  unfold flattenVisited. induction l as [| s l IH]; simpl; [reflexivity |].
  rewrite IH. reflexivity.
Qed.

(** X10: the file a run returns has the name of the input, and its
    statements are those of the input in their order, each one as it was
    or, for an import, replaced on the spot by the array its rewrite
    returned; a statement that is not an import is never touched. *)
Theorem output_is_the_input_with_replacements_spliced_in :
  forall sourceFile program options out,
    outcome (visitSourceFile sourceFile program options) = Returned out ->
    fileName out = fileName sourceFile
    /\ exists blocks,
        statements out = concat blocks
        /\ Forall2 (blockOf sourceFile program options)
                   (statements sourceFile) blocks.
Proof.
  intros sourceFile program options out H.
  assert (Same : exists blocks,
             statements sourceFile = concat blocks
             /\ Forall2 (blockOf sourceFile program options)
                        (statements sourceFile) blocks).
  { induction (statements sourceFile) as [| s l (blocks & E & F)].
    - exists []. split; [reflexivity | constructor].
    - exists ([s] :: blocks). split; [simpl; rewrite <- E; reflexivity |].
      constructor; [left; reflexivity | exact F]. }
  unfold visitSourceFile in H. cbv zeta in H.
  destruct (_ && _); [| injection H as <-; auto].
  apply outcome_bind_inv in H as (potential & _ & H).
  destruct (negb _); [| injection H as <-; auto].
  apply outcome_bind_inv in H as (visited & Hv & H). injection H as <-.
  split; [reflexivity |].
  apply mapM_returned_inv in Hv. cbn [statements updateSourceFileNode].
  exists (map (fun v => match v with OneNode n => [n] | NodeArray ns => ns end)
              visited).
  split; [apply flat_map_concat_map |].
  clear Same. induction Hv as [| s v l vs Hs _ IH]; [constructor |].
  constructor; [| exact IH].
  rewrite visitNodeAndChildren_outcome in Hs.
  destruct (visitNode_cases s potential sourceFile program options)
    as [E | (d & clause & -> & Hc & _ & E)]; rewrite E in Hs.
  - injection Hs as <-. left. reflexivity.
  - destruct v as [s' | block].
    + rewrite (rewriteImport_one _ _ _ _ _ Hs). left. reflexivity.
    + right. exists d, clause. auto.
Qed.

(** X10 at work, on the module of the mixed test. *)
Lemma output_splice_witness :
  exists out blocks,
    outcome (visitSourceFile Sample.mixFile Sample.mixProgram defaultOptions)
    = Returned out
    /\ fileName out = fileName Sample.mixFile
    /\ statements out = concat blocks
    /\ Forall2 (blockOf Sample.mixFile Sample.mixProgram defaultOptions)
               (statements Sample.mixFile) blocks.
Proof.
  eexists.
  destruct (@output_is_the_input_with_replacements_spliced_in
              Sample.mixFile Sample.mixProgram defaultOptions _ eq_refl)
    as (Hname & blocks & Hs & Hb).
  exists blocks. split; [reflexivity |]. auto.
Defined.

(** What a visit returns for a statement whose import, if it is one, is
    refused by [shouldRewrite] or holds no component. *)
Lemma statement_without_component_is_kept s potential sourceFile program options :
  (forall d, s = ImportStatement d ->
             shouldRewrite options (moduleSpecifier d) (fileName sourceFile) = false
             \/ outcome (getImportedReactComponents
                           d (getTypeChecker program) options)
                = Returned []) ->
  outcome (visitNodeAndChildren s potential sourceFile program options)
  = Returned (OneNode s).
Proof.
  intros H. rewrite visitNodeAndChildren_outcome.
  destruct (visitNode_cases s potential sourceFile program options)
    as [E | (d & clause & -> & Hc & _ & E)]; rewrite E; [reflexivity |].
  unfold rewriteImport. rewrite outcome_bind_tell.
  destruct (shouldRewrite options _ _) eqn:Hs; [| reflexivity].
  destruct (H d eq_refl) as [C | Hn]; [congruence |].
  cbn [negb]. rewrite (outcome_bind _ _ Hn). reflexivity.
Qed.

(** X11: a module with non-empty binding names, each of whose imports is
    refused by [shouldRewrite] or classified as holding no component, is
    returned as it is, statement for statement. *)
Theorem module_without_components_is_returned_as_it_is :
  forall sourceFile program options,
    (forall d n, In d (importDeclarationsOf (statements sourceFile)) ->
                 In n (candidateNames d) -> n <> "") ->
    (forall d, In d (importDeclarationsOf (statements sourceFile)) ->
               shouldRewrite options (moduleSpecifier d) (fileName sourceFile) = false
               \/ outcome (getImportedReactComponents
                             d (getTypeChecker program) options)
                  = Returned []) ->
    outcome (visitSourceFile sourceFile program options) = Returned sourceFile.
Proof.
  intros sourceFile program options Hnames Hnone.
  unfold visitSourceFile. cbv zeta.
  destruct (_ && _); [| reflexivity].
  destruct (filterM_returns _ Hnames) as [potential Hp].
  rewrite (outcome_bind _ _ Hp).
  destruct (negb _); [| reflexivity].
  rewrite (@outcome_bind _ _ _ _ (map OneNode (statements sourceFile))).
  - simpl. rewrite flattenVisited_one. destruct sourceFile; reflexivity.
  - apply mapM_returned. intros s Hs.
    apply statement_without_component_is_kept. intros d ->.
    apply Hnone. apply in_importDeclarationsOf. exact Hs.
Qed.

(** X11 at work: a module that imports a constant from the module of the
    mixed test. *)
Lemma module_without_components_witness :
  outcome (visitSourceFile (Sample.fileWith Sample3.importConstOnly)
                           Sample.mixProgram defaultOptions)
  = Returned (Sample.fileWith Sample3.importConstOnly).
Proof.
  apply (@module_without_components_is_returned_as_it_is
           (Sample.fileWith Sample3.importConstOnly)
           Sample.mixProgram defaultOptions).
  - simpl. intros d n [<- | [<- | []]]; simpl; intros Hn;
      repeat (destruct Hn as [<- | Hn]; [discriminate |]); contradiction.
  - simpl. intros d [<- | [<- | []]]; right; reflexivity.
Defined.

(** ** The calls of a run *)

Lemma pushComponentElements_calls_of d typeChecker elements names :
  Forall (fun ev => exists identifier,
              ev = IsComponentTypeCalled identifier (moduleSpecifier d))
         (trace (pushComponentElements d typeChecker elements names)).
Proof.
  revert names. induction elements as [| e rest IH]; intros names; simpl.
  - constructor.
  - rewrite trace_bind, isComponentType_trace.
    constructor; [eexists; reflexivity |].
    destruct (outcome _) as [b | x]; [apply IH | constructor].
Qed.

Lemma getImportedReactComponents_calls_of d typeChecker options :
  Forall (fun ev => exists identifier,
              ev = IsComponentTypeCalled identifier (moduleSpecifier d))
         (trace (getImportedReactComponents d typeChecker options)).
Proof.
  unfold getImportedReactComponents.
  destruct (importClause d) as [clause |]; [| constructor].
  rewrite trace_bind. apply Forall_app. split.
  - destruct (clauseName clause); [| constructor].
    rewrite trace_bind, isComponentType_trace.
    constructor; [eexists; reflexivity |].
    destruct (outcome _); constructor.
  - destruct (outcome _) as [names | x]; [| constructor].
    destruct (negb (onlyRewriteDefaultExports options)); [| constructor].
    destruct (namedBindings clause) as [[elements | n] |]; try constructor.
    apply pushComponentElements_calls_of.
Qed.

(** X12: every call a run makes concerns the file it is given:
    [shouldRewrite] is called on the module specifier of an import of the
    file and on the file's name, and the classifier only on the module of
    an import of the file that [shouldRewrite] accepts. *)
Theorem calls_concern_the_imports_of_the_file :
  forall sourceFile program options,
    Forall (callOfFile sourceFile options)
           (trace (visitSourceFile sourceFile program options)).
Proof.
  intros sourceFile program options. unfold visitSourceFile. cbv zeta.
  destruct (_ && _); [| constructor].
  rewrite trace_bind, (@filterM_silent _ _ _ isPotentialComponentImport_silent).
  cbn [app].
  destruct (outcome _) as [potential | x]; [| constructor].
  destruct (negb _); [| constructor].
  rewrite trace_bind. apply Forall_app. split;
    [| destruct (outcome _); constructor].
  apply trace_mapM. intros s Hs. rewrite visitNodeAndChildren_trace.
  destruct (visitNode_cases s potential sourceFile program options)
    as [E | (d & clause & -> & Hc & _ & E)]; rewrite E; [constructor |].
  apply in_importDeclarationsOf in Hs.
  rewrite rewriteImport_trace_eq. constructor.
  - split; [reflexivity |]. exists d. auto.
  - destruct (shouldRewrite options _ _) eqn:Hshould; [| constructor].
    apply Forall_impl
      with (2 := getImportedReactComponents_calls_of
                   d (getTypeChecker program) options).
    intros ev [identifier ->]. split; [exact Hshould |]. exists d. auto.
Qed.

Lemma shouldRewriteCalls_app t t' :
  shouldRewriteCalls (t ++ t') = shouldRewriteCalls t ++ shouldRewriteCalls t'.
Proof.
  induction t as [| [specifier currentFile | identifier specifier] t IH]; simpl;
    [reflexivity | rewrite IH; reflexivity | exact IH].
Qed.

Lemma shouldRewriteCalls_classifier t :
  Forall isClassifierCall t -> shouldRewriteCalls t = [].
Proof.
  induction 1 as [| ev t Hev _ IH]; [reflexivity |].
  destruct ev; [destruct Hev | exact IH].
Qed.

Lemma sameNode_spec a b : sameNode a b = true <-> a = b.
Proof.
  unfold sameNode. destruct (ImportDeclaration_eq_dec a b); split; congruence.
Qed.

Lemma indexOfFrom_sameNode_absent (l : list ImportDeclaration) x i :
  (0 <= i)%Z -> (Js.indexOfFrom sameNode i x l = (-1)%Z <-> ~ In x l).
Proof.
  revert i. induction l as [| y l IH]; intros i Hi; simpl.
  - split; auto.
  - destruct (sameNode y x) eqn:E.
    + apply sameNode_spec in E. split; [lia | intros H; exfalso; apply H; auto].
    + rewrite (IH (i + 1)%Z ltac:(lia)). split.
      * intros H [E' | Hin]; [| exact (H Hin)].
        apply sameNode_spec in E'. congruence.
      * intros H Hin. apply H. auto.
Qed.

Lemma passesPreFilter_clause d :
  passesPreFilter d = true -> exists clause, importClause d = Some clause.
Proof.
  unfold passesPreFilter, isPotentialComponentImport.
  destruct (importClause d) as [clause |]; [eauto | discriminate].
Qed.

(** The calls of [shouldRewrite] over a list of statements, when the
    candidates are the imports that pass the pre-filter. *)
Lemma shouldRewriteCalls_of_walk potential sourceFile program options
      (l : list Statement) :
  (forall d, In d (importDeclarationsOf l) ->
             (Js.indexOf sameNode potential d <> (-1)%Z
              <-> passesPreFilter d = true)) ->
  shouldRewriteCalls
    (flat_map (fun s => trace (visitNodeAndChildren
                                 s potential sourceFile program options)) l)
  = map (fun d => (moduleSpecifier d, fileName sourceFile))
        (filter passesPreFilter (importDeclarationsOf l)).
Proof.
  induction l as [| s l IH]; intros H; [reflexivity |].
  cbn [flat_map]. rewrite shouldRewriteCalls_app, visitNodeAndChildren_trace.
  destruct s as [d | v | at_ source].
  - cbn [importDeclarationsOf filter] in *.
    rewrite IH by (intros d' Hd'; apply H; right; exact Hd').
    specialize (H d (or_introl eq_refl)).
    destruct (passesPreFilter d) eqn:Ev.
    + destruct (passesPreFilter_clause _ Ev) as [clause Hc].
      assert (E : visitNode (ImportStatement d) potential sourceFile program options
                  = rewriteImport d clause sourceFile program options).
      { unfold visitNode. rewrite Hc.
        destruct (Z.eqb_spec (Js.indexOf sameNode potential d) (-1)) as [C | _];
          [| reflexivity].
        exfalso. exact (proj2 H eq_refl C). }
      rewrite E, rewriteImport_trace_eq. cbn [shouldRewriteCalls map app].
      rewrite shouldRewriteCalls_classifier; [reflexivity |].
      destruct (shouldRewrite options _ _); [| constructor].
      apply getImportedReactComponents_calls.
    + assert (E : visitNode (ImportStatement d) potential sourceFile program options
                  = ret (OneNode (ImportStatement d))).
      { unfold visitNode.
        destruct (Z.eqb_spec (Js.indexOf sameNode potential d) (-1)) as [_ | N];
          [reflexivity |].
        apply H in N. discriminate. }
      rewrite E. reflexivity.
  - cbn [importDeclarationsOf] in *. rewrite (IH H). reflexivity.
  - cbn [importDeclarationsOf] in *. rewrite (IH H). reflexivity.
Qed.

(** X13: in a run that returns, on a module that imports ["react"] and
    whose name does not hold [.d.ts], [shouldRewrite] is called exactly
    once for each import that passes the pre-filter, in source order, on
    its module specifier and the name of the file; imports that do not
    pass are never submitted to it. *)
Theorem shouldRewrite_is_called_once_per_candidate_in_order :
  forall sourceFile program options out,
    existsb (fun s => moduleSpecifier s =? "react")
            (importDeclarationsOf (statements sourceFile)) = true ->
    Js.stringIndexOf (fileName sourceFile) ".d.ts" = (-1)%Z ->
    outcome (visitSourceFile sourceFile program options) = Returned out ->
    shouldRewriteCalls (trace (visitSourceFile sourceFile program options))
    = map (fun d => (moduleSpecifier d, fileName sourceFile))
          (filter passesPreFilter (importDeclarationsOf (statements sourceFile))).
Proof.
  intros sourceFile program options out Hreact Hdts H.
  unfold visitSourceFile in H |- *. cbv zeta in H |- *.
  rewrite Hreact, Hdts in H |- *.
  change ((-1 =? -1)%Z) with true in H |- *. cbn [andb] in H |- *.
  apply outcome_bind_inv in H as (potential & Hp & H).
  rewrite trace_bind, Hp, (@filterM_silent _ _ _ isPotentialComponentImport_silent).
  cbn [app].
  pose proof (filterM_returned_inv _ Hp) as Ep.
  destruct potential as [| c0 rest].
  { rewrite <- Ep. reflexivity. }
  remember (c0 :: rest) as potential eqn:Epot.
  replace (negb (length potential =? 0)%nat) with true in H |- *
    by (subst potential; reflexivity).
  apply outcome_bind_inv in H as (visited & Hv & _).
  rewrite trace_bind, Hv, (trace_mapM_returned _ _ Hv).
  rewrite shouldRewriteCalls_app. cbn [trace ret fst shouldRewriteCalls].
  rewrite app_nil_r.
  apply shouldRewriteCalls_of_walk. intros d Hd.
  rewrite Ep. unfold Js.indexOf.
  rewrite indexOfFrom_sameNode_absent by lia. split.
  - intros Hnn. destruct (passesPreFilter d) eqn:Ev; [reflexivity |].
    exfalso. apply Hnn. intros Hin. apply filter_In in Hin as [_ C]. congruence.
  - intros Ev Hn. apply Hn. apply filter_In. auto.
Qed.

(** X13 at work, on the module of the mixed test. *)
Lemma shouldRewrite_calls_witness :
  shouldRewriteCalls
    (trace (visitSourceFile Sample.mixFile Sample.mixProgram defaultOptions))
  = map (fun d => (moduleSpecifier d, fileName Sample.mixFile))
        (filter passesPreFilter
                (importDeclarationsOf (statements Sample.mixFile))).
Proof.
  exact (@shouldRewrite_is_called_once_per_candidate_in_order
           Sample.mixFile Sample.mixProgram defaultOptions _
           eq_refl eq_refl eq_refl).
Defined.

(** ** The factory *)

(** X14: the options of [transformer] are merged over the defaults key by
    key: merging no key gives the base, merging a full set of options
    gives that set; so a transformer made without options, or with the
    empty object, runs [visitSourceFile] under [defaultOptions]; and
    without a program no transformer is made, whatever the options. *)
Theorem transformer_falls_back_on_the_default_options :
  (forall base, spread base noOptions = base)
  /\ (forall base options, spread base (allGiven options) = options)
  /\ (forall program file,
         transform (transformer (Some program) None) file
         = Some (visitSourceFile file program defaultOptions)
         /\ transform (transformer (Some program) (Some noOptions)) file
            = Some (visitSourceFile file program defaultOptions))
  /\ forall given file, transform (transformer None given) file = None.
Proof.
  split; [intros []; reflexivity |].
  split; [intros base []; reflexivity |].
  split; [intros program file; split; reflexivity |].
  intros given file. reflexivity.
Qed.

(** X15: a [shouldRewrite] given to [transformer] replaces the default
    one, whatever else is given: when it refuses every import, the
    transformer returns every file with non-empty binding names as it is,
    and the classifier is never called. *)
Theorem refusing_shouldRewrite_overrides_the_default :
  forall program given file refuse,
    givenShouldRewrite given = Some refuse ->
    (forall specifier currentFile, refuse specifier currentFile = false) ->
    (forall d n, In d (importDeclarationsOf (statements file)) ->
                 In n (candidateNames d) -> n <> "") ->
    exists run,
      transform (transformer (Some program) (Some given)) file = Some run
      /\ outcome run = Returned file
      /\ Forall (fun ev => ~ isClassifierCall ev) (trace run).
Proof.
  intros program given file refuse Hgiven Hrefuse Hnames.
  eexists. split; [reflexivity |].
  set (options := spread defaultOptions given).
  assert (Ho : forall specifier currentFile,
             shouldRewrite options specifier currentFile = false).
  { intros specifier currentFile. unfold options, spread. cbn [shouldRewrite].
    rewrite Hgiven. apply Hrefuse. }
  split.
  - unfold visitSourceFile. cbv zeta.
    destruct (_ && _); [| reflexivity].
    destruct (filterM_returns _ Hnames) as [potential Hp].
    rewrite (outcome_bind _ _ Hp).
    destruct (negb _); [| reflexivity].
    rewrite (@outcome_bind _ _ _ _ (map OneNode (statements file))).
    + simpl. rewrite flattenVisited_one. destruct file; reflexivity.
    + apply mapM_returned. intros s _.
      apply statement_without_component_is_kept. intros d _. left. apply Ho.
  - unfold visitSourceFile. cbv zeta.
    destruct (_ && _); [| constructor].
    rewrite trace_bind, (@filterM_silent _ _ _ isPotentialComponentImport_silent).
    cbn [app].
    destruct (outcome _) as [potential | x]; [| constructor].
    destruct (negb _); [| constructor].
    rewrite trace_bind. apply Forall_app. split;
      [| destruct (outcome _); constructor].
    apply trace_mapM. intros s _. rewrite visitNodeAndChildren_trace.
    destruct (visitNode_cases s potential file program options)
      as [E | (d & clause & -> & Hc & _ & E)]; rewrite E; [constructor |].
    rewrite rewriteImport_trace_eq, Ho. repeat constructor. intros [].
Qed.

(** X15 at work: the module of the mixed test under
    [{ shouldRewrite: () => false }]. *)
Lemma refusing_shouldRewrite_witness :
  exists run,
    transform (transformer (Some Sample.mixProgram) (Some Sample3.onlyRefuse))
              Sample.mixFile
    = Some run
    /\ outcome run = Returned Sample.mixFile
    /\ Forall (fun ev => ~ isClassifierCall ev) (trace run).
Proof.
  apply (@refusing_shouldRewrite_overrides_the_default
           Sample.mixProgram Sample3.onlyRefuse Sample.mixFile
           (fun _ _ => false) eq_refl).
  - reflexivity.
  - simpl. intros d n [<- | [<- | []]]; simpl; intros Hn;
      repeat (destruct Hn as [<- | Hn]; [discriminate |]); contradiction.
Defined.

(** ** Running the transform on its own output *)

(** A visit reads of the candidates only whether the node is among them,
    and of the source file only its name. *)
Lemma visitNode_same s potential potential' sourceFile sourceFile' program options :
  fileName sourceFile = fileName sourceFile' ->
  (forall d, s = ImportStatement d ->
             (Js.indexOf sameNode potential d <> (-1)%Z
              <-> Js.indexOf sameNode potential' d <> (-1)%Z)) ->
  visitNode s potential sourceFile program options
  = visitNode s potential' sourceFile' program options.
Proof.
  intros Hf Hm. unfold visitNode. destruct s as [d | |]; try reflexivity.
  specialize (Hm d eq_refl).
  destruct (Z.eqb_spec (Js.indexOf sameNode potential d) (-1)) as [E | N],
      (Z.eqb_spec (Js.indexOf sameNode potential' d) (-1)) as [E' | N']; simpl.
  - reflexivity.
  - exfalso. apply Hm in N'. contradiction.
  - exfalso. apply Hm in N. contradiction.
  - destruct (importClause d); [| reflexivity].
    unfold rewriteImport. rewrite Hf. reflexivity.
Qed.

Lemma prefiltered_membership (imports : list ImportDeclaration) d :
  In d imports ->
  (Js.indexOf sameNode (filter passesPreFilter imports) d <> (-1)%Z
   <-> passesPreFilter d = true).
Proof.
  intros Hd. unfold Js.indexOf.
  rewrite indexOfFrom_sameNode_absent by lia. split.
  - intros Hnn. destruct (passesPreFilter d) eqn:Ev; [reflexivity |].
    exfalso. apply Hnn. intros Hin. apply filter_In in Hin as [_ C]. congruence.
  - intros Ev Hn. apply Hn. apply filter_In. auto.
Qed.

Lemma Forall2_In_r A B (R : A -> B -> Prop) (l : list A) (l' : list B) y :
  Forall2 R l l' -> In y l' -> exists x, In x l /\ R x y.
Proof.
  induction 1 as [| x y' l l' Hxy _ IH]; simpl; [contradiction |].
  intros [<- | Hy]; [eauto |].
  destruct (IH Hy) as (x' & Hx' & Hr). eauto.
Qed.

Lemma pushComponentElements_each_returned d typeChecker elements names result :
  outcome (pushComponentElements d typeChecker elements names) = Returned result ->
  forall e, In e elements ->
            exists b, outcome (isComponentType (text (propertyNameOrName e))
                                               d typeChecker)
                      = Returned b.
Proof.
  revert names. induction elements as [| x rest IH]; intros names H e; simpl;
    [contradiction |].
  simpl in H. apply outcome_bind_inv in H as (b & Hb & H).
  intros [<- | He]; [eauto | exact (IH _ H e He)].
Qed.

Lemma pushComponentElements_none d typeChecker elements names :
  (forall e, In e elements ->
             outcome (isComponentType (text (propertyNameOrName e)) d typeChecker)
             = Returned false) ->
  outcome (pushComponentElements d typeChecker elements names) = Returned names.
Proof.
  induction elements as [| x rest IH]; simpl; intros H; [reflexivity |].
  rewrite (outcome_bind _ _ (H x (or_introl eq_refl))).
  apply IH. intros e He. apply H. auto.
Qed.

Lemma plainImport_names_nonempty d :
  plainImport d -> forall n, In n (candidateNames d) -> n <> "".
Proof.
  unfold plainImport, candidateNames. intros H n.
  destruct (importClause d) as [clause |]; [| contradiction].
  destruct (H clause eq_refl) as (P1 & P2 & _).
  rewrite in_app_iff. intros [Hn | Hn].
  - destruct (clauseName clause) as [m |]; [| contradiction].
    destruct Hn as [<- | []]. apply (P1 m eq_refl).
  - unfold namedElements in P2.
    destruct (namedBindings clause) as [[elements | ns] |]; try contradiction.
    apply in_map_iff in Hn as (e & <- & He). apply (P2 e He).
Qed.

Lemma residual_import_names_nonempty d clause names :
  (forall n, clauseName clause = Some n -> plainIdentifier n /\ text n <> "") ->
  (forall e, In e (namedElements clause) -> text (name e) <> "") ->
  forall n, In n (candidateNames (residualImport d clause names)) -> n <> "".
Proof.
  intros Hplain Hne n.
  unfold candidateNames, residualImport, createImportDeclarationNode,
    createImportClause.
  cbn [importClause clauseName namedBindings].
  rewrite in_app_iff. intros [H | H].
  - unfold residualDefault in H.
    destruct (clauseName clause) as [m |]; [| contradiction].
    destruct (Hplain m eq_refl) as [Pm Nm].
    destruct (Js.truthy _ && _); [contradiction |].
    destruct (Js.truthy _); [| contradiction].
    destruct H as [<- | []]. rewrite text_createIdentifier, Pm. exact Nm.
  - destruct (namedBindings clause) as [b |] eqn:Eb; [| contradiction].
    apply in_map_iff in H as (e & <- & He). apply Hne.
    unfold residualElements in He. apply filter_In in He. tauto.
Qed.

(** The residual import of a plain import holds no component. *)
Lemma residual_import_holds_no_component d clause typeChecker options names :
  (forall n, clauseName clause = Some n -> plainIdentifier n /\ text n <> "") ->
  (forall e, In e (namedElements clause) -> propertyName e = None) ->
  NoDup (defaultAndNamed clause) ->
  importClause d = Some clause ->
  outcome (getImportedReactComponents d typeChecker options) = Returned names ->
  outcome (getImportedReactComponents (residualImport d clause names)
                                      typeChecker options)
  = Returned [].
Proof.
  intros Hplain Hnoalias Hnd Hc Hnames.
  pose proof (@getImportedReactComponents_names d clause _ _ _ Hc Hnames) as ->.
  pose proof (residualDefault_unclassified
                typeChecker d options clause Hplain Hnd) as HD.
  pose proof (residualElements_unclassified
                typeChecker d options clause Hplain Hnoalias Hnd) as HE.
  unfold getImportedReactComponents in Hnames. rewrite Hc in Hnames.
  apply outcome_bind_inv in Hnames as (fromDefault & Hd & Hn).
  set (names := componentNamesOf typeChecker d options clause) in *.
  remember (residualImport d clause names) as r eqn:Er.
  assert (Hs : moduleSpecifier r = moduleSpecifier d) by (subst r; reflexivity).
  assert (Hr : importClause r
               = Some {| clauseName := residualDefault clause names;
                         namedBindings :=
                           match namedBindings clause with
                           | Some _ =>
                               Some (NamedImports (residualElements clause names))
                           | None => None
                           end |})
    by (subst r; reflexivity).
  clear Er. unfold getImportedReactComponents. rewrite Hr.
  cbn [clauseName namedBindings].
  rewrite (@outcome_bind _ _ _ _ []).
  - destruct (onlyRewriteDefaultExports options) eqn:Eo; simpl; [reflexivity |].
    simpl in Hn.
    destruct (namedBindings clause) as [b |] eqn:Eb; [| reflexivity].
    rewrite (pushComponentElements_specifier r d typeChecker _ _ Hs).
    apply pushComponentElements_none. intros e He.
    rewrite HE in He. apply filter_In in He as [He Hv].
    unfold namedElements in He. rewrite Eb in He.
    destruct b as [elements | ns]; [| contradiction].
    destruct (pushComponentElements_each_returned _ _ _ _ Hn e He) as [v Hv'].
    rewrite Hv'. f_equal.
    unfold namedVerdict in Hv. rewrite Eo in Hv. simpl in Hv.
    rewrite (classifies_returned _ _ _ Hv') in Hv.
    destruct v; [discriminate | reflexivity].
  - destruct (residualDefault clause names) as [k |]; [| reflexivity].
    simpl in HD.
    destruct (clauseName clause) as [n |]; [| discriminate].
    destruct (classifies typeChecker d "default") eqn:Ecl; [discriminate |].
    apply outcome_bind_inv in Hd as (v & Hv & _).
    rewrite (isComponentType_specifier "default" r d typeChecker Hs).
    rewrite (outcome_bind _ _ Hv).
    rewrite (classifies_returned _ _ _ Hv) in Ecl. subst v. reflexivity.
Qed.

(** X16: the transform is idempotent on plain imports.  When every import
    of the module has distinct, non-empty names, no alias and no default
    name led by two underscores, and the import that
    [createImportDeclaration] injects, if any, is itself refused or holds
    no component, a second run on the output of a run, with the same
    program and options, returns that output unchanged. *)
Theorem transform_is_idempotent_on_plain_imports :
  forall sourceFile program options out,
    (forall d, In d (importDeclarationsOf (statements sourceFile)) ->
               plainImport d) ->
    (forall i,
        createImportDeclaration options (fileName sourceFile) = Some i ->
        (forall n, In n (candidateNames i) -> n <> "")
        /\ (shouldRewrite options (moduleSpecifier i) (fileName sourceFile) = false
            \/ outcome (getImportedReactComponents
                          i (getTypeChecker program) options)
               = Returned [])) ->
    outcome (visitSourceFile sourceFile program options) = Returned out ->
    outcome (visitSourceFile out program options) = Returned out.
Proof.
  intros sourceFile program options out Hplain Hinj H. pose proof H as H0.
  unfold visitSourceFile in H. cbv zeta in H.
  destruct (_ && _); [| injection H as <-; exact H0].
  apply outcome_bind_inv in H as (potential & Hp & H).
  apply filterM_returned_inv in Hp.
  destruct (negb _); [| injection H as <-; exact H0].
  apply outcome_bind_inv in H as (visited & Hv & H). injection H as <-.
  clear H0. apply mapM_returned_inv in Hv.
  set (out := updateSourceFileNode sourceFile (flattenVisited visited)).
  pose (C := fun s' : Statement =>
               (forall d, s' = ImportStatement d ->
                          forall n, In n (candidateNames d) -> n <> "")
               /\ forall potential',
                   (forall d, s' = ImportStatement d ->
                              (Js.indexOf sameNode potential' d <> (-1)%Z
                               <-> passesPreFilter d = true)) ->
                   outcome (visitNodeAndChildren s' potential' out program options)
                   = Returned (OneNode s')).
  assert (Inert : forall x,
             (forall d, x = ImportStatement d ->
                        (forall n, In n (candidateNames d) -> n <> "")
                        /\ (shouldRewrite options (moduleSpecifier d)
                                          (fileName sourceFile) = false
                            \/ outcome (getImportedReactComponents
                                          d (getTypeChecker program) options)
                               = Returned [])) ->
             C x).
  { intros x Hx. split.
    - intros d E. exact (proj1 (Hx d E)).
    - intros potential' _. apply statement_without_component_is_kept.
      intros d E. exact (proj2 (Hx d E)). }
  assert (Kept : forall s,
             In s (statements sourceFile) ->
             outcome (visitNode s potential sourceFile program options)
             = Returned (OneNode s) ->
             C s).
  { intros s Hs Hr. split.
    - intros d -> n Hn. apply in_importDeclarationsOf in Hs.
      exact (@plainImport_names_nonempty d (Hplain d Hs) n Hn).
    - intros potential' Hm. rewrite visitNodeAndChildren_outcome, <- Hr.
      f_equal. apply visitNode_same; [reflexivity |].
      intros d ->. apply in_importDeclarationsOf in Hs.
      rewrite (Hm d eq_refl). subst potential. symmetry.
      apply prefiltered_membership. exact Hs. }
  assert (K : forall s', In s' (statements out) -> C s').
  { intros s' Hs'. cbn [out statements updateSourceFileNode] in Hs'.
    unfold flattenVisited in Hs'. apply in_flat_map in Hs' as (v & Hv' & Hs').
    destruct (@Forall2_In_r _ _ _ _ _ v Hv Hv') as (s & Hs & Hr).
    rewrite visitNodeAndChildren_outcome in Hr.
    destruct (visitNode_cases s potential sourceFile program options)
      as [E | (d & clause & -> & Hc & _ & E)].
    { rewrite E in Hr. injection Hr as <-. destruct Hs' as [<- | []].
      apply (Kept s Hs). rewrite E. reflexivity. }
    destruct v as [s'' | l].
    { pose proof Hr as Hr'. rewrite E in Hr'.
      apply rewriteImport_one in Hr'. subst s''. destruct Hs' as [<- | []].
      exact (Kept _ Hs Hr). }
    rewrite E in Hr.
    apply rewriteImport_array in Hr
      as (names & lazies & Hnames & _ & Hlazies & _ & Hl).
    apply in_importDeclarationsOf in Hs.
    destruct (Hplain d Hs clause Hc) as (P1 & P2 & P3).
    assert (Inj : forall i,
               createImportDeclaration options (fileName sourceFile) = Some i ->
               C (ImportStatement i)).
    { intros i Ei. apply Inert. intros d0 E0. injection E0 as <-.
      exact (Hinj i Ei). }
    assert (Laz : forall x, In x lazies -> C x).
    { intros x Hx. apply Inert. intros d0 ->.
      apply (lazies_are_not_imports _ _ _ _ _ Hlazies) in Hx. discriminate. }
    assert (Res : C (ImportStatement (residualImport d clause names))).
    { apply Inert. intros d0 E0. injection E0 as <-. split.
      - apply residual_import_names_nonempty; [exact P1 |].
        intros e He. exact (proj2 (P2 e He)).
      - right. apply residual_import_holds_no_component; auto.
        intros e He. exact (proj1 (P2 e He)). }
    assert (Front : forall x,
               In x (withInjectedImport options (fileName sourceFile) lazies) ->
               C x).
    { intros x Hx. unfold withInjectedImport in Hx.
      destruct (createImportDeclaration options (fileName sourceFile)) as [i |];
        [| exact (Laz x Hx)].
      destruct Hx as [<- | Hx]; [exact (Inj i eq_refl) | exact (Laz x Hx)]. }
    destruct Hl as [[_ ->] | (_ & _ & ->)]; [exact (Front s' Hs') |].
    apply in_app_iff in Hs' as [Hs' | [<- | []]];
      [exact (Front s' Hs') | exact Res]. }
  unfold visitSourceFile. cbv zeta.
  destruct (_ && _); [| reflexivity].
  destruct (filterM_returns (importDeclarationsOf (statements out)))
    as [potential' Hp'].
  { intros d n Hd. apply in_importDeclarationsOf in Hd.
    exact (proj1 (K _ Hd) d eq_refl n). }
  rewrite (outcome_bind _ _ Hp'). apply filterM_returned_inv in Hp'.
  destruct (negb _); [| reflexivity].
  rewrite (@outcome_bind _ _ _ _ (map OneNode (statements out))).
  - simpl. rewrite flattenVisited_one. reflexivity.
  - apply mapM_returned. intros s' Hs'. apply (proj2 (K s' Hs')).
    intros d ->. apply in_importDeclarationsOf in Hs'. subst potential'.
    apply prefiltered_membership. exact Hs'.
Qed.

(** X16 at work: the output of the module of the mixed test is returned
    as it is by a second run. *)
Lemma transform_idempotent_witness :
  exists out,
    outcome (visitSourceFile Sample.mixFile Sample.mixProgram defaultOptions)
    = Returned out
    /\ outcome (visitSourceFile out Sample.mixProgram defaultOptions)
       = Returned out.
Proof.
  eexists. split; [reflexivity |].
  apply (@transform_is_idempotent_on_plain_imports
           Sample.mixFile Sample.mixProgram defaultOptions).
  - simpl. intros d [<- | [<- | []]] clause Hc; injection Hc as <-.
    + repeat split; try discriminate; try contradiction. repeat constructor.
    + split; [| split].
      * intros n E. injection E as <-. split; [reflexivity | discriminate].
      * simpl. intros e [<- | [<- | []]]; split; try reflexivity; discriminate.
      * repeat constructor; simpl; intuition discriminate.
  - discriminate.
  - reflexivity.
Defined.

(** ** A default name led by two underscores *)

(** X17: a default import alone in its statement, whose name begins with
    two underscores and whose module's default export is a component,
    makes the visit throw: the component name is the identifier's [text],
    the default name it is compared with is its [escapedText], they
    differ, and the named import looked up next does not exist. *)
Theorem lone_default_led_by_two_underscores_throws :
  forall d clause n potentialComponentImports sourceFile program options,
    Js.indexOf sameNode potentialComponentImports d <> (-1)%Z ->
    importClause d = Some clause ->
    clauseName clause = Some n ->
    namedBindings clause = None ->
    escapedText n <> text n ->
    shouldRewrite options (moduleSpecifier d) (fileName sourceFile) = true ->
    outcome (isComponentType "default" d (getTypeChecker program)) = Returned true ->
    outcome (visitNode (ImportStatement d) potentialComponentImports
                       sourceFile program options)
    = Thrown (Js.TypeError "elements").
Proof.
  intros d clause n potential sourceFile program options
         Hin Hc Hn Hnb Hne Hshould Hdefault.
  unfold visitNode. rewrite Hc.
  destruct (Z.eqb_spec (Js.indexOf sameNode potential d) (-1)) as [C | _];
    [contradiction |].
  simpl negb. cbv iota. unfold rewriteImport.
  rewrite outcome_bind_tell, Hshould. simpl negb. cbv iota.
  assert (Hnames : outcome (getImportedReactComponents
                              d (getTypeChecker program) options)
                   = Returned [text n]).
  { unfold getImportedReactComponents. rewrite Hc, Hn, Hnb.
    rewrite (@outcome_bind _ _ _ _ [text n]).
    - destruct (negb (onlyRewriteDefaultExports options)); reflexivity.
    - rewrite (outcome_bind _ _ Hdefault). reflexivity. }
  rewrite (outcome_bind _ _ Hnames). cbv beta zeta. simpl negb. cbv iota.
  rewrite Hn.
  unfold mapM, additionalStatement, elementsOf, differsFrom. rewrite Hnb.
  simpl option_map. cbv iota.
  destruct (String.eqb_spec (escapedText n) (text n)) as [E | _];
    [contradiction | reflexivity].
Qed.

(** X17 at work: [import __MyComp from "./component1"]. *)
Lemma lone_default_led_by_two_underscores_witness :
  outcome (visitNode (ImportStatement Sample3.importDunderDefault)
                     [Sample3.importDunderDefault]
                     (Sample.fileWith Sample3.importDunderDefault)
                     Sample.mixProgram defaultOptions)
  = Thrown (Js.TypeError "elements").
Proof.
  refine (@lone_default_led_by_two_underscores_throws
            Sample3.importDunderDefault _ _ [Sample3.importDunderDefault]
            (Sample.fileWith Sample3.importDunderDefault)
            Sample.mixProgram defaultOptions
            _ eq_refl eq_refl eq_refl _ eq_refl eq_refl).
  - vm_compute. discriminate.
  - vm_compute. discriminate.
Defined.
